(** * Multi-data dashboard: the data-normalisation layer

    A shallow embedding of [Multi-data-dashboard.py]: the three fetchers
    ([fetch_crypto_data], [get_coordinates], [fetch_weather_data]), the mock
    stock generator and the dashboard callbacks, with the properties of the
    specification stated over them.

    Modelling conventions.
    - A Python exception is a value of [exn]; a computation that may raise
      returns a [result].  [except Exception] catches every [exn].
    - The outside world is an [Env]: the HTTP services, pandas' date parser for
      strings, the wall clock and the pseudo-random generator.  The mutable part
      (standard output, how many clock readings and random draws were taken) is
      a [State], threaded by the monad [M].
    - A [float] is an IEEE 754 binary64 number, with the arithmetic of the
      Standard Library's [SpecFloat]: every operation rounds to nearest, ties
      to even.  [Finite q] is the float nearest to the rational [q], as a
      decimal literal or a JSON number is read.  The order in which numpy
      adds up a column is the environment's ([np_sum]).
    - A pandas [Timestamp] is a count of nanoseconds since the Unix epoch, in
      the signed 64-bit range; a conversion that leaves the range raises
      [OutOfBoundsDatetime].
    - The libraries behave as pandas 2 and numpy 2 do: a column of prices is
      a float64 column, also when one of the concatenated frames is empty
      (division by zero gives an infinity or a NaN and does not raise), and
      a negative count converted to an unsigned integer raises
      [OverflowError].
    - A text is a string of bytes.  [str.capitalize] is computed on ASCII
      text; beyond ASCII the case mapping is the environment's.
    - A [DataFrame] is its column labels and its rows, every row aligned with
      the labels.
    - The JSON documents of the three services are typed by the members the
      program reads ([body]); a member that may be absent is an [option]. *)

From Stdlib Require Import ZArith QArith Qround List String Ascii Bool Lia.
From Stdlib Require Import DecimalString Sorted OrderedTypeEx SpecFloat.
Import ListNotations.

Local Open Scope list_scope.
Local Open Scope string_scope.
Local Open Scope Z_scope.

(** ** Exceptions and results *)

Inductive exn : Type :=
| RequestException (msg : string)   (* requests: connection error, timeout, ... *)
| JSONDecodeError (msg : string)
| KeyError (key : string)
| IndexError (msg : string)
| TypeError (msg : string)
| ValueError (msg : string)
| OverflowError (msg : string)
| OutOfBoundsDatetime (msg : string).   (* pandas: an instant out of range *)

Definition str_exn (e : exn) : string :=
  match e with
  | RequestException m | JSONDecodeError m | IndexError m
  | TypeError m | ValueError m | OverflowError m | OutOfBoundsDatetime m => m
  | KeyError k => "'" ++ k ++ "'"
  end.

Inductive result (A : Type) : Type :=
| Ok (a : A)
| Raise (e : exn).
Arguments Ok {A} a.
Arguments Raise {A} e.

(** ** Numbers *)

(** A Python or numpy float is an IEEE 754 binary64 number.  The arithmetic
    is that of the Standard Library's specification of binary floating
    point: every operation rounds to nearest, ties to even. *)
Definition float : Type := spec_float.

Definition prec : Z := 53.
Definition emax : Z := 1024.

Definition NaN : float := S754_nan.
Definition Inf (negative : bool) : float := S754_infinity negative.

Definition fopp (x : float) : float := SFopp x.
Definition fadd (x y : float) : float := SFadd prec emax x y.
Definition fsub (x y : float) : float := SFsub prec emax x y.
Definition fmul (x y : float) : float := SFmul prec emax x y.

(** Division of numpy floats never raises: a zero divisor gives an infinity or
    a NaN. *)
Definition fdiv (x y : float) : float := SFdiv prec emax x y.

(** The float nearest to the quotient of two positive integers. *)
Definition nearest (negative : bool) (n d : positive) : float :=
  let '(m, e, l) := SFdiv_core_binary prec emax (Zpos n) 0 (Zpos d) 0 in
  binary_round_aux prec emax negative m e l.

(** The float a number written in decimal stands for, in the source and in a
    JSON document: the float nearest to it. *)
Definition Finite (q : Q) : float :=
  match Qnum q with
  | Z0 => S754_zero false
  | Zpos n => nearest false n (Qden q)
  | Zneg n => nearest true n (Qden q)
  end.

(** [float(z)] *)
Definition of_int (z : Z) : float := Finite (inject_Z z).

Arguments Finite : simpl never.
Arguments of_int : simpl never.
Arguments fadd : simpl never.
Arguments fsub : simpl never.
Arguments fmul : simpl never.
Arguments fdiv : simpl never.


(** [x > 0] on floats; every comparison with NaN is false. *)
Definition fpositive (x : float) : bool := SFltb (S754_zero false) x.

Definition sign_bit (x : float) : bool :=
  match x with
  | S754_zero s | S754_infinity s | S754_finite s _ _ => s
  | S754_nan => false
  end.

(** The absolute value of a finite float, as a rational. *)
Definition magnitude (x : float) : Q :=
  match x with
  | S754_finite _ m (Zpos e) => inject_Z (Zpos (m * 2 ^ e))
  | S754_finite _ m Z0 => inject_Z (Zpos m)
  | S754_finite _ m (Zneg e) => Zpos m # 2 ^ e
  | _ => 0
  end.

(** ** Instants and the calendar *)

(** Nanoseconds since 1970-01-01 00:00:00. *)
Definition Timestamp : Type := Z.

Definition MILLISECOND : Z := 1000000.
Definition SECOND : Z := 1000000000.
Definition DAY : Z := 86400 * SECOND.

(** The instants pandas represents: a signed 64-bit count of nanoseconds,
    the least value excepted ([pd.Timestamp.min] and [pd.Timestamp.max]). *)
Definition Timestamp_min : Z := - (2 ^ 63 - 1).
Definition Timestamp_max : Z := 2 ^ 63 - 1.

Definition in_bounds (t : Z) : bool :=
  (Timestamp_min <=? t) && (t <=? Timestamp_max).

(** The proleptic Gregorian calendar: day number since the epoch to
    (year, month, day) and back. *)
Definition civil_from_days (z : Z) : Z * Z * Z :=
  let z := z + 719468 in
  let era := z / 146097 in
  let doe := z - era * 146097 in
  let yoe := (doe - doe / 1460 + doe / 36524 - doe / 146096) / 365 in
  let doy := doe - (365 * yoe + yoe / 4 - yoe / 100) in
  let mp := (5 * doy + 2) / 153 in
  let d := doy - (153 * mp + 2) / 5 + 1 in
  let m := if mp <? 10 then mp + 3 else mp - 9 in
  ((if m <=? 2 then yoe + era * 400 + 1 else yoe + era * 400), m, d).

Definition days_from_civil (y m d : Z) : Z :=
  let y := if m <=? 2 then y - 1 else y in
  let era := y / 400 in
  let yoe := y - era * 400 in
  let doy := (153 * (if 2 <? m then m - 3 else m + 9) + 2) / 5 + d - 1 in
  let doe := yoe * 365 + yoe / 4 - yoe / 100 + doy in
  era * 146097 + doe - 719468.

Definition digits (z : Z) : string :=
  NilZero.string_of_uint (N.to_uint (Z.to_N z)).

(** [str(z)] *)
Definition str_int (z : Z) : string :=
  if z <? 0 then "-" ++ digits (- z) else digits z.

Definition zero_pad (width : nat) (s : string) : string :=
  string_of_list_ascii (repeat "0"%char (width - String.length s))
  ++ s.

(** [t.strftime("%Y-%m-%d %H:%M:%S")] *)
Definition strftime (t : Timestamp) : string :=
  let '(y, m, d) := civil_from_days (t / DAY) in
  let secs := (t mod DAY) / SECOND in
  zero_pad 4 (digits y) ++ "-" ++ zero_pad 2 (digits m) ++ "-"
  ++ zero_pad 2 (digits d) ++ " " ++ zero_pad 2 (digits (secs / 3600))
  ++ ":" ++ zero_pad 2 (digits ((secs / 60) mod 60))
  ++ ":" ++ zero_pad 2 (digits (secs mod 60)).

(** ** Strings *)

Definition is_lower (c : ascii) : bool :=
  let n := nat_of_ascii c in (97 <=? n)%nat && (n <=? 122)%nat.
Definition is_upper (c : ascii) : bool :=
  let n := nat_of_ascii c in (65 <=? n)%nat && (n <=? 90)%nat.
Definition to_upper (c : ascii) : ascii :=
  if is_lower c then ascii_of_nat (nat_of_ascii c - 32) else c.
Definition to_lower (c : ascii) : ascii :=
  if is_upper c then ascii_of_nat (nat_of_ascii c + 32) else c.

Fixpoint lower (s : string) : string :=
  match s with
  | EmptyString => EmptyString
  | String c rest => String (to_lower c) (lower rest)
  end.

(** A text is a string of bytes; it is ASCII when every byte is below 128. *)
Definition is_ascii (s : string) : bool :=
  forallb (fun c => (nat_of_ascii c <? 128)%nat) (list_ascii_of_string s).

(** [str.capitalize()] on an ASCII text: first character upper-cased, the
    rest lower-cased. *)
Definition capitalize_ascii (s : string) : string :=
  match s with
  | EmptyString => EmptyString
  | String c rest => String (to_upper c) (lower rest)
  end.

(** ** Python scalars, HTTP payloads *)

Inductive pyval : Type :=
| PyNone
| PyInt (z : Z)
| PyFloat (x : float)
| PyStr (s : string)
| PyTime (t : Timestamp).

Definition params : Type := list (string * pyval).

Fixpoint dict_get {A : Type} (key : string) (d : list (string * A)) : option A :=
  match d with
  | [] => None
  | (k, v) :: d' => if String.eqb k key then Some v else dict_get key d'
  end.

(** [d[key]] *)
Definition getitem {A : Type} (d : list (string * A)) (key : string) : result A :=
  match dict_get key d with
  | Some v => Ok v
  | None => Raise (KeyError key)
  end.

(** One hit of the geocoding service: a JSON object with scalar members. *)
Definition Place : Type := list (string * pyval).

(** The ["hourly"] object of a forecast: a member that is absent is [None]. *)
Record Hourly : Type := {
  time : option (list string);
  temperature_2m : option (list Q);
  relative_humidity_2m : option (list Q);
  precipitation : option (list Q)
}.

(** The JSON documents of the three services, by the members the program
    reads.  An absent member is [None]. *)
Inductive body : Type :=
| MarketChart (prices : option (list (Z * Q)))
| Geocoding (results : option (list Place))
| Forecast (hourly : option Hourly).

Record Response : Type := {
  status_code : Z;
  json : result body          (* [response.json()] *)
}.

(** ** Environment, state and the monad of the program *)

Record Env : Type := {
  requests_get : string -> params -> Z -> result Response;
  pd_to_datetime : list string -> result (list Timestamp);
  clock : nat -> Timestamp;       (* the successive readings of the wall clock *)
  randn_stream : nat -> Q;        (* the successive standard-normal draws *)
  str_capitalize : string -> string;   (* [str.capitalize] beyond ASCII *)
  out_of_bounds_text : list Z -> string;
                          (* the text of pandas' error for a column of epochs *)
  np_sum : list float -> float    (* the sum of a column, in numpy's order *)
}.

(** [s.capitalize()]: computed on ASCII text; the case mapping of Unicode
    beyond ASCII is the environment's. *)
Definition capitalize (env : Env) (s : string) : string :=
  if is_ascii s then capitalize_ascii s else str_capitalize env s.

Record State : Type := {
  stdout : list string;
  clock_reads : nat;
  random_draws : nat
}.

Definition initial_state : State :=
  {| stdout := []; clock_reads := 0; random_draws := 0 |}.

Definition M (A : Type) : Type := Env -> State -> result A * State.

Definition ret {A : Type} (a : A) : M A := fun _ s => (Ok a, s).

Definition bind {A B : Type} (m : M A) (k : A -> M B) : M B :=
  fun env s =>
    match m env s with
    | (Ok a, s') => k a env s'
    | (Raise e, s') => (Raise e, s')
    end.

Notation "x <- m ;; k" := (bind m (fun x => k))
  (at level 61, m at next level, right associativity).
Notation "' pat <- m ;; k" :=
  (bind m (fun x => match x with pat => k end))
  (at level 61, pat pattern, m at next level, right associativity).
Notation "m ;;; k" := (bind m (fun _ => k))
  (at level 61, right associativity).

Definition lift {A : Type} (r : result A) : M A := fun _ s => (r, s).

(** A computation that consults the environment. *)
Definition ask {A : Type} (f : Env -> A) : M A := fun env s => (Ok (f env), s).

(** [try: body  except Exception as e: handler e] *)
Definition try_except {A : Type} (body : M A) (handler : exn -> M A) : M A :=
  fun env s =>
    match body env s with
    | (Ok a, s') => (Ok a, s')
    | (Raise e, s') => handler e env s'
    end.

Definition print (line : string) : M unit :=
  fun _ s => (Ok tt, {| stdout := stdout s ++ [line];
                         clock_reads := clock_reads s;
                         random_draws := random_draws s |}).

Definition http_get (url : string) (p : params) (timeout : Z) : M Response :=
  fun env s => (requests_get env url p timeout, s).

Definition datetime_now : M Timestamp :=
  fun env s => (Ok (clock env (clock_reads s)),
                {| stdout := stdout s;
                   clock_reads := S (clock_reads s);
                   random_draws := random_draws s |}).

(** [np.random.randn(n)]: the next [n] draws of the generator. *)
Definition np_random_randn (n : Z) : M (list Q) :=
  fun env s =>
    if n <? 0 then (Raise (ValueError "negative dimensions are not allowed"), s)
    else
      let k := Z.to_nat n in
      (Ok (map (fun i => randn_stream env (random_draws s + i)%nat) (seq 0 k)),
       {| stdout := stdout s;
          clock_reads := clock_reads s;
          random_draws := (random_draws s + k)%nat |}).

(** [for x in xs: acc = body acc x] *)
Fixpoint for_each {A S : Type} (xs : list A) (body : S -> A -> M S) (acc : S)
  : M S :=
  match xs with
  | [] => ret acc
  | x :: xs' => acc' <- body acc x ;; for_each xs' body acc'
  end.

(** ** Data frames *)

Record DataFrame : Type := {
  columns : list string;
  rows : list (list pyval)
}.

(** [pd.DataFrame()] *)
Definition pd_DataFrame_empty : DataFrame := {| columns := []; rows := [] |}.

(** [df.empty]: no rows or no columns. *)
Definition empty (df : DataFrame) : bool :=
  match rows df, columns df with
  | [], _ | _, [] => true
  | _ :: _, _ :: _ => false
  end.

Fixpoint column_index (name : string) (cols : list string) : option nat :=
  match cols with
  | [] => None
  | c :: cols' =>
      if String.eqb c name then Some 0%nat
      else option_map S (column_index name cols')
  end.

Definition NaN_cell : pyval := PyFloat NaN.

(** [df[name]] *)
Definition series (df : DataFrame) (name : string) : result (list pyval) :=
  match column_index name (columns df) with
  | Some i => Ok (map (fun row => nth i row NaN_cell) (rows df))
  | None => Raise (KeyError name)
  end.

Fixpoint replace_nth {A : Type} (i : nat) (x : A) (l : list A) : list A :=
  match l, i with
  | [], _ => []
  | _ :: l', O => x :: l'
  | y :: l', S i' => y :: replace_nth i' x l'
  end.

Definition set_cell (cols : list string) (name : string) (v : pyval)
  (row : list pyval) : list pyval :=
  match column_index name cols with
  | Some i => replace_nth i v row
  | None => (row ++ [v])%list
  end.

Definition with_column (cols : list string) (name : string) : list string :=
  match column_index name cols with
  | Some _ => cols
  | None => (cols ++ [name])%list
  end.

(** [df[name] = values] for a list-like [values] *)
Definition setitem (df : DataFrame) (name : string) (values : list pyval)
  : result DataFrame :=
  match columns df with
  | [] => Ok {| columns := [name]; rows := map (fun v => [v]) values |}
  | _ :: _ =>
      if (List.length values =? List.length (rows df))%nat then
        Ok {| columns := with_column (columns df) name;
              rows := map (fun '(row, v) => set_cell (columns df) name v row)
                        (combine (rows df) values) |}
      else Raise (ValueError "Length of values does not match length of index")
  end.

(** [df[name] = v] for a scalar [v]: the value is repeated on every row. *)
Definition setitem_scalar (df : DataFrame) (name : string) (v : pyval)
  : DataFrame :=
  {| columns := with_column (columns df) name;
     rows := map (set_cell (columns df) name v) (rows df) |}.

(** [pd.DataFrame(data, columns=[c1, c2])] for a list of two-element records. *)
Definition pd_DataFrame_pairs (data : list (Z * Q)) (c1 c2 : string) : DataFrame :=
  {| columns := [c1; c2];
     rows := map (fun '(a, b) => [PyInt a; PyFloat (Finite b)]) data |}.

Fixpoint traverse {A B : Type} (f : A -> result B) (l : list A)
  : result (list B) :=
  match l with
  | [] => Ok []
  | x :: l' =>
      match f x with
      | Raise e => Raise e
      | Ok y =>
          match traverse f l' with
          | Raise e => Raise e
          | Ok ys => Ok (y :: ys)
          end
      end
  end.

(** The integers of a column of epochs. *)
Definition epochs (column : list pyval) : result (list Z) :=
  traverse (fun v =>
              match v with
              | PyInt ms => Ok ms
              | _ => Raise (TypeError "epoch milliseconds expected")
              end) column.

(** [pd.to_datetime(column, unit='ms')] on a column of integer epochs: the
    instants, when every one of them is an instant pandas represents;
    [text] is the text of the error otherwise. *)
Definition pd_to_datetime_ms (text : list Z -> string) (column : list pyval)
  : result (list pyval) :=
  match epochs column with
  | Raise e => Raise e
  | Ok ms =>
      if forallb (fun m => in_bounds (m * MILLISECOND)) ms
      then Ok (map (fun m => PyTime (m * MILLISECOND)) ms)
      else Raise (OutOfBoundsDatetime (text ms))
  end.

Definition union_columns (frames : list DataFrame) : list string :=
  fold_left
    (fun acc df =>
       (acc ++ filter (fun c => match column_index c acc with
                                | Some _ => false
                                | None => true
                                end) (columns df))%list)
    frames [].

Definition reindex_row (from to : list string) (row : list pyval)
  : list pyval :=
  map (fun c => match column_index c from with
                | Some i => nth i row NaN_cell
                | None => NaN_cell
                end) to.

(** [pd.concat(frames)]: the rows of the frames one after the other, over the
    union of their columns. *)
Definition pd_concat (frames : list DataFrame) : result DataFrame :=
  match frames with
  | [] => Raise (ValueError "No objects to concatenate")
  | _ :: _ =>
      let cols := union_columns frames in
      Ok {| columns := cols;
            rows := flat_map (fun df => map (reindex_row (columns df) cols)
                                          (rows df)) frames |}
  end.

(** ** Data fetching functions *)

Definition CRYPTO_API : string := "https://api.coingecko.com/api/v3".
Definition WEATHER_API : string := "https://api.open-meteo.com/v1/forecast".

Definition default_coins : list string := ["bitcoin"; "ethereum"; "cardano"].

(** [response.json()['prices']] *)
Definition json_prices (response : Response) : result (list (Z * Q)) :=
  match json response with
  | Raise e => Raise e
  | Ok (MarketChart (Some prices)) => Ok prices
  | Ok _ => Raise (KeyError "prices")
  end.

(** The body of the loop of [fetch_crypto_data]: one request, and the frame of
    the coin appended to [data] when the request succeeds. *)
Definition fetch_coin (days : Z) (data : list DataFrame) (coin : string)
  : M (list DataFrame) :=
  try_except
    (let url := CRYPTO_API ++ "/coins/" ++ coin ++ "/market_chart" in
     let params := [("vs_currency", PyStr "usd"); ("days", PyInt days)] in
     response <- http_get url params 10 ;;
     if status_code response =? 200 then
       prices <- lift (json_prices response) ;;
       let df := pd_DataFrame_pairs prices "timestamp" "price" in
       ts <- lift (series df "timestamp") ;;
       text <- ask out_of_bounds_text ;;
       ts <- lift (pd_to_datetime_ms text ts) ;;
       df <- lift (setitem df "timestamp" ts) ;;
       name <- ask (fun env => capitalize env coin) ;;
       let df := setitem_scalar df "coin" (PyStr name) in
       ret (data ++ [df])%list
     else ret data)
    (fun e => print ("Error fetching " ++ coin ++ ": " ++ str_exn e) ;;;
              ret data).

Definition fetch_crypto_data (coins : list string) (days : Z) : M DataFrame :=
  data <- for_each coins (fetch_coin days) [] ;;
  match data with
  | [] => ret pd_DataFrame_empty
  | _ :: _ => lift (pd_concat data)
  end.

Definition GEOCODING_API : string :=
  "https://geocoding-api.open-meteo.com/v1/search".

(** The default location, New York. *)
Definition default_location : pyval * pyval * pyval :=
  (PyFloat (Finite 40.7128%Q), PyFloat (Finite (-74.0060)%Q), PyStr "New York").

(** [data['results']] when ['results' in data] *)
Definition json_results (data : body) : option (list Place) :=
  match data with
  | Geocoding results => results
  | _ => None
  end.

Definition get_coordinates (location_name : string)
  : M (pyval * pyval * pyval) :=
  found <- try_except
    (let url := GEOCODING_API in
     let params := [("name", PyStr location_name); ("count", PyInt 1);
                    ("language", PyStr "en"); ("format", PyStr "json")] in
     response <- http_get url params 10 ;;
     if status_code response =? 200 then
       data <- lift (json response) ;;
       match json_results data with
       | Some (result :: _) =>
           latitude <- lift (getitem result "latitude") ;;
           longitude <- lift (getitem result "longitude") ;;
           name <- lift (getitem result "name") ;;
           ret (Some (latitude, longitude, name))
       | Some [] | None => ret None
       end
     else ret None)
    (fun e => print ("Error geocoding location: " ++ str_exn e) ;;;
              ret None) ;;
  match found with
  | Some coordinates => ret coordinates
  | None => ret default_location
  end.

(** A value of the dictionary given to [pd.DataFrame]: an array or a scalar. *)
Inductive column_data : Type :=
| Array (values : list pyval)
| Scalar (v : pyval).

Fixpoint index_length (data : list (string * column_data)) : option nat :=
  match data with
  | [] => None
  | (_, Array values) :: _ => Some (List.length values)
  | (_, Scalar _) :: data' => index_length data'
  end.

Definition cell_of (d : column_data) (i : nat) : pyval :=
  match d with
  | Array values => nth i values NaN_cell
  | Scalar v => v
  end.

(** [pd.DataFrame({name: values, ...})]: the arrays must have one length, a
    scalar is repeated on every row. *)
Definition pd_DataFrame (data : list (string * column_data))
  : result DataFrame :=
  match data with
  | [] => Ok pd_DataFrame_empty
  | _ :: _ =>
      match index_length data with
      | None =>
          Raise (ValueError "If using all scalar values, you must pass an index")
      | Some n =>
          if forallb (fun '(_, d) => match d with
                                     | Array values =>
                                         (List.length values =? n)%nat
                                     | Scalar _ => true
                                     end) data
          then Ok {| columns := map fst data;
                     rows := map (fun i => map (fun '(_, d) => cell_of d i) data)
                               (seq 0 n) |}
          else Raise (ValueError "All arrays must be of the same length")
      end
  end.

(** [response.json()['hourly']] *)
Definition json_hourly (response : Response) : result Hourly :=
  match json response with
  | Raise e => Raise e
  | Ok (Forecast (Some h)) => Ok h
  | Ok _ => Raise (KeyError "hourly")
  end.

Definition member {A : Type} (key : string) (m : option A) : result A :=
  match m with
  | Some v => Ok v
  | None => Raise (KeyError key)
  end.

Definition floats (l : list Q) : list pyval :=
  map (fun q => PyFloat (Finite q)) l.

Definition fetch_weather_data (location_name : string) (days : Z)
  : M DataFrame :=
  '(latitude, longitude, resolved_name) <- get_coordinates location_name ;;
  fetched <- try_except
    (let params := [("latitude", latitude); ("longitude", longitude);
                    ("hourly",
                     PyStr "temperature_2m,relative_humidity_2m,precipitation");
                    ("forecast_days", PyInt days);
                    ("timezone", PyStr "auto")] in
     response <- http_get WEATHER_API params 10 ;;
     if status_code response =? 200 then
       data <- lift (json_hourly response) ;;
       times <- lift (member "time" (time data)) ;;
       times <- (fun env s => (pd_to_datetime env times, s)) ;;
       temperature <- lift (member "temperature_2m" (temperature_2m data)) ;;
       humidity <- lift (member "relative_humidity_2m"
                           (relative_humidity_2m data)) ;;
       precip <- lift (member "precipitation" (precipitation data)) ;;
       df <- lift (pd_DataFrame
                     [("time", Array (map PyTime times));
                      ("temperature", Array (floats temperature));
                      ("humidity", Array (floats humidity));
                      ("precipitation", Array (floats precip))]) ;;
       let df := setitem_scalar df "location" resolved_name in
       ret (Some df)
     else ret None)
    (fun e => print ("Error fetching weather: " ++ str_exn e) ;;; ret None) ;;
  match fetched with
  | Some df => ret df
  | None => ret pd_DataFrame_empty
  end.

Definition default_symbols : list string := ["AAPL"; "GOOGL"; "MSFT"].

Definition base_prices : list (string * Z) :=
  [("AAPL", 180); ("GOOGL", 140); ("MSFT", 380)].

(** [d.get(key, default)] *)
Definition dict_get_default {A : Type} (d : list (string * A)) (key : string)
  (default : A) : A :=
  match dict_get key d with
  | Some v => v
  | None => default
  end.

Definition UINT64_MAX : Z := 2 ^ 64 - 1.

(** The [periods] days that end at [t] are instants pandas represents, and
    so are the two days after [t]: the range is generated from its first
    instant up to the day after [t], in signed 64-bit steps of at most half
    the range. *)
Definition date_range_fits (t : Timestamp) (periods : Z) : bool :=
  in_bounds t && in_bounds (t + 2 * DAY)
  && in_bounds (t - (periods - 1) * DAY).

(** [pd.date_range(end=t, periods=n, freq='D')]: [n] instants one day apart,
    the last of them [t].  The end is converted to a [Timestamp], the
    number of periods to an unsigned 64-bit integer of numpy, and the range
    is generated from its first instant.  A range that does not fit is out
    of bounds; so is taken to be, in this model, a range whose end is less
    than two days before the last instant of pandas.  The program prints
    none of these errors; their texts are indicative. *)
Definition pd_date_range (t : Timestamp) (periods : Z)
  : result (list Timestamp) :=
  if negb (in_bounds t) then
    Raise (OutOfBoundsDatetime "Out of bounds nanosecond timestamp")
  else if (periods <? 0) || (UINT64_MAX <? periods) then
    Raise (OverflowError ("Python integer " ++ str_int periods
                          ++ " out of bounds for uint64"))
  else if date_range_fits t periods then
    let n := Z.to_nat periods in
    Ok (map (fun i => t - (periods - 1 - Z.of_nat i) * DAY) (seq 0 n))
  else
    Raise (OutOfBoundsDatetime
             ("Cannot generate range with end=" ++ str_int (t + DAY)
              ++ " and periods=" ++ str_int periods)).

Fixpoint cumsum_from (acc : float) (xs : list float) : list float :=
  match xs with
  | [] => []
  | x :: xs' => let acc' := fadd acc x in acc' :: cumsum_from acc' xs'
  end.

(** [np.cumsum(xs)] *)
Definition np_cumsum (xs : list float) : list float :=
  match xs with
  | [] => []
  | x :: xs' => x :: cumsum_from x xs'
  end.

(** The body of the loop of [generate_mock_stock_data]. *)
Definition mock_symbol (days : Z) (data : list DataFrame) (symbol : string)
  : M (list DataFrame) :=
  now <- datetime_now ;;
  dates <- lift (pd_date_range now days) ;;
  let base := dict_get_default base_prices symbol 100 in
  steps <- np_random_randn days ;;
  let prices :=
    map (fadd (of_int base))
      (np_cumsum (map (fun x => fmul (Finite x) (of_int 5)) steps)) in
  df <- lift (pd_DataFrame [("date", Array (map PyTime dates));
                            ("price", Array (map PyFloat prices));
                            ("symbol", Scalar (PyStr symbol))]) ;;
  ret (data ++ [df])%list.

Definition generate_mock_stock_data (symbols : list string) (days : Z)
  : M DataFrame :=
  data <- for_each symbols (mock_symbol days) [] ;;
  lift (pd_concat data).

(** ** Number formatting *)

(** Rounding to the nearest integer, ties to even. *)
Definition round_half_even (q : Q) : Z :=
  let f := Qfloor q in
  match (q - inject_Z f ?= 1 # 2)%Q with
  | Lt => f
  | Gt => f + 1
  | Eq => if Z.even f then f else f + 1
  end.

Fixpoint group_thousands (rev_digits : list ascii) : list ascii :=
  match rev_digits with
  | a :: b :: c :: ((_ :: _) as rest) =>
      a :: b :: c :: ","%char :: group_thousands rest
  | _ => rev_digits
  end.

Definition with_commas (s : string) : string :=
  string_of_list_ascii
    (rev (group_thousands (rev (list_ascii_of_string s)))).

(** [format(x, "[+][,].<decimals>f")]: the decimal nearest to the value of
    the float, ties to even, with the sign of the float. *)
Definition format_fixed (plus comma : bool) (decimals : nat) (x : float)
  : string :=
  match x with
  | S754_nan => if plus then "+nan" else "nan"
  | S754_infinity true => "-inf"
  | S754_infinity false => if plus then "+inf" else "inf"
  | S754_zero _ | S754_finite _ _ _ =>
      let scale := 10 ^ Z.of_nat decimals in
      let n := round_half_even (magnitude x * inject_Z scale) in
      let whole := digits (n / scale) in
      (if sign_bit x then "-" else if plus then "+" else "")
      ++ (if comma then with_commas whole else whole)
      ++ match decimals with
         | O => ""
         | S _ => "." ++ zero_pad decimals (digits (n mod scale))
         end
  end.

(** ** Series and group-by *)

Definition as_float (v : pyval) : result float :=
  match v with
  | PyInt z => Ok (of_int z)
  | PyFloat x => Ok x
  | PyNone => Ok NaN
  | PyStr _ | PyTime _ => Raise (TypeError "unsupported operand type")
  end.

(** [s.iloc[0]] and [s.iloc[-1]] *)
Definition iloc_first {A : Type} (s : list A) : result A :=
  match s with
  | [] => Raise (IndexError "single positional indexer is out-of-bounds")
  | x :: _ => Ok x
  end.

Definition iloc_last {A : Type} (s : list A) : result A :=
  iloc_first (rev s).

(** [s.pct_change()] on a column without missing values: the first entry is
    NaN, every other one is [current / previous - 1]. *)
Definition pct_change (s : list pyval) : result (list float) :=
  match traverse as_float s with
  | Raise e => Raise e
  | Ok [] => Ok []
  | Ok (x :: xs) =>
      Ok (NaN :: map (fun '(previous, current) =>
                        fsub (fdiv current previous) (of_int 1))
                   (combine (x :: xs) xs))
  end.

Definition cell_is (label : string) (v : pyval) : bool :=
  match v with
  | PyStr s => String.eqb s label
  | _ => false
  end.

(** [df[df[key] == label]] *)
Definition select (df : DataFrame) (key label : string) : result DataFrame :=
  match column_index key (columns df) with
  | None => Raise (KeyError key)
  | Some i =>
      Ok {| columns := columns df;
            rows := filter (fun row => cell_is label (nth i row NaN_cell))
                      (rows df) |}
  end.

(** [df[df[key] == label][column]]: the series of one label. *)
Definition label_series (df : DataFrame) (key label column : string)
  : result (list pyval) :=
  match select df key label with
  | Raise e => Raise e
  | Ok sub => series sub column
  end.

Definition labels_of (column : list pyval) : list string :=
  flat_map (fun v => match v with PyStr s => [s] | _ => [] end) column.

(** [s.unique()]: the labels in order of first appearance. *)
Fixpoint unique (l : list string) : list string :=
  match l with
  | [] => []
  | x :: l' => x :: filter (fun y => negb (String.eqb x y)) (unique l')
  end.

Fixpoint insert_key (k : string) (l : list string) : list string :=
  match l with
  | [] => [k]
  | h :: t =>
      match String.compare k h with
      | Lt => k :: l
      | Eq => l
      | Gt => h :: insert_key k t
      end
  end.

(** The keys of [df.groupby(key)]: the distinct labels, sorted. *)
Definition group_keys (column : list pyval) : list string :=
  fold_right insert_key [] (labels_of column).

(** [df.groupby(key)[column].apply(f)], as the list of (label, value) *)
Definition groupby_apply (df : DataFrame) (key column : string)
  (f : list pyval -> result pyval) : result (list (string * pyval)) :=
  match series df key with
  | Raise e => Raise e
  | Ok labels =>
      traverse (fun label =>
                  match label_series df key label column with
                  | Raise e => Raise e
                  | Ok s => match f s with
                            | Raise e => Raise e
                            | Ok v => Ok (label, v)
                            end
                  end) (group_keys labels)
  end.

Definition is_missing (v : pyval) : bool :=
  match v with
  | PyNone | PyFloat S754_nan => true
  | _ => false
  end.

(** The aggregation [last] of a group: its last entry that is not missing. *)
Definition last_valid (s : list pyval) : result pyval :=
  match filter (fun v => negb (is_missing v)) (rev s) with
  | [] => Ok NaN_cell
  | v :: _ => Ok v
  end.

(** [df.groupby(key).last().reset_index()] *)
Definition groupby_last (df : DataFrame) (key : string) : result DataFrame :=
  match series df key with
  | Raise e => Raise e
  | Ok labels =>
      let others := filter (fun c => negb (String.eqb c key)) (columns df) in
      match traverse (fun label =>
                        match traverse (fun c =>
                                 match label_series df key label c with
                                 | Raise e => Raise e
                                 | Ok s => last_valid s
                                 end) others with
                        | Raise e => Raise e
                        | Ok cells => Ok (PyStr label :: cells)
                        end) (group_keys labels) with
      | Raise e => Raise e
      | Ok rs => Ok {| columns := key :: others; rows := rs |}
      end
  end.

(** The two percent changes of the crypto and stock dashboards. *)

(** [df[df[key] == label]['price'].pct_change().iloc[-1] * 100] *)
Definition last_step_change (df : DataFrame) (key label : string)
  : result float :=
  match label_series df key label "price" with
  | Raise e => Raise e
  | Ok s =>
      match pct_change s with
      | Raise e => Raise e
      | Ok changes =>
          match iloc_last changes with
          | Raise e => Raise e
          | Ok c => Ok (fmul c (of_int 100))
          end
      end
  end.

(** [lambda x: ((x.iloc[-1] - x.iloc[0]) / x.iloc[0] * 100)] *)
Definition total_change (x : list pyval) : result pyval :=
  match iloc_last x, iloc_first x with
  | Raise e, _ | Ok _, Raise e => Raise e
  | Ok l, Ok f =>
      match as_float l, as_float f with
      | Raise e, _ | Ok _, Raise e => Raise e
      | Ok l, Ok f => Ok (PyFloat (fmul (fdiv (fsub l f) f) (of_int 100)))
      end
  end.

(** ** Figures and cards *)

Definition COLORS : list (string * string) :=
  [("background", "#0f172a"); ("surface", "#1e293b"); ("primary", "#3b82f6");
   ("secondary", "#8b5cf6"); ("accent", "#10b981"); ("text", "#f1f5f9");
   ("text_secondary", "#94a3b8")].

Definition color (name : string) : string := dict_get_default COLORS name "".

Record Trace : Type := {
  trace_kind : string;
  trace_name : string;
  trace_x : list pyval;
  trace_y : list pyval
}.

Record Figure : Type := {
  fig_title : string;
  fig_traces : list Trace;
  fig_annotations : list string;
  fig_layout : list (string * string)
}.

(** [go.Figure()] *)
Definition go_Figure : Figure :=
  {| fig_title := ""; fig_traces := []; fig_annotations := [];
     fig_layout := [] |}.

Definition style_figure (fig : Figure) : Figure :=
  {| fig_title := fig_title fig;
     fig_traces := fig_traces fig;
     fig_annotations := fig_annotations fig;
     fig_layout :=
       [("paper_bgcolor", color "surface"); ("plot_bgcolor", color "surface");
        ("font.color", color "text"); ("font.family", "Inter, sans-serif");
        ("title_font.size", "18"); ("title_font.color", color "text");
        ("hovermode", "x unified");
        ("margin.l", "40"); ("margin.r", "40"); ("margin.t", "60");
        ("margin.b", "40");
        ("legend.bgcolor", color "background");
        ("legend.bordercolor", color "text_secondary");
        ("legend.borderwidth", "1");
        ("xaxis.gridcolor", color "text_secondary");
        ("xaxis.gridwidth", "0.5");
        ("yaxis.gridcolor", color "text_secondary");
        ("yaxis.gridwidth", "0.5")] |}.

(** One trace per label of the column [hue], in order of first appearance
    ([px.line] and [px.area] with [color=hue]). *)
Definition traces_by (kind : string) (df : DataFrame) (x y hue : string)
  : result (list Trace) :=
  match series df hue with
  | Raise e => Raise e
  | Ok labels =>
      traverse (fun label =>
                  match label_series df hue label x,
                        label_series df hue label y with
                  | Raise e, _ | Ok _, Raise e => Raise e
                  | Ok xs, Ok ys =>
                      Ok {| trace_kind := kind; trace_name := label;
                            trace_x := xs; trace_y := ys |}
                  end) (unique (labels_of labels))
  end.

(** A figure with the single trace of columns [x] and [y]
    ([px.line], [px.area] and [px.bar] without [color]). *)
Definition single_trace (kind : string) (df : DataFrame) (x y title : string)
  : result Figure :=
  match series df x, series df y with
  | Raise e, _ | Ok _, Raise e => Raise e
  | Ok xs, Ok ys =>
      Ok {| fig_title := title;
            fig_traces := [{| trace_kind := kind; trace_name := "";
                              trace_x := xs; trace_y := ys |}];
            fig_annotations := []; fig_layout := [] |}
  end.

Definition colored_traces (kind : string) (df : DataFrame)
  (x y hue title : string) : result Figure :=
  match traces_by kind df x y hue with
  | Raise e => Raise e
  | Ok ts => Ok {| fig_title := title; fig_traces := ts;
                   fig_annotations := []; fig_layout := [] |}
  end.

Record Card : Type := {
  card_title : string;
  card_value : string;
  card_text : string;
  card_text_class : string;
  card_border : string
}.

(** What a callback returns: the cards, the three figures and the time of the
    refresh. *)
Record Dashboard : Type := {
  stats_cards : list Card;
  main_chart : Figure;
  secondary_chart_1 : Figure;
  secondary_chart_2 : Figure;
  last_update : string
}.

Definition create_empty_dashboard (message : string) : M Dashboard :=
  let empty_fig :=
    style_figure {| fig_title := ""; fig_traces := [];
                    fig_annotations := [message]; fig_layout := [] |} in
  now <- datetime_now ;;
  ret {| stats_cards := []; main_chart := empty_fig;
         secondary_chart_1 := empty_fig; secondary_chart_2 := empty_fig;
         last_update := strftime now |}.

Definition colors_list : list string :=
  [color "primary"; color "secondary"; color "accent"].

(** The stats cards of the crypto and stock dashboards: one per label of
    [latest_prices], numbered from [i]. *)
Fixpoint price_cards (df : DataFrame) (key : string) (i : nat)
  (latest_prices : list (string * pyval)) : result (list Card) :=
  match latest_prices with
  | [] => Ok []
  | (label, price) :: rest =>
      match last_step_change df key label, as_float price with
      | Raise e, _ | Ok _, Raise e => Raise e
      | Ok price_change, Ok price =>
          match price_cards df key (S i) rest with
          | Raise e => Raise e
          | Ok cards =>
              Ok ({| card_title := label;
                     card_value := "$" ++ format_fixed false true 2 price;
                     card_text := format_fixed true false 2 price_change ++ "%";
                     card_text_class :=
                       if fpositive price_change then "card-change positive"
                       else "card-change negative";
                     card_border := nth (i mod 3) colors_list "" |} :: cards)
          end
      end
  end.

(** The bar chart of the total change per label. *)
Definition total_change_chart (df : DataFrame) (key title : string)
  : result Figure :=
  match groupby_last df key, groupby_apply df key "price" total_change with
  | Raise e, _ | Ok _, Raise e => Raise e
  | Ok latest_data, Ok changes =>
      match setitem latest_data "change" (map snd changes) with
      | Raise e => Raise e
      | Ok latest_data => single_trace "bar" latest_data key "change" title
      end
  end.

Definition update_crypto_dashboard (days : Z) : M Dashboard :=
  df <- fetch_crypto_data default_coins days ;;
  if empty df then create_empty_dashboard "No crypto data available"
  else
    latest_prices <- lift (groupby_apply df "coin" "price" last_valid) ;;
    cards <- lift (price_cards df "coin" 0 latest_prices) ;;
    fig_main <- lift (colored_traces "line" df "timestamp" "price" "coin"
                        ("Cryptocurrency Prices - Last " ++ str_int days
                         ++ " Days")) ;;
    let fig_main := style_figure fig_main in
    fig_sec1 <- lift (colored_traces "scatter" df "timestamp" "price" "coin"
                        "Price Distribution") ;;
    let fig_sec1 := style_figure fig_sec1 in
    fig_sec2 <- lift (total_change_chart df "coin" "Total Change (%)") ;;
    let fig_sec2 := style_figure fig_sec2 in
    now <- datetime_now ;;
    ret {| stats_cards := cards; main_chart := fig_main;
           secondary_chart_1 := fig_sec1; secondary_chart_2 := fig_sec2;
           last_update := strftime now |}.

(** [s.sum()] and [s.mean()] skip the missing values: they count as 0 in
    the sum, which is numpy's, and are left out of the count by which the
    mean divides the sum. *)
Definition fill_missing (xs : list float) : list float :=
  map (fun x => match x with
                | S754_nan => S754_zero false
                | _ => x
                end) xs.

Definition count_valid (xs : list float) : nat :=
  List.length (filter (fun x => negb (is_missing (PyFloat x))) xs).

Definition series_sum (sum : list float -> float) (s : list pyval)
  : result float :=
  match traverse as_float s with
  | Raise e => Raise e
  | Ok xs => Ok (sum (fill_missing xs))
  end.

Definition series_mean (sum : list float -> float) (s : list pyval)
  : result float :=
  match traverse as_float s with
  | Raise e => Raise e
  | Ok xs =>
      match count_valid xs with
      | O => Ok NaN
      | S _ as count =>
          Ok (fdiv (sum (fill_missing xs)) (of_int (Z.of_nat count)))
      end
  end.

(** The text of a cell; location names are strings, the other scalars get a
    fixed rendering. *)
Definition str_cell (v : pyval) : string :=
  match v with
  | PyStr s => s
  | PyInt z => str_int z
  | PyFloat x => format_fixed false false 1 x
  | PyNone => "None"
  | PyTime t => strftime t
  end.

Definition subtitle_card (title value subtitle border : string) : Card :=
  {| card_title := title; card_value := value; card_text := subtitle;
     card_text_class := "card-subtitle"; card_border := border |}.

Definition update_weather_dashboard (days : Z) (location : string)
  : M Dashboard :=
  df <- fetch_weather_data location days ;;
  if empty df then create_empty_dashboard "No weather data available"
  else
    location_name <-
      lift (match column_index "location" (columns df) with
            | Some _ =>
                match series df "location" with
                | Raise e => Raise e
                | Ok s => match iloc_first s with
                          | Raise e => Raise e
                          | Ok v => Ok (str_cell v)
                          end
                end
            | None => Ok location
            end) ;;
    sum <- ask np_sum ;;
    temperature <- lift (series df "temperature") ;;
    avg_temp <- lift (series_mean sum temperature) ;;
    humidity <- lift (series df "humidity") ;;
    avg_humidity <- lift (series_mean sum humidity) ;;
    precip <- lift (series df "precipitation") ;;
    total_precip <- lift (series_sum sum precip) ;;
    let next := "Next " ++ str_int days ++ " days" in
    let cards :=
      [subtitle_card "Avg Temperature"
         (format_fixed false false 1 avg_temp ++ "°C") location_name
         (color "primary");
       subtitle_card "Avg Humidity"
         (format_fixed false false 1 avg_humidity ++ "%") next
         (color "secondary");
       subtitle_card "Total Precipitation"
         (format_fixed false false 1 total_precip ++ "mm") next
         (color "accent")] in
    fig_main <- lift (single_trace "line" df "time" "temperature"
                        ("Temperature Forecast - " ++ location_name ++ " ("
                         ++ str_int days ++ " Days)")) ;;
    fig_sec1 <- lift (single_trace "area" df "time" "humidity"
                        "Humidity Levels") ;;
    fig_sec2 <- lift (single_trace "bar" df "time" "precipitation"
                        "Precipitation") ;;
    now <- datetime_now ;;
    ret {| stats_cards := cards; main_chart := style_figure fig_main;
           secondary_chart_1 := style_figure fig_sec1;
           secondary_chart_2 := style_figure fig_sec2;
           last_update := strftime now |}.

Definition update_stocks_dashboard (days : Z) : M Dashboard :=
  df <- generate_mock_stock_data default_symbols days ;;
  latest_prices <- lift (groupby_apply df "symbol" "price" last_valid) ;;
  cards <- lift (price_cards df "symbol" 0 latest_prices) ;;
  fig_main <- lift (colored_traces "line" df "date" "price" "symbol"
                      ("Stock Prices - Last " ++ str_int days ++ " Days")) ;;
  fig_sec1 <- lift (colored_traces "area" df "date" "price" "symbol"
                      "Price Distribution") ;;
  fig_sec2 <- lift (total_change_chart df "symbol" "Total Change (%)") ;;
  now <- datetime_now ;;
  ret {| stats_cards := cards; main_chart := style_figure fig_main;
         secondary_chart_1 := style_figure fig_sec1;
         secondary_chart_2 := style_figure fig_sec2;
         last_update := strftime now |}.

(** The callback of the location field: shown in weather mode only. *)
Definition toggle_location_input (data_type : string)
  : list (string * string) :=
  if String.eqb data_type "weather" then [("display", "block")]
  else [("display", "none")].

(** [location or "New York"]: [None] and the empty string are false. *)
Definition or_default (location : option string) (default : string) : string :=
  match location with
  | None | Some EmptyString => default
  | Some s => s
  end.

(** The main callback. *)
Definition update_dashboard (n_clicks n_intervals : Z) (data_type : string)
  (time_range : Z) (location : option string) : M Dashboard :=
  if String.eqb data_type "crypto" then
    update_crypto_dashboard time_range
  else if String.eqb data_type "weather" then
    update_weather_dashboard time_range (or_default location "New York")
  else
    update_stocks_dashboard time_range.

(** * Vocabulary of the properties *)

(** What a run produced as rows; a run that raised produced none. *)
Definition table (run : result DataFrame * State) : list (list pyval) :=
  match fst run with
  | Ok df => rows df
  | Raise _ => []
  end.

(** A frame whose rows are aligned with the labels [cols]. *)
Definition aligned (cols : list string) (df : DataFrame) : Prop :=
  columns df = cols /\
  Forall (fun row => List.length row = List.length cols) (rows df).

(** ** Crypto *)

(** The answer of the market-chart service to the request for one coin. *)
Definition market_chart (env : Env) (coin : string) (days : Z)
  : result Response :=
  requests_get env (CRYPTO_API ++ "/coins/" ++ coin ++ "/market_chart")
    [("vs_currency", PyStr "usd"); ("days", PyInt days)] 10.

(** A request failed: a transport error, or a status other than 200. *)
Definition request_failed (answer : result Response) : bool :=
  match answer with
  | Raise _ => true
  | Ok response => negb (status_code response =? 200)
  end.

(** The rows one coin contributes: those of the table fetched for it alone. *)
Definition coin_rows (env : Env) (days : Z) (coin : string)
  : list (list pyval) :=
  table (fetch_crypto_data [coin] days env initial_state).

Definition crypto_columns : list string := ["timestamp"; "price"; "coin"].

Definition price_row (env : Env) (coin : string) (entry : Z * Q)
  : list pyval :=
  [PyTime (fst entry * MILLISECOND); PyFloat (Finite (snd entry));
   PyStr (capitalize env coin)].

(** Every epoch of a list of prices is an instant pandas represents. *)
Definition epochs_fit (prices : list (Z * Q)) : bool :=
  forallb (fun entry => in_bounds (fst entry * MILLISECOND)) prices.

(** The frames one coin adds to [data]: one, or none. *)
Definition coin_frame (env : Env) (days : Z) (coin : string)
  : list DataFrame :=
  match market_chart env coin days with
  | Raise _ => []
  | Ok response =>
      if status_code response =? 200 then
        match json_prices response with
        | Raise _ => []
        | Ok prices =>
            if epochs_fit prices then
              [{| columns := crypto_columns;
                  rows := map (price_row env coin) prices |}]
            else []
        end
      else []
  end.

(** ** Geocoding and weather *)

(** The answer of the geocoding service for a place name. *)
Definition geocode (env : Env) (location_name : string) : result Response :=
  requests_get env GEOCODING_API
    [("name", PyStr location_name); ("count", PyInt 1);
     ("language", PyStr "en"); ("format", PyStr "json")] 10.

(** What the geocoder resolves, read off the answer of the service. *)
Definition located (answer : result Response) : pyval * pyval * pyval :=
  match answer with
  | Raise _ => default_location
  | Ok response =>
      if status_code response =? 200 then
        match json response with
        | Ok (Geocoding (Some (place :: _))) =>
            match dict_get "latitude" place, dict_get "longitude" place,
                  dict_get "name" place with
            | Some latitude, Some longitude, Some name =>
                (latitude, longitude, name)
            | _, _, _ => default_location
            end
        | _ => default_location
        end
      else default_location
  end.

(** The coordinates and name [get_coordinates] returns for a place name. *)
Definition resolved (env : Env) (location_name : string)
  : pyval * pyval * pyval :=
  match fst (get_coordinates location_name env initial_state) with
  | Ok coordinates => coordinates
  | Raise _ => default_location
  end.

(** The answer of the forecast service to the request of
    [fetch_weather_data]. *)
Definition forecast (env : Env) (location_name : string) (days : Z)
  : result Response :=
  let '(latitude, longitude, _) := resolved env location_name in
  requests_get env WEATHER_API
    [("latitude", latitude); ("longitude", longitude);
     ("hourly", PyStr "temperature_2m,relative_humidity_2m,precipitation");
     ("forecast_days", PyInt days); ("timezone", PyStr "auto")] 10.

Definition weather_columns : list string :=
  ["time"; "temperature"; "humidity"; "precipitation"; "location"].

(** ** Mock stocks *)

Definition stock_columns : list string := ["date"; "price"; "symbol"].

(** The [n] draws of the generator from position [start]. *)
Definition draws (env : Env) (start n : nat) : list Q :=
  map (fun j => randn_stream env (start + j)%nat) (seq 0 n).



(** The symbols of a list whose clock readings, taken one per symbol from
    reading [cr], leave room for [days] daily dates. *)
Definition ranges_fit (env : Env) (cr : nat) (symbols : list string)
  (days : Z) : bool :=
  forallb (fun k => date_range_fits (clock env (cr + k)) days)
    (seq 0 (List.length symbols)).

Definition mock_prices (env : Env) (rd : nat) (symbol : string) (n : nat)
  : list float :=
  map (fadd (of_int (dict_get_default base_prices symbol 100)))
    (np_cumsum (map (fun x => fmul (Finite x) (of_int 5)) (draws env rd n))).

(** The frame of one symbol, generated at clock reading [cr] from draw [rd]. *)
Definition mock_frame (env : Env) (cr rd : nat) (symbol : string) (days : Z)
  : DataFrame :=
  let n := Z.to_nat days in
  {| columns := stock_columns;
     rows := map (fun i =>
                    [nth i (map PyTime
                              (map (fun i => clock env cr
                                             - (days - 1 - Z.of_nat i) * DAY)
                                 (seq 0 n))) NaN_cell;
                     nth i (map PyFloat (mock_prices env rd symbol n)) NaN_cell;
                     PyStr symbol])
               (seq 0 n) |}.

Fixpoint mock_frames (env : Env) (cr rd : nat) (symbols : list string)
  (days : Z) : list DataFrame :=
  match symbols with
  | [] => []
  | symbol :: rest =>
      mock_frame env cr rd symbol days
      :: mock_frames env (S cr) (rd + Z.to_nat days)%nat rest days
  end.

(** Two states from which the generator and the clock go on alike. *)
Definition in_step (s1 s2 : State) : Prop :=
  clock_reads s1 = clock_reads s2 /\ random_draws s1 = random_draws s2.

(** ** Logs, shapes and charts *)

(** The line the loop of [fetch_crypto_data] prints for a coin. *)
Definition coin_log (env : Env) (days : Z) (coin : string) : list string :=
  match market_chart env coin days with
  | Raise e => ["Error fetching " ++ coin ++ ": " ++ str_exn e]
  | Ok response =>
      if status_code response =? 200 then
        match json_prices response with
        | Raise e => ["Error fetching " ++ coin ++ ": " ++ str_exn e]
        | Ok prices =>
            if epochs_fit prices then []
            else ["Error fetching " ++ coin ++ ": "
                  ++ out_of_bounds_text env (map fst prices)]
        end
      else []
  end.

(** The first of the three members [get_coordinates] reads that a place
    lacks. *)
Definition missing_member (place : Place) : option string :=
  find (fun key => match dict_get key place with
                   | Some _ => false
                   | None => true
                   end) ["latitude"; "longitude"; "name"].

(** [s] with one more line on the standard output. *)
Definition printed (s : State) (line : string) : State :=
  {| stdout := (stdout s ++ [line])%list;
     clock_reads := clock_reads s;
     random_draws := random_draws s |}.

(** A row of a table of prices: an instant, a price and a label. *)
Definition price_row_shape (row : list pyval) : Prop :=
  exists t x label, row = [t; PyFloat x; PyStr label].

(** A table of prices by label, as the crypto and stock pipelines build
    them: the column of instants, ["price"], and the column of labels. *)
Definition price_table (instants key : string) (df : DataFrame) : Prop :=
  columns df = [instants; "price"; key] /\ Forall price_row_shape (rows df).

Definition all_floats (s : list pyval) : Prop :=
  Forall (fun v => exists x, v = PyFloat x) s.

(** The labels of a table of prices, row by row. *)
Definition label_column (df : DataFrame) : list pyval :=
  map (fun row => nth 2 row NaN_cell) (rows df).

(** The order of the keys of a group-by: the strict order of strings. *)
Definition label_lt (a b : string) : Prop := String.compare a b = Lt.

(** The titles of the cards of a dashboard, in the order of the cards. *)
Definition card_titles (dashboard : Dashboard) : list string :=
  map card_title (stats_cards dashboard).

(** [s] after [reads] more readings of the clock and [taken] more draws. *)
Definition advanced (s : State) (reads taken : nat) : State :=
  {| stdout := stdout s;
     clock_reads := (clock_reads s + reads)%nat;
     random_draws := (random_draws s + taken)%nat |}.

(** A row of the weather table: an instant, three finite readings and the
    name of the place. *)
Definition weather_row_shape (name : pyval) (row : list pyval) : Prop :=
  exists t temperature humidity precip,
    row = [PyTime t; PyFloat (Finite temperature); PyFloat (Finite humidity);
           PyFloat (Finite precip); name].

Definition weather_table (name : pyval) (df : DataFrame) : Prop :=
  columns df = weather_columns /\ Forall (weather_row_shape name) (rows df).

(** The cells of the [j]-th column of a table, row by row. *)
Definition cells (j : nat) (df : DataFrame) : list pyval :=
  map (fun row => nth j row NaN_cell) (rows df).

(** The three cards of the weather dashboard. *)
Definition weather_cards (avg_temp avg_humidity total_precip : float)
  (location_name : string) (days : Z) : list Card :=
  [subtitle_card "Avg Temperature"
     (format_fixed false false 1 avg_temp ++ "°C") location_name
     (color "primary");
   subtitle_card "Avg Humidity"
     (format_fixed false false 1 avg_humidity ++ "%")
     ("Next " ++ str_int days ++ " days") (color "secondary");
   subtitle_card "Total Precipitation"
     (format_fixed false false 1 total_precip ++ "mm")
     ("Next " ++ str_int days ++ " days") (color "accent")].

(** The arrays [fetch_weather_data] reads off a forecast, in the order in
    which it reads them. *)
Definition forecast_arrays (env : Env) (response : Response)
  : result (list Timestamp * list Q * list Q * list Q) :=
  match json_hourly response with
  | Raise e => Raise e
  | Ok data =>
      match member "time" (time data) with
      | Raise e => Raise e
      | Ok times =>
          match pd_to_datetime env times,
                member "temperature_2m" (temperature_2m data) with
          | Raise e, _ | Ok _, Raise e => Raise e
          | Ok ts, Ok temperature =>
              match member "relative_humidity_2m" (relative_humidity_2m data),
                    member "precipitation" (precipitation data) with
              | Raise e, _ | Ok _, Raise e => Raise e
              | Ok humidity, Ok precip =>
                  Ok (ts, temperature, humidity, precip)
              end
          end
      end
  end.

(** The trace of the rows of one label: the instants against the prices. *)
Definition price_trace (kind label : string) (rs : list (list pyval))
  : Trace :=
  {| trace_kind := kind; trace_name := label;
     trace_x := map (fun row => nth 0 row NaN_cell) rs;
     trace_y := map (fun row => nth 1 row NaN_cell) rs |}.

(** The traces of a table given group by group: one per group that has
    rows, in the order of the groups. *)
Definition group_traces (kind : string)
  (groups : list (string * list (list pyval))) : list Trace :=
  flat_map (fun group =>
              match snd group with
              | [] => []
              | _ :: _ => [price_trace kind (fst group) (snd group)]
              end) groups.

(** The rows of a group carry the label of the group. *)
Definition labelled (group : string * list (list pyval)) : Prop :=
  Forall (fun row => nth 2 row NaN_cell = PyStr (fst group)) (snd group).

(** No coin of the list is answered with status 200 and an empty list of
    prices. *)
Definition no_empty_answer (env : Env) (days : Z) (coins : list string)
  : bool :=
  forallb (fun coin =>
             match market_chart env coin days with
             | Raise _ => true
             | Ok response =>
                 if status_code response =? 200 then
                   match json response with
                   | Ok (MarketChart (Some [])) => false
                   | _ => true
                   end
                 else true
             end) coins.

(** The rows of the crypto table, coin by coin. *)
Definition coin_groups (env : Env) (days : Z)
  : list (string * list (list pyval)) :=
  map (fun coin => (capitalize env coin, coin_rows env days coin))
    default_coins.

(** The rows of the stock table, symbol by symbol. *)
Definition symbol_groups (env : Env) (cr rd : nat) (days : Z)
  : list (string * list (list pyval)) :=
  combine default_symbols
    (map rows (mock_frames env cr rd default_symbols days)).

(** The trace of a symbol generated at clock reading [cr] from draw [rd]:
    its prices against its days. *)
Definition symbol_trace (kind : string) (env : Env) (cr rd : nat)
  (symbol : string) (days : Z) : Trace :=
  {| trace_kind := kind; trace_name := symbol;
     trace_x := map (fun i => PyTime (clock env cr
                                      - (days - 1 - Z.of_nat i) * DAY))
                  (seq 0 (Z.to_nat days));
     trace_y := map PyFloat (mock_prices env rd symbol (Z.to_nat days)) |}.

(** The single trace of a chart of the weather dashboard: the [j]-th column
    against the instants. *)
Definition weather_trace (kind : string) (j : nat) (df : DataFrame) : Trace :=
  {| trace_kind := kind; trace_name := "";
     trace_x := cells 0 df; trace_y := cells j df |}.

(** The bars of the chart of the total changes: one per label, the labels
    in the order of the keys of the group-by. *)
Definition change_bars (df : DataFrame) (changes : list (string * pyval))
  : Trace :=
  {| trace_kind := "bar"; trace_name := "";
     trace_x := map PyStr (group_keys (label_column df));
     trace_y := map snd changes |}.

(** * Sample environments *)

Definition digit (c : ascii) : option Z :=
  let n := nat_of_ascii c in
  if (48 <=? n)%nat && (n <=? 57)%nat then Some (Z.of_nat (n - 48)) else None.

Fixpoint number (cs : list ascii) (acc : Z) : option Z :=
  match cs with
  | [] => Some acc
  | c :: cs' =>
      match digit c with
      | Some d => number cs' (10 * acc + d)
      | None => None
      end
  end.

(** The instant of a local time written [YYYY-MM-DDTHH:MM], the format of the
    forecast service. *)
Definition parse_iso_minute (s : string) : result Timestamp :=
  let field a n := number (list_ascii_of_string (substring a n s)) 0 in
  if (String.length s =? 16)%nat && String.eqb (substring 4 1 s) "-"
     && String.eqb (substring 7 1 s) "-" && String.eqb (substring 10 1 s) "T"
     && String.eqb (substring 13 1 s) ":"
  then
    match field 0%nat 4%nat, field 5%nat 2%nat, field 8%nat 2%nat,
          field 11%nat 2%nat, field 14%nat 2%nat with
    | Some y, Some m, Some d, Some h, Some n =>
        Ok ((days_from_civil y m d * 86400 + h * 3600 + n * 60) * SECOND)
    | _, _, _, _, _ => Raise (ValueError "Unknown datetime string format")
    end
  else Raise (ValueError "Unknown datetime string format").

Definition hours_of_day : list string :=
  map (fun h => "2024-01-01T" ++ zero_pad 2 (digits (Z.of_nat h)) ++ ":00")
    (seq 0 24).

Definition ramp (from step : Q) (n : nat) : list Q :=
  map (fun i => (from + inject_Z (Z.of_nat i) * step)%Q) (seq 0 n).

Definition london : Place :=
  [("name", PyStr "London"); ("latitude", PyFloat (Finite 51.50853%Q));
   ("longitude", PyFloat (Finite (-0.12574)%Q));
   ("country", PyStr "United Kingdom")].

Definition bitcoin_prices : list (Z * Q) :=
  [(1700000000000, 100%Q); (1700003600000, 95%Q); (1700007200000, 110%Q)].

Definition ethereum_prices : list (Z * Q) :=
  [(1700000000000, 100%Q); (1700003600000, 110%Q)].

(** A price dated some three hundred thousand years from now. *)
Definition far_prices : list (Z * Q) := [(10000000000000000, 1%Q)].

Definition full_day : Hourly :=
  {| time := Some hours_of_day;
     temperature_2m := Some (ramp 10 0.5 24);
     relative_humidity_2m := Some (ramp 60 1 24);
     precipitation := Some (ramp 0 0.1 24) |}.

(** Two hours of forecast whose precipitation array lacks a value. *)
Definition uneven_hours : Hourly :=
  {| time := Some (firstn 2 hours_of_day);
     temperature_2m := Some [10; 11]%Q;
     relative_humidity_2m := Some [60; 61]%Q;
     precipitation := Some [0]%Q |}.

(** A day on which Bitcoin and Ethereum answer, Dogecoin answers with
    [far_prices] and Cardano times out, the geocoder knows London only, and
    the forecast of one day is well formed while a longer one is
    [uneven_hours]. *)
Definition sample_network (url : string) (p : params) (timeout : Z)
  : result Response :=
  if String.eqb url GEOCODING_API then
    match dict_get "name" p with
    | Some (PyStr "London") =>
        Ok {| status_code := 200; json := Ok (Geocoding (Some [london])) |}
    | Some (PyStr "Atlantis") =>
        Ok {| status_code := 200; json := Ok (Geocoding (Some [])) |}
    | _ => Ok {| status_code := 200; json := Ok (Geocoding None) |}
    end
  else if String.eqb url WEATHER_API then
    match dict_get "forecast_days" p with
    | Some (PyInt 1) =>
        Ok {| status_code := 200; json := Ok (Forecast (Some full_day)) |}
    | _ =>
        Ok {| status_code := 200; json := Ok (Forecast (Some uneven_hours)) |}
    end
  else if String.eqb url (CRYPTO_API ++ "/coins/bitcoin/market_chart") then
    Ok {| status_code := 200;
          json := Ok (MarketChart (Some bitcoin_prices)) |}
  else if String.eqb url (CRYPTO_API ++ "/coins/ethereum/market_chart") then
    Ok {| status_code := 200;
          json := Ok (MarketChart (Some ethereum_prices)) |}
  else if String.eqb url (CRYPTO_API ++ "/coins/dogecoin/market_chart") then
    Ok {| status_code := 200;
          json := Ok (MarketChart (Some far_prices)) |}
  else Raise (RequestException "Read timed out.").

Definition sample_env : Env :=
  {| requests_get := sample_network;
     pd_to_datetime := traverse parse_iso_minute;
     clock := fun n => 1700000000 * SECOND + Z.of_nat n * SECOND;
     randn_stream := fun n => (Z.of_nat n - 3 # 7)%Q;
     str_capitalize := fun s => s;
     out_of_bounds_text := fun _ => "Out of bounds nanosecond timestamp";
     np_sum := fun xs => fold_left fadd xs (S754_zero true) |}.

(** The same day, read off a clock that runs twelve hours later. *)
Definition evening_env : Env :=
  {| requests_get := requests_get sample_env;
     pd_to_datetime := pd_to_datetime sample_env;
     clock := fun n => clock sample_env n + 43200 * SECOND;
     randn_stream := randn_stream sample_env;
     str_capitalize := str_capitalize sample_env;
     out_of_bounds_text := out_of_bounds_text sample_env;
     np_sum := np_sum sample_env |}.

(** No service answers. *)
Definition offline_env : Env :=
  {| requests_get :=
       fun _ _ _ => Raise (RequestException "Connection refused");
     pd_to_datetime := pd_to_datetime sample_env;
     clock := clock sample_env;
     randn_stream := randn_stream sample_env;
     str_capitalize := str_capitalize sample_env;
     out_of_bounds_text := out_of_bounds_text sample_env;
     np_sum := np_sum sample_env |}.

Definition bitcoin_table : DataFrame :=
  {| columns := crypto_columns;
     rows := map (price_row sample_env "bitcoin") bitcoin_prices |}.



(** A place without a name, and two hours of forecast without
    precipitation. *)
Definition nameless : Place :=
  [("latitude", PyFloat (Finite 48.85341%Q));
   ("longitude", PyFloat (Finite 2.3488%Q))].

Definition no_rain : Hourly :=
  {| time := Some (firstn 2 hours_of_day);
     temperature_2m := Some [10; 11]%Q;
     relative_humidity_2m := Some [60; 61]%Q;
     precipitation := None |}.

(** A day on which the geocoder and the forecast service answer with a
    member missing, and the market-chart service times out. *)
Definition patchy_env : Env :=
  {| requests_get :=
       fun url _ _ =>
         if String.eqb url GEOCODING_API then
           Ok {| status_code := 200; json := Ok (Geocoding (Some [nameless])) |}
         else if String.eqb url WEATHER_API then
           Ok {| status_code := 200; json := Ok (Forecast (Some no_rain)) |}
         else Raise (RequestException "Read timed out.");
     pd_to_datetime := pd_to_datetime sample_env;
     clock := clock sample_env;
     randn_stream := randn_stream sample_env;
     str_capitalize := str_capitalize sample_env;
     out_of_bounds_text := out_of_bounds_text sample_env;
     np_sum := np_sum sample_env |}.

(** * Properties *)

(** Unfolds the operations of the monad. *)
Ltac run_monad :=
  unfold try_except, bind, http_get, lift, ask, ret, print.

(** ** Numbers *)

Lemma shr_1_nonneg (mrs : shr_record) :
  0 <= shr_m mrs -> 0 <= shr_m (shr_1 mrs).
Proof.
  destruct mrs as [m r s]. cbn [shr_m]. intros Hm.
  destruct m as [|[p|p|]|p]; cbn; lia.
Qed.

Lemma iter_pos_shr_1_nonneg (p : positive) :
  forall mrs, 0 <= shr_m mrs -> 0 <= shr_m (iter_pos shr_1 p mrs).
Proof.
  induction p as [p IH|p IH|]; intros mrs Hm; cbn [iter_pos].
  - apply IH, IH. now apply shr_1_nonneg.
  - now apply IH, IH.
  - now apply shr_1_nonneg.
Qed.

Lemma shr_fexp_nonneg (m e : Z) (l : location) :
  0 <= m -> 0 <= shr_m (fst (shr_fexp prec emax m e l)).
Proof.
  intros Hm. unfold shr_fexp, shr.
  assert (H0 : 0 <= shr_m (shr_record_of_loc m l)).
  { destruct l as [|[ | | ]]; exact Hm. }
  destruct (fexp prec emax (Zdigits2 m + e) - e); cbn [fst]; try exact H0.
  now apply iter_pos_shr_1_nonneg.
Qed.

Lemma round_nearest_even_nonneg (m : Z) (l : location) :
  0 <= m -> 0 <= round_nearest_even m l.
Proof.
  intros Hm. unfold round_nearest_even.
  destruct l as [|[ | | ]]; try lia. destruct (IntDef.Z.even m); lia.
Qed.

Lemma binary_round_aux_not_nan (s : bool) (m e : Z) (l : location) :
  0 <= m -> binary_round_aux prec emax s m e l <> S754_nan.
Proof.
  intros Hm. unfold binary_round_aux.
  pose proof (shr_fexp_nonneg m e l Hm) as H1.
  destruct (shr_fexp prec emax m e l) as [mrs' e']. cbn [fst] in H1.
  pose proof (shr_fexp_nonneg _ e' loc_Exact
                (round_nearest_even_nonneg _ (loc_of_shr_record mrs') H1))
    as H2.
  destruct (shr_fexp prec emax _ e' loc_Exact) as [mrs'' e''].
  cbn [fst] in H2.
  destruct (shr_m mrs'') as [|p|p]; [discriminate| |lia].
  destruct (e'' <=? emax - prec); discriminate.
Qed.

Lemma nearest_not_nan (s : bool) (n d : positive) :
  nearest s n d <> S754_nan.
Proof.
  unfold nearest.
  destruct (SFdiv_core_binary prec emax (Z.pos n) 0 (Z.pos d) 0)
    as [[m e] l] eqn:E.
  apply binary_round_aux_not_nan.
  unfold SFdiv_core_binary in E.
  set (m' := match _ with 0 => Z.pos n | Z.pos _ => _ | Z.neg _ => 0 end)
    in E.
  assert (Hm' : 0 <= m').
  { subst m'. destruct (0 - 0 - _); try lia. apply Z.shiftl_nonneg. lia. }
  pose proof (Z.div_pos m' (Z.pos d) Hm' eq_refl) as Hq.
  change (IntDef.Z.div_eucl m' (Z.pos d)) with (Z.div_eucl m' (Z.pos d)) in E.
  unfold Z.div in Hq. destruct (Z.div_eucl m' (Z.pos d)) as [q r].
  injection E as <- _ _. exact Hq.
Qed.

(** A number parsed from a literal is never NaN. *)
Lemma Finite_not_nan (q : Q) : Finite q <> S754_nan.
Proof.
  unfold Finite. destruct (Qnum q); [discriminate| |]; apply nearest_not_nan.
Qed.

Lemma is_missing_Finite (q : Q) : is_missing (PyFloat (Finite q)) = false.
Proof.
  unfold is_missing. pose proof (Finite_not_nan q) as H.
  destruct (Finite q); try reflexivity. contradiction.
Qed.

(** ** Lists and frames *)

Lemma traverse_map_ok {A B C : Type} (f : B -> result C) (g : A -> B)
  (h : A -> C) (l : list A) :
  (forall x, f (g x) = Ok (h x)) ->
  traverse f (map g l) = Ok (map h l).
Proof.
  intros Hf. induction l as [|x l IH]; simpl.
  - reflexivity.
  - rewrite Hf, IH. reflexivity.
Qed.

Lemma forallb_map_eq {A B : Type} (f : B -> bool) (g : A -> B)
  (l : list A) :
  forallb f (map g l) = forallb (fun x => f (g x)) l.
Proof.
  induction l as [|x l IH]; cbn; [reflexivity|]. now rewrite IH.
Qed.

Lemma forallb_pointwise {A : Type} (f g : A -> bool) (l : list A) :
  (forall x, f x = g x) -> forallb f l = forallb g l.
Proof.
  intros Hfg. induction l as [|x l IH]; cbn; [reflexivity|].
  now rewrite Hfg, IH.
Qed.

Lemma nth_map_lt {A B : Type} (f : A -> B) (l : list A) (i : nat) (d : A)
  (d' : B) :
  (i < List.length l)%nat -> nth i (map f l) d' = f (nth i l d).
Proof.
  intros Hi. rewrite (nth_indep _ d' (f d)) by now rewrite length_map.
  apply map_nth.
Qed.

Lemma flat_map_filter_nil {A B : Type} (f : A -> list B) (keep : A -> bool)
  (l : list A) :
  (forall x, keep x = false -> f x = []) ->
  flat_map f (filter keep l) = flat_map f l.
Proof.
  intros Hdrop. induction l as [|x l IH]; simpl; [reflexivity|].
  destruct (keep x) eqn:E; simpl.
  - now rewrite IH.
  - now rewrite (Hdrop x E), IH.
Qed.

Lemma flat_map_rows_flat_map {A : Type} (f : A -> list DataFrame)
  (l : list A) :
  flat_map rows (flat_map f l) = flat_map (fun x => flat_map rows (f x)) l.
Proof.
  induction l as [|x l IH]; simpl; [reflexivity|].
  now rewrite flat_map_app, IH.
Qed.

Lemma column_index_app_fresh (name : string) (pre suf : list string) :
  ~ In name pre ->
  column_index name (pre ++ name :: suf)%list = Some (List.length pre).
Proof.
  induction pre as [|c pre IH]; simpl; intros Hnot.
  - rewrite String.eqb_refl. reflexivity.
  - destruct (String.eqb_spec c name) as [->|_].
    + exfalso. apply Hnot. now left.
    + rewrite IH by (intros H; apply Hnot; now right). reflexivity.
Qed.

Lemma column_index_some (name : string) (cols : list string) :
  In name cols -> exists i, column_index name cols = Some i.
Proof.
  induction cols as [|c cols IH]; simpl; intros Hin.
  - contradiction.
  - destruct (String.eqb_spec c name) as [->|Hne].
    + now exists 0%nat.
    + destruct Hin as [->|Hin]; [contradiction|].
      destruct (IH Hin) as [i ->]. now exists (S i).
Qed.

(** Re-indexing a row onto its own labels changes nothing. *)
Lemma reindex_row_suffix (pre suf : list string) (rpre rsuf : list pyval) :
  NoDup (pre ++ suf) ->
  List.length rpre = List.length pre ->
  List.length rsuf = List.length suf ->
  map (fun c => match column_index c (pre ++ suf)%list with
                | Some i => nth i (rpre ++ rsuf)%list NaN_cell
                | None => NaN_cell
                end) suf = rsuf.
Proof.
  revert pre rpre rsuf.
  induction suf as [|c suf IH]; intros pre rpre rsuf Hnd Hpre Hsuf.
  - destruct rsuf; [reflexivity|discriminate].
  - destruct rsuf as [|v rsuf]; [discriminate|].
    simpl. f_equal.
    + rewrite column_index_app_fresh.
      * rewrite <- Hpre, nth_middle. reflexivity.
      * apply NoDup_remove_2 in Hnd. intros H. apply Hnd.
        apply in_or_app. now left.
    + specialize (IH (pre ++ [c])%list (rpre ++ [v])%list rsuf).
      rewrite <- !app_assoc in IH. simpl in IH. apply IH.
      * exact Hnd.
      * rewrite !length_app. simpl. lia.
      * simpl in Hsuf. lia.
Qed.

Lemma reindex_row_same (cols : list string) (row : list pyval) :
  NoDup cols -> List.length row = List.length cols ->
  reindex_row cols cols row = row.
Proof.
  intros Hnd Hlen.
  exact (reindex_row_suffix [] cols [] row Hnd eq_refl Hlen).
Qed.

Lemma filter_known_columns (cols l : list string) :
  incl l cols ->
  filter (fun c => match column_index c cols with
                   | Some _ => false
                   | None => true
                   end) l = [].
Proof.
  induction l as [|c l IH]; intros Hincl; simpl; [reflexivity|].
  destruct (column_index_some c cols) as [i ->].
  - apply Hincl. now left.
  - apply IH. intros x Hx. apply Hincl. now right.
Qed.

Lemma union_columns_step (cols : list string) (frames : list DataFrame) :
  Forall (aligned cols) frames ->
  fold_left
    (fun acc df =>
       (acc ++ filter (fun c => match column_index c acc with
                                | Some _ => false
                                | None => true
                                end) (columns df))%list) frames cols = cols.
Proof.
  induction 1 as [|df fs Hal _ IH]; simpl; [reflexivity|].
  destruct Hal as [Hc _]. rewrite Hc.
  rewrite filter_known_columns by apply incl_refl.
  rewrite app_nil_r. exact IH.
Qed.

Lemma union_columns_same (cols : list string) (frames : list DataFrame) :
  frames <> [] -> Forall (aligned cols) frames ->
  union_columns frames = cols.
Proof.
  intros Hne Hall. unfold union_columns.
  destruct frames as [|df fs]; [contradiction|].
  inversion Hall as [|? ? Hal Hfs]; subst.
  destruct Hal as [Hc _].
  assert (Hall_new : forall l : list string,
            filter (fun c => match column_index c [] with
                             | Some _ => false
                             | None => true
                             end) l = l)
    by (induction l as [|a l IHl]; [reflexivity|];
        simpl; f_equal; exact IHl).
  cbn [fold_left app]. rewrite Hall_new, Hc.
  now apply union_columns_step.
Qed.

(** Concatenating frames that share their labels appends their rows. *)
Lemma pd_concat_aligned (cols : list string) (frames : list DataFrame) :
  NoDup cols -> frames <> [] -> Forall (aligned cols) frames ->
  pd_concat frames = Ok {| columns := cols; rows := flat_map rows frames |}.
Proof.
  intros Hnd Hne Hall. unfold pd_concat.
  destruct frames as [|df fs] eqn:E; [contradiction|]. rewrite <- E in *.
  rewrite (union_columns_same cols) by assumption.
  f_equal. f_equal. clear E Hne.
  induction Hall as [|f fs' Hal _ IH]; simpl; [reflexivity|].
  destruct Hal as [Hc Hrows]. rewrite IH. f_equal. rewrite Hc.
  clear -Hnd Hrows. induction Hrows as [|row rs Hrow _ IHr]; simpl.
  - reflexivity.
  - rewrite reindex_row_same by assumption. now rewrite IHr.
Qed.

Lemma crypto_columns_NoDup : NoDup crypto_columns.
Proof.
  unfold crypto_columns.
  repeat constructor; simpl; intuition discriminate.
Qed.

Lemma stock_columns_NoDup : NoDup stock_columns.
Proof.
  unfold stock_columns.
  repeat constructor; simpl; intuition discriminate.
Qed.

(** ** CryptoNormalizer *)

Section CryptoNormalizer.
Variable env : Env.
Variable days : Z.

(** The frame of a coin, built column by column as [fetch_coin] does. *)
Lemma price_frame_rows (coin : string) (prices : list (Z * Q)) :
  let df := pd_DataFrame_pairs prices "timestamp" "price" in
  exists ts,
    series df "timestamp" = Ok ts /\
    epochs ts = Ok (map fst prices) /\
    (epochs_fit prices = true ->
     exists ts', pd_to_datetime_ms (out_of_bounds_text env) ts = Ok ts' /\
     exists df', setitem df "timestamp" ts' = Ok df' /\
     setitem_scalar df' "coin" (PyStr (capitalize env coin))
     = {| columns := crypto_columns;
          rows := map (price_row env coin) prices |}) /\
    (epochs_fit prices = false ->
     pd_to_datetime_ms (out_of_bounds_text env) ts
     = Raise (OutOfBoundsDatetime
                (out_of_bounds_text env (map fst prices)))).
Proof.
  intros df.
  assert (Hfit : forallb (fun m => in_bounds (m * MILLISECOND))
                   (map fst prices) = epochs_fit prices).
  { unfold epochs_fit.
    apply (forallb_map_eq (fun m => in_bounds (m * MILLISECOND))). }
  assert (Hepochs : epochs (map (fun e : Z * Q => PyInt (fst e)) prices)
                    = Ok (map fst prices)).
  { unfold epochs. now apply traverse_map_ok. }
  exists (map (fun e : Z * Q => PyInt (fst e)) prices). split.
  { unfold series, df. cbn. f_equal. rewrite map_map.
    apply map_ext. now intros [a b]. }
  split; [exact Hepochs|].
  unfold pd_to_datetime_ms. rewrite Hepochs, Hfit. split.
  - intros ->. eexists. split; [reflexivity|]. eexists. split.
    { unfold setitem, df. cbn [columns pd_DataFrame_pairs rows].
      rewrite !length_map, Nat.eqb_refl. reflexivity. }
    unfold setitem_scalar, crypto_columns. cbn. f_equal.
    clear df Hfit Hepochs.
    induction prices as [|[a b] prices IH]; cbn; [reflexivity|].
    now rewrite IH.
  - now intros ->.
Qed.

Lemma fetch_coin_run (s : State) (data : list DataFrame) (coin : string) :
  exists s',
    fetch_coin days data coin env s
    = (Ok (data ++ coin_frame env days coin)%list, s') /\
    clock_reads s' = clock_reads s /\ random_draws s' = random_draws s.
Proof.
  unfold fetch_coin, coin_frame, market_chart. run_monad.
  destruct (requests_get env _ _ 10) as [response|e].
  2:{ eexists. rewrite app_nil_r. repeat split. }
  destruct (status_code response =? 200).
  2:{ eexists. rewrite app_nil_r. repeat split. }
  destruct (json_prices response) as [prices|e].
  2:{ eexists. rewrite app_nil_r. repeat split. }
  destruct (price_frame_rows coin prices) as (ts & -> & _ & Hfit & Hfar).
  destruct (epochs_fit prices).
  - destruct (Hfit eq_refl) as (ts' & -> & df' & -> & ->).
    eexists. repeat split.
  - rewrite (Hfar eq_refl). eexists. rewrite app_nil_r. repeat split.
Qed.

(** The loop accumulates the frames of the coins in order. *)
Lemma for_each_fetch_coin (coins : list string) :
  forall (data : list DataFrame) (s : State),
  exists s',
    for_each coins (fetch_coin days) data env s
    = (Ok (data ++ flat_map (coin_frame env days) coins)%list, s') /\
    clock_reads s' = clock_reads s /\ random_draws s' = random_draws s.
Proof.
  induction coins as [|coin coins IH]; intros data s; simpl.
  - exists s. unfold ret. now rewrite app_nil_r.
  - unfold bind.
    destruct (fetch_coin_run s data coin) as (s1 & -> & Hc1 & Hr1).
    destruct (IH (data ++ coin_frame env days coin)%list s1)
      as (s2 & -> & Hc2 & Hr2).
    exists s2. rewrite <- app_assoc. repeat split; congruence.
Qed.

Lemma coin_frame_aligned (coins : list string) :
  Forall (aligned crypto_columns) (flat_map (coin_frame env days) coins).
Proof.
  induction coins as [|coin coins IH]; simpl; [constructor|].
  apply Forall_app. split; [|exact IH].
  unfold coin_frame.
  destruct (market_chart env coin days) as [response|]; [|constructor].
  destruct (status_code response =? 200); [|constructor].
  destruct (json_prices response) as [prices|]; [|constructor].
  destruct (epochs_fit prices); [|constructor].
  constructor; [|constructor]. split; [reflexivity|].
  cbn. apply Forall_forall. intros row Hin.
  apply in_map_iff in Hin as (e & <- & _). reflexivity.
Qed.

(** The table fetched for a list of coins, in closed form. *)
Lemma fetch_crypto_data_run (s : State) (coins : list string) :
  exists df s',
    fetch_crypto_data coins days env s = (Ok df, s') /\
    rows df = flat_map (fun coin => flat_map rows (coin_frame env days coin))
                coins /\
    clock_reads s' = clock_reads s /\ random_draws s' = random_draws s.
Proof.
  unfold fetch_crypto_data, bind.
  destruct (for_each_fetch_coin coins [] s) as (s' & -> & Hc & Hr).
  rewrite <- flat_map_rows_flat_map.
  pose proof (coin_frame_aligned coins) as Hal.
  cbn [app].
  destruct (flat_map (coin_frame env days) coins) as [|df fs] eqn:E.
  - exists pd_DataFrame_empty, s'. unfold ret. repeat split; auto.
  - unfold lift.
    rewrite (pd_concat_aligned crypto_columns)
      by (try apply crypto_columns_NoDup; try assumption; discriminate).
    eexists _, s'. repeat split; auto.
Qed.

Lemma coin_rows_frame (coin : string) :
  coin_rows env days coin = flat_map rows (coin_frame env days coin).
Proof.
  unfold coin_rows, table.
  destruct (fetch_crypto_data_run initial_state [coin])
    as (df & s' & -> & Hrows & _).
  cbn [fst]. rewrite Hrows. cbn [flat_map]. apply app_nil_r.
Qed.

Lemma coin_frame_failed (coin : string) :
  request_failed (market_chart env coin days) = true ->
  coin_frame env days coin = [].
Proof.
  unfold coin_frame, request_failed.
  destruct (market_chart env coin days) as [response|]; [|reflexivity].
  destruct (status_code response =? 200); [discriminate|reflexivity].
Qed.

Lemma fetch_crypto_data_coin_rows (s : State) (coins : list string) :
  exists df s',
    fetch_crypto_data coins days env s = (Ok df, s') /\
    rows df = flat_map (coin_rows env days) coins.
Proof.
  destruct (fetch_crypto_data_run s coins) as (df & s' & Hrun & Hrows & _).
  exists df, s'. split; [exact Hrun|].
  rewrite Hrows. apply flat_map_ext. intros coin.
  symmetry. apply coin_rows_frame.
Qed.

(** What a coin contributes, read off the answer to its request. *)
Lemma coin_frame_answered (coin : string) (response : Response)
  (prices : list (Z * Q)) :
  market_chart env coin days = Ok response ->
  status_code response = 200 ->
  json response = Ok (MarketChart (Some prices)) ->
  flat_map rows (coin_frame env days coin)
  = if epochs_fit prices then map (price_row env coin) prices else [].
Proof.
  intros Hget Hstatus Hjson. unfold coin_frame, json_prices.
  rewrite Hget, Hstatus, Hjson. cbn [Z.eqb Pos.eqb].
  destruct (epochs_fit prices); [|reflexivity].
  cbn [flat_map rows]. apply app_nil_r.
Qed.

(** Every row of a coin is one of the prices of a successful answer. *)
Lemma coin_frame_row (coin : string) (row : list pyval) :
  In row (flat_map rows (coin_frame env days coin)) ->
  exists response prices entry,
    market_chart env coin days = Ok response /\
    status_code response = 200 /\
    json response = Ok (MarketChart (Some prices)) /\
    epochs_fit prices = true /\
    In entry prices /\ row = price_row env coin entry.
Proof.
  unfold coin_frame, json_prices.
  destruct (market_chart env coin days) as [response|]; [|contradiction].
  destruct (Z.eqb_spec (status_code response) 200) as [Hstatus|];
    [|contradiction].
  destruct (json response) as [[[prices|]|results|hourly]|e] eqn:Hjson;
    try contradiction.
  destruct (epochs_fit prices) eqn:Hfit; [|contradiction].
  cbn [flat_map rows]. rewrite app_nil_r. intros Hin.
  apply in_map_iff in Hin as (entry & <- & Hentry).
  now exists response, prices, entry.
Qed.

(** C1, as the code has it: for every list of coins [fetch_crypto_data]
    returns a table whose rows are the rows of the coins one after the
    other, in the order of the list.  A coin whose request is answered with
    status 200 and a list of [(epoch_ms, price)] pairs, every epoch of
    which is an instant pandas represents, contributes exactly one row per
    pair: the instant [epoch_ms] milliseconds after the epoch, the price
    and the capitalized coin name.  When one epoch of the list is out of
    that range the coin contributes no row.  The epoch 1700000000000 is
    2023-11-14 22:13:20. *)
Theorem fetch_crypto_data_rows (s : State) (coins : list string) :
  exists df s',
    fetch_crypto_data coins days env s = (Ok df, s') /\
    rows df
    = flat_map (fun coin => flat_map rows (coin_frame env days coin))
        coins /\
    (forall coin response prices,
        market_chart env coin days = Ok response ->
        status_code response = 200 ->
        json response = Ok (MarketChart (Some prices)) ->
        (epochs_fit prices = true ->
         flat_map rows (coin_frame env days coin)
         = map (fun entry =>
                  [PyTime (fst entry * MILLISECOND);
                   PyFloat (Finite (snd entry));
                   PyStr (capitalize env coin)]) prices /\
         List.length (flat_map rows (coin_frame env days coin))
         = List.length prices) /\
        (epochs_fit prices = false ->
         flat_map rows (coin_frame env days coin) = [])) /\
    (forall coin, is_ascii coin = true ->
                  capitalize env coin = capitalize_ascii coin) /\
    strftime (1700000000000 * MILLISECOND) = "2023-11-14 22:13:20".
Proof.
  destruct (fetch_crypto_data_run s coins) as (df & s' & Hrun & Hrows & _).
  exists df, s'. split; [exact Hrun|]. split; [exact Hrows|].
  split; [|split].
  - intros coin response prices Hget Hstatus Hjson.
    rewrite (coin_frame_answered coin response prices Hget Hstatus Hjson).
    split; intros ->; [|reflexivity].
    split; [reflexivity|apply length_map].
  - intros coin Hascii. unfold capitalize. now rewrite Hascii.
  - reflexivity.
Qed.

(** C2: for every list of coins [fetch_crypto_data] returns a table and does
    not raise.  A coin whose request raised a transport error or answered
    with a status other than 200 contributes no row: every row of the
    table is a price of a coin of the list that was answered with status
    200.  The rows of every coin that was answered with status 200 and a
    list of prices at instants pandas represents are in the table, in the
    order of the coins. *)
Theorem fetch_crypto_data_partial_failure (s : State)
  (coins : list string) :
  exists df s',
    fetch_crypto_data coins days env s = (Ok df, s') /\
    rows df
    = flat_map (fun coin => flat_map rows (coin_frame env days coin))
        (filter (fun coin =>
                   negb (request_failed (market_chart env coin days)))
           coins) /\
    (forall coin response prices entry,
        In coin coins ->
        market_chart env coin days = Ok response ->
        status_code response = 200 ->
        json response = Ok (MarketChart (Some prices)) ->
        epochs_fit prices = true ->
        flat_map rows (coin_frame env days coin)
        = map (price_row env coin) prices /\
        (In entry prices -> In (price_row env coin entry) (rows df))) /\
    (forall row,
        In row (rows df) ->
        exists coin response prices entry,
          In coin coins /\
          request_failed (market_chart env coin days) = false /\
          market_chart env coin days = Ok response /\
          json response = Ok (MarketChart (Some prices)) /\
          In entry prices /\ row = price_row env coin entry).
Proof.
  destruct (fetch_crypto_data_run s coins) as (df & s' & Hrun & Hall & _).
  exists df, s'. split; [exact Hrun|]. split; [|split].
  - rewrite Hall. symmetry. apply flat_map_filter_nil.
    intros coin Hkeep. rewrite coin_frame_failed; [reflexivity|].
    now destruct (request_failed (market_chart env coin days)).
  - intros coin response prices entry Hcoin Hget Hstatus Hjson Hfit.
    pose proof (coin_frame_answered coin response prices Hget Hstatus Hjson)
      as Hframe.
    rewrite Hfit in Hframe. split; [exact Hframe|].
    intros Hentry. rewrite Hall. apply in_flat_map. exists coin.
    split; [exact Hcoin|]. rewrite Hframe. now apply in_map.
  - intros row Hrow. rewrite Hall in Hrow.
    apply in_flat_map in Hrow as (coin & Hcoin & Hrow).
    apply coin_frame_row in Hrow
      as (response & prices & entry & Hget & Hstatus & Hjson & _ & Hentry
          & ->).
    exists coin, response, prices, entry. split; [exact Hcoin|].
    split; [|now repeat split].
    unfold request_failed. rewrite Hget, Hstatus. reflexivity.
Qed.

(** When every request fails the loop leaves [data] empty. *)
Lemma fetch_crypto_data_all_failed (s : State) (coins : list string) :
  (forall coin, In coin coins ->
                request_failed (market_chart env coin days) = true) ->
  exists s',
    fetch_crypto_data coins days env s = (Ok pd_DataFrame_empty, s') /\
    clock_reads s' = clock_reads s.
Proof.
  intros Hall. unfold fetch_crypto_data, bind.
  destruct (for_each_fetch_coin coins [] s) as (s1 & -> & Hc & _).
  assert (E : flat_map (coin_frame env days) coins = []).
  { clear -Hall. induction coins as [|coin coins IH]; simpl.
    - reflexivity.
    - rewrite coin_frame_failed by (apply Hall; now left).
      apply IH. intros c Hin. apply Hall. now right. }
  rewrite E. exists s1. split; [reflexivity|exact Hc].
Qed.
End CryptoNormalizer.

(** ** GeocodeResolver and WeatherNormalizer *)

Section WeatherNormalizer.
Variable env : Env.

Lemma get_coordinates_run (s : State) (location_name : string) :
  exists s',
    get_coordinates location_name env s
    = (Ok (located (geocode env location_name)), s') /\
    clock_reads s' = clock_reads s /\ random_draws s' = random_draws s.
Proof.
  unfold get_coordinates, located, geocode, getitem. run_monad.
  destruct (requests_get env _ _ 10) as [response|e].
  2:{ eexists. repeat split. }
  destruct (status_code response =? 200).
  2:{ eexists. repeat split. }
  destruct (json response) as [[prices|[[|place others]|]|hourly]|e];
    try (eexists; repeat split; fail).
  cbn [json_results].
  destruct (dict_get "latitude" place); [|eexists; repeat split].
  destruct (dict_get "longitude" place); [|eexists; repeat split].
  destruct (dict_get "name" place); eexists; repeat split.
Qed.

Lemma resolved_located (location_name : string) :
  resolved env location_name = located (geocode env location_name).
Proof.
  unfold resolved.
  destruct (get_coordinates_run initial_state location_name)
    as (s' & -> & _).
  reflexivity.
Qed.

(** C3: for every place name [get_coordinates] returns and does not raise.
    It returns the latitude, longitude and name of the first result when
    the lookup answers 200 with a non-empty results array, and exactly
    (40.7128, -74.0060, "New York") when the request raises, when the
    status is not 200, when the body cannot be decoded, and when the
    results array is missing or empty. *)
Theorem get_coordinates_fallback (s : State) (location_name : string) :
  exists coordinates s',
    get_coordinates location_name env s = (Ok coordinates, s') /\
    (forall response place others latitude longitude name,
        geocode env location_name = Ok response ->
        status_code response = 200 ->
        json response = Ok (Geocoding (Some (place :: others))) ->
        dict_get "latitude" place = Some latitude ->
        dict_get "longitude" place = Some longitude ->
        dict_get "name" place = Some name ->
        coordinates = (latitude, longitude, name)) /\
    (forall e, geocode env location_name = Raise e ->
               coordinates = default_location) /\
    (forall response,
        geocode env location_name = Ok response ->
        status_code response <> 200 ->
        coordinates = default_location) /\
    (forall response e,
        geocode env location_name = Ok response ->
        json response = Raise e ->
        coordinates = default_location) /\
    (forall response data,
        geocode env location_name = Ok response ->
        json response = Ok data ->
        json_results data = None \/ json_results data = Some [] ->
        coordinates = default_location) /\
    default_location
    = (PyFloat (Finite 40.7128%Q), PyFloat (Finite (-74.0060)%Q),
       PyStr "New York").
Proof.
  destruct (get_coordinates_run s location_name) as (s' & Hrun & _).
  exists (located (geocode env location_name)), s'.
  split; [exact Hrun|]. unfold located.
  split; [|split; [|split; [|split; [|split]]]].
  - intros response place others latitude longitude name
      -> -> -> -> -> ->. reflexivity.
  - now intros e ->.
  - intros response -> Hstatus.
    destruct (Z.eqb_spec (status_code response) 200); [contradiction|].
    reflexivity.
  - intros response e -> ->. now destruct (status_code response =? 200).
  - intros response data -> -> Hres.
    destruct (status_code response =? 200); [|reflexivity].
    destruct data as [prices|results|hourly]; try reflexivity.
    cbn in Hres. destruct Hres as [->| ->]; reflexivity.
  - reflexivity.
Qed.

Section Forecast.
Variables (location_name : string) (days : Z).
Variables (response : Response) (h : Hourly).
Variables (times : list string) (ts : list Timestamp).
Variables (temperature humidity precip : list Q).
Hypothesis answered : forecast env location_name days = Ok response.
Hypothesis success : status_code response = 200.
Hypothesis decoded : json response = Ok (Forecast (Some h)).
Hypothesis has_time : time h = Some times.
Hypothesis has_temperature : temperature_2m h = Some temperature.
Hypothesis has_humidity : relative_humidity_2m h = Some humidity.
Hypothesis has_precipitation : precipitation h = Some precip.
Hypothesis parsed : pd_to_datetime env times = Ok ts.

(** The run of [fetch_weather_data] up to the construction of the
    frame. *)
Lemma fetch_weather_data_frame (s : State) :
  exists s1,
    fetch_weather_data location_name days env s
    = (let name := snd (resolved env location_name) in
       match pd_DataFrame
               [("time", Array (map PyTime ts));
                ("temperature", Array (floats temperature));
                ("humidity", Array (floats humidity));
                ("precipitation", Array (floats precip))] with
       | Ok df => (Ok (setitem_scalar df "location" name), s1)
       | Raise e =>
           (Ok pd_DataFrame_empty,
            snd (print ("Error fetching weather: " ++ str_exn e) env s1))
       end).
Proof.
  pose proof answered as Hget.
  unfold forecast in Hget. rewrite resolved_located in *.
  unfold fetch_weather_data, bind at 1.
  destruct (get_coordinates_run s location_name) as (s1 & -> & _).
  destruct (located (geocode env location_name))
    as [[latitude longitude] resolved_name].
  unfold json_hourly, member. run_monad.
  rewrite Hget, success. cbn [Z.eqb Pos.eqb].
  rewrite decoded, has_time, parsed, has_temperature, has_humidity,
    has_precipitation.
  exists s1. cbn [snd].
  now destruct (pd_DataFrame _).
Qed.

(** C6: for every successful forecast whose timestamp, temperature,
    humidity and precipitation arrays all have length [n],
    [fetch_weather_data] returns a table of exactly [n] rows whose
    [i]-th row holds the [i]-th timestamp, temperature, humidity and
    precipitation, and the name [get_coordinates] resolved. *)
Theorem fetch_weather_data_zip (s : State) (n : nat) :
  List.length times = n -> List.length ts = n ->
  List.length temperature = n -> List.length humidity = n ->
  List.length precip = n ->
  exists df s',
    fetch_weather_data location_name days env s = (Ok df, s') /\
    columns df = weather_columns /\
    List.length (rows df) = n /\
    forall i, (i < n)%nat ->
      nth i (rows df) []
      = [PyTime (nth i ts 0); PyFloat (Finite (nth i temperature 0%Q));
         PyFloat (Finite (nth i humidity 0%Q));
         PyFloat (Finite (nth i precip 0%Q));
         snd (resolved env location_name)].
Proof.
  intros _ Hts Htl Hhl Hpl.
  destruct (fetch_weather_data_frame s) as [s1 ->].
  unfold pd_DataFrame, floats. cbn [index_length forallb].
  rewrite !length_map, Hts, Htl, Hhl, Hpl, Nat.eqb_refl. cbn [andb].
  eexists. eexists. split; [reflexivity|].
  cbn [setitem_scalar columns rows map fst]. split; [reflexivity|]. split.
  - now rewrite !length_map, length_seq.
  - intros i Hi. rewrite map_map.
    rewrite (nth_map_lt _ _ _ 0%nat) by now rewrite length_seq.
    rewrite seq_nth by exact Hi. cbn.
    rewrite (nth_map_lt PyTime _ _ 0) by lia.
    rewrite !(nth_map_lt (fun q => PyFloat (Finite q)) _ _ 0%Q) by lia.
    reflexivity.
Qed.

End Forecast.
End WeatherNormalizer.

(** ** MockStockGenerator *)

Lemma cumsum_from_length (xs : list float) :
  forall acc, List.length (cumsum_from acc xs) = List.length xs.
Proof.
  induction xs as [|x xs IH]; intros acc; simpl; [reflexivity|].
  now rewrite IH.
Qed.

Lemma np_cumsum_length (xs : list float) :
  List.length (np_cumsum xs) = List.length xs.
Proof.
  destruct xs as [|x xs]; simpl; [reflexivity|].
  now rewrite cumsum_from_length.
Qed.



(** A range that fits is the range of the daily dates. *)
Lemma pd_date_range_fits (t : Timestamp) (periods : Z) :
  0 <= periods -> date_range_fits t periods = true ->
  pd_date_range t periods
  = Ok (map (fun i => t - (periods - 1 - Z.of_nat i) * DAY)
          (seq 0 (Z.to_nat periods))).
Proof.
  intros Hperiods Hfits. unfold pd_date_range. rewrite Hfits.
  unfold date_range_fits in Hfits.
  apply andb_prop in Hfits as [Hfits Hfirst].
  apply andb_prop in Hfits as [Hend _]. rewrite Hend. cbn [negb].
  replace (periods <? 0) with false by (symmetry; apply Z.ltb_ge; lia).
  replace (UINT64_MAX <? periods) with false; [reflexivity|].
  symmetry. apply Z.ltb_ge.
  unfold in_bounds in Hend, Hfirst.
  apply andb_prop in Hend as [_ Hend]. apply Z.leb_le in Hend.
  apply andb_prop in Hfirst as [Hfirst _]. apply Z.leb_le in Hfirst.
  unfold Timestamp_min, Timestamp_max, UINT64_MAX, DAY, SECOND in *.
  change (2 ^ 63) with 9223372036854775808 in *.
  change (2 ^ 64) with 18446744073709551616. lia.
Qed.

Lemma ranges_fit_cons (env : Env) (cr : nat) (symbol : string)
  (symbols : list string) (days : Z) :
  ranges_fit env cr (symbol :: symbols) days
  = date_range_fits (clock env cr) days
    && ranges_fit env (S cr) symbols days.
Proof.
  unfold ranges_fit. cbn [List.length seq forallb].
  rewrite Nat.add_0_r. f_equal.
  rewrite <- seq_shift, forallb_map_eq. apply forallb_pointwise.
  intros k. now rewrite Nat.add_succ_r.
Qed.

Section MockStockGenerator.
Variable env : Env.
Variable days : Z.
Hypothesis days_nonnegative : 0 <= days.

Lemma mock_prices_length (rd : nat) (symbol : string) (n : nat) :
  List.length (mock_prices env rd symbol n) = n.
Proof.
  unfold mock_prices, draws.
  now rewrite length_map, np_cumsum_length, !length_map, length_seq.
Qed.


Lemma mock_symbol_run (s : State) (data : list DataFrame)
  (symbol : string) :
  date_range_fits (clock env (clock_reads s)) days = true ->
  mock_symbol days data symbol env s
  = (Ok (data ++ [mock_frame env (clock_reads s) (random_draws s) symbol
                    days])%list,
     {| stdout := stdout s;
        clock_reads := S (clock_reads s);
        random_draws := (random_draws s + Z.to_nat days)%nat |}).
Proof.
  intros Hfits.
  unfold mock_symbol, bind, datetime_now, lift, ret, np_random_randn.
  cbn [stdout clock_reads random_draws].
  rewrite (pd_date_range_fits _ _ days_nonnegative Hfits).
  destruct (Z.ltb_spec days 0) as [Hneg|_]; [lia|].
  cbn [stdout clock_reads random_draws].
  unfold pd_DataFrame. cbn [index_length forallb].
  fold (draws env (random_draws s) (Z.to_nat days)).
  fold (mock_prices env (random_draws s) symbol (Z.to_nat days)).
  rewrite !length_map, length_seq, mock_prices_length, !Nat.eqb_refl.
  reflexivity.
Qed.

(** Every symbol takes one reading of the clock and [days] draws. *)
Lemma for_each_mock_symbol (symbols : list string) :
  forall (data : list DataFrame) (s : State),
    ranges_fit env (clock_reads s) symbols days = true ->
    for_each symbols (mock_symbol days) data env s
    = (Ok (data ++ mock_frames env (clock_reads s) (random_draws s) symbols
                     days)%list,
       {| stdout := stdout s;
          clock_reads := (clock_reads s + List.length symbols)%nat;
          random_draws := (random_draws s
                           + List.length symbols * Z.to_nat days)%nat |}).
Proof.
  induction symbols as [|symbol symbols IH]; intros data s Hfits.
  - cbn. unfold ret. rewrite app_nil_r, !Nat.add_0_r. now destruct s.
  - rewrite ranges_fit_cons in Hfits.
    apply andb_prop in Hfits as [Hfirst Hrest].
    cbn [for_each]. unfold bind. rewrite mock_symbol_run by exact Hfirst.
    rewrite IH by exact Hrest.
    cbn [stdout clock_reads random_draws mock_frames List.length].
    rewrite <- app_assoc. cbn [app]. f_equal. f_equal; [lia|].
    cbn [Nat.mul]. symmetry. apply Nat.add_assoc.
Qed.

(** A walk whose first range does not fit stops at its first symbol. *)
Lemma mock_symbol_raises (s : State) (data : list DataFrame)
  (symbol : string) (e : exn) :
  pd_date_range (clock env (clock_reads s)) days = Raise e ->
  mock_symbol days data symbol env s
  = (Raise e, {| stdout := stdout s;
                 clock_reads := S (clock_reads s);
                 random_draws := random_draws s |}).
Proof.
  intros Hrange.
  unfold mock_symbol, bind, datetime_now, lift.
  cbn [stdout clock_reads random_draws]. now rewrite Hrange.
Qed.

Lemma mock_frames_aligned (symbols : list string) :
  forall cr rd,
    Forall (aligned stock_columns) (mock_frames env cr rd symbols days).
Proof.
  induction symbols as [|symbol symbols IH]; intros cr rd; simpl.
  - constructor.
  - constructor; [|apply IH]. split; [reflexivity|].
    cbn. apply Forall_forall. intros row Hin.
    apply in_map_iff in Hin as (i & <- & _). reflexivity.
Qed.



End MockStockGenerator.


Section Determinism.
Variables env1 env2 : Env.
Hypothesis same_draws : forall n, randn_stream env1 n = randn_stream env2 n.
Hypothesis same_clock : forall n, clock env1 n = clock env2 n.

Lemma mock_symbol_in_step (days : Z) (data : list DataFrame)
  (symbol : string) (s1 s2 : State) :
  in_step s1 s2 ->
  fst (mock_symbol days data symbol env1 s1)
  = fst (mock_symbol days data symbol env2 s2) /\
  in_step (snd (mock_symbol days data symbol env1 s1))
    (snd (mock_symbol days data symbol env2 s2)).
Proof.
  intros [Hc Hr].
  unfold mock_symbol, bind, datetime_now, lift, ret, np_random_randn.
  rewrite Hc, same_clock.
  destruct (pd_date_range (clock env2 (clock_reads s2)) days) as [dates|e].
  2:{ split; [reflexivity|]. split; cbn; congruence. }
  destruct (days <? 0).
  { split; [reflexivity|]. split; cbn; congruence. }
  cbn [random_draws clock_reads stdout]. rewrite Hr.
  rewrite (map_ext _ _ (fun i => same_draws (random_draws s2 + i))).
  match goal with
  | |- context [pd_DataFrame ?d] => destruct (pd_DataFrame d) as [df|e]
  end; (split; [reflexivity|]; split; cbn; congruence).
Qed.

Lemma for_each_mock_symbol_in_step (days : Z) (symbols : list string) :
  forall (data : list DataFrame) (s1 s2 : State),
    in_step s1 s2 ->
    fst (for_each symbols (mock_symbol days) data env1 s1)
    = fst (for_each symbols (mock_symbol days) data env2 s2).
Proof.
  induction symbols as [|symbol symbols IH]; intros data s1 s2 Hstep.
  - reflexivity.
  - cbn [for_each]. unfold bind.
    destruct (mock_symbol_in_step days data symbol s1 s2 Hstep)
      as [Hfst Hsnd].
    destruct (mock_symbol days data symbol env1 s1) as [r1 t1].
    destruct (mock_symbol days data symbol env2 s2) as [r2 t2].
    cbn [fst snd] in Hfst, Hsnd. subst r2.
    destruct r1 as [data'|e]; [|reflexivity].
    now apply IH.
Qed.

(** C9, as the code has it: two runs of [generate_mock_stock_data] on the
    same symbols and day-count that take the same draws from the generator
    and the same readings from the clock return identical results. *)
Theorem generate_mock_stock_data_deterministic (symbols : list string)
  (days : Z) (s1 s2 : State) :
  clock_reads s1 = clock_reads s2 ->
  random_draws s1 = random_draws s2 ->
  fst (generate_mock_stock_data symbols days env1 s1)
  = fst (generate_mock_stock_data symbols days env2 s2).
Proof.
  intros Hc Hr. unfold generate_mock_stock_data, bind, lift.
  pose proof (for_each_mock_symbol_in_step days symbols [] s1 s2
                (conj Hc Hr)) as Hloop.
  destruct (for_each symbols (mock_symbol days) [] env1 s1) as [r1 t1].
  destruct (for_each symbols (mock_symbol days) [] env2 s2) as [r2 t2].
  cbn [fst] in Hloop. subst r2. now destruct r1.
Qed.
End Determinism.

(** ** DashboardAggregator *)

Lemma traverse_as_float (prices : list Q) :
  traverse as_float (floats prices) = Ok (map Finite prices).
Proof. unfold floats. now apply traverse_map_ok. Qed.

Lemma iloc_last_snoc {A : Type} (l : list A) (x : A) :
  iloc_last (l ++ [x])%list = Ok x.
Proof. unfold iloc_last. now rewrite rev_unit. Qed.









(** Tables of prices. *)

Lemma traverse_total {A B : Type} (f : A -> result B) (P : A -> B -> Prop)
  (l : list A) :
  (forall x, In x l -> exists y, f x = Ok y /\ P x y) ->
  exists ys, traverse f l = Ok ys /\ Forall2 P l ys.
Proof.
  induction l as [|x l IH]; intros Hall.
  - exists []. split; [reflexivity|constructor].
  - destruct (Hall x (or_introl eq_refl)) as (y & Hy & Py).
    destruct IH as (ys & Hys & Pys).
    { intros z Hz. apply Hall. now right. }
    exists (y :: ys). cbn. rewrite Hy, Hys. split; [reflexivity|].
    now constructor.
Qed.

Lemma Forall2_length_eq {A B : Type} (P : A -> B -> Prop) (l : list A)
  (l' : list B) :
  Forall2 P l l' -> List.length l = List.length l'.
Proof. induction 1; cbn; congruence. Qed.

Lemma insert_key_In (k x : string) (l : list string) :
  In k (insert_key x l) <-> k = x \/ In k l.
Proof.
  induction l as [|h t IH]; cbn.
  - intuition.
  - destruct (String.compare x h) eqn:E; cbn.
    + apply String.compare_eq_iff in E. subst h. intuition.
    + intuition.
    + rewrite IH. intuition.
Qed.

Lemma group_keys_In (label : string) (column : list pyval) :
  In label (group_keys column) <-> In (PyStr label) column.
Proof.
  unfold group_keys, labels_of.
  induction column as [|v column IH]; cbn.
  - reflexivity.
  - destruct v; cbn; rewrite ?insert_key_In, IH;
      intuition (try discriminate; try congruence).
Qed.

Lemma unique_In (label : string) (l : list string) :
  In label (unique l) -> In label l.
Proof.
  induction l as [|x l IH]; cbn; [tauto|].
  intros [->|H]; [now left|].
  apply filter_In in H as [H _]. right. now apply IH.
Qed.

Lemma labels_of_In (label : string) (column : list pyval) :
  In label (labels_of column) <-> In (PyStr label) column.
Proof.
  unfold labels_of. rewrite in_flat_map. split.
  - intros (v & Hv & Hl). destruct v; cbn in Hl; try contradiction.
    destruct Hl as [->|[]]. exact Hv.
  - intros H. exists (PyStr label). split; [exact H|now left].
Qed.

Lemma traverse_as_float_floats (s : list pyval) :
  all_floats s ->
  exists xs, traverse as_float s = Ok xs /\ List.length xs = List.length s.
Proof.
  induction 1 as [|v s [x ->] _ (xs & Hxs & Hlen)].
  - now exists [].
  - exists (x :: xs). cbn. rewrite Hxs. cbn. split; congruence.
Qed.

Lemma iloc_last_nonempty {A : Type} (l : list A) :
  l <> [] -> exists x, iloc_last l = Ok x /\ In x l.
Proof.
  intros Hne. destruct (@exists_last _ l Hne) as (init & x & ->).
  exists x. rewrite iloc_last_snoc. split; [reflexivity|].
  apply in_or_app. right. now left.
Qed.

Lemma total_change_floats (s : list pyval) :
  s <> [] -> all_floats s -> exists x, total_change s = Ok (PyFloat x).
Proof.
  intros Hne Hall. unfold total_change.
  destruct (iloc_last_nonempty s Hne) as (l & -> & Hl).
  destruct s as [|f s]; [contradiction|]. cbn [iloc_first].
  unfold all_floats in Hall. rewrite Forall_forall in Hall.
  destruct (Hall l Hl) as [x ->].
  destruct (Hall f (or_introl eq_refl)) as [y ->].
  cbn. now eexists.
Qed.

Lemma last_valid_floats_ok (s : list pyval) :
  all_floats s -> exists x, last_valid s = Ok (PyFloat x).
Proof.
  intros Hall. unfold last_valid.
  destruct (filter _ (rev s)) as [|v rest] eqn:E.
  - now exists NaN.
  - assert (Hin : In v (rev s)).
    { assert (H : In v (v :: rest)) by now left.
      rewrite <- E in H. now apply filter_In in H. }
    apply in_rev in Hin. unfold all_floats in Hall.
    rewrite Forall_forall in Hall. destruct (Hall v Hin) as [x ->].
    now exists x.
Qed.

Lemma last_valid_ok (s : list pyval) : exists v, last_valid s = Ok v.
Proof.
  unfold last_valid. destruct (filter _ (rev s)); now eexists.
Qed.

Lemma pct_change_last (s : list pyval) :
  s <> [] -> all_floats s ->
  exists changes c, pct_change s = Ok changes /\ iloc_last changes = Ok c.
Proof.
  intros Hne Hall. unfold pct_change.
  destruct (traverse_as_float_floats s Hall) as (xs & -> & Hlen).
  destruct xs as [|x xs]; [destruct s; [contradiction|discriminate]|].
  eexists. destruct (iloc_last_nonempty
    (NaN :: map (fun '(previous, current) =>
                   fsub (fdiv current previous) (of_int 1))
              (combine (x :: xs) xs))) as (c & Hc & _); [discriminate|].
  exists c. split; [reflexivity|exact Hc].
Qed.

Section PriceTable.
Variables instants key : string.
Hypothesis instants_not_price : String.eqb instants "price" = false.
Hypothesis instants_not_key : String.eqb instants key = false.
Hypothesis price_not_key : String.eqb "price" key = false.
Hypothesis key_not_change : String.eqb key "change" = false.
Hypothesis instants_not_change : String.eqb instants "change" = false.
Variable df : DataFrame.
Hypothesis shaped : price_table instants key df.

Lemma index_instants : column_index instants (columns df) = Some 0%nat.
Proof.
  destruct shaped as [-> _]. cbn [column_index].
  now rewrite String.eqb_refl.
Qed.

Lemma index_price : column_index "price" (columns df) = Some 1%nat.
Proof.
  destruct shaped as [-> _]. cbn [column_index].
  now rewrite instants_not_price.
Qed.

Lemma index_key : column_index key (columns df) = Some 2%nat.
Proof.
  destruct shaped as [-> _]. cbn [column_index].
  now rewrite instants_not_key, price_not_key, String.eqb_refl.
Qed.

Lemma series_key : series df key = Ok (label_column df).
Proof. unfold series. now rewrite index_key. Qed.

(** The series of a label: the cells of the rows that carry the label. *)
Lemma label_series_at (label column : string) (j : nat) :
  column_index column (columns df) = Some j ->
  label_series df key label column
  = Ok (map (fun row => nth j row NaN_cell)
          (filter (fun row => cell_is label (nth 2 row NaN_cell)) (rows df))).
Proof.
  intros Hj. unfold label_series, select, series.
  rewrite index_key. cbn [columns rows]. now rewrite Hj.
Qed.

Lemma label_prices_floats (label : string) :
  all_floats (map (fun row => nth 1 row NaN_cell)
                (filter (fun row => cell_is label (nth 2 row NaN_cell))
                   (rows df))).
Proof.
  destruct shaped as [_ Hrows]. unfold all_floats.
  apply Forall_map. apply Forall_forall. intros row Hin.
  apply filter_In in Hin as [Hin _].
  rewrite Forall_forall in Hrows.
  destruct (Hrows row Hin) as (t & x & l & ->). now exists x.
Qed.

Lemma label_prices_nonempty (label : string) :
  In (PyStr label) (label_column df) ->
  map (fun row => nth 1 row NaN_cell)
    (filter (fun row => cell_is label (nth 2 row NaN_cell)) (rows df)) <> [].
Proof.
  unfold label_column. intros Hin.
  apply in_map_iff in Hin as (row & Hcell & Hrow).
  assert (Hf : In row (filter (fun row => cell_is label (nth 2 row NaN_cell))
                         (rows df))).
  { apply filter_In. split; [exact Hrow|].
    rewrite Hcell. cbn. apply String.eqb_refl. }
  intros E. apply map_eq_nil in E. rewrite E in Hf. contradiction.
Qed.

(** A group-by over the prices succeeds when the aggregate does on every
    non-empty series of floats; there is one entry per key. *)
Lemma groupby_price_ok (f : list pyval -> result pyval) :
  (forall s, s <> [] -> all_floats s -> exists x, f s = Ok (PyFloat x)) ->
  exists entries,
    groupby_apply df key "price" f = Ok entries /\
    Forall2 (fun label entry =>
               fst entry = label /\ exists x, snd entry = PyFloat x)
      (group_keys (label_column df)) entries.
Proof.
  intros Hf. unfold groupby_apply. rewrite series_key.
  apply traverse_total. intros label Hin.
  apply group_keys_In in Hin.
  rewrite (label_series_at label "price" 1 index_price).
  destruct (Hf _ (label_prices_nonempty label Hin)
              (label_prices_floats label)) as [x ->].
  exists (label, PyFloat x). split; [reflexivity|].
  split; [reflexivity|now exists x].
Qed.

Lemma last_step_change_ok (label : string) :
  In (PyStr label) (label_column df) ->
  exists c, last_step_change df key label = Ok c.
Proof.
  intros Hin. unfold last_step_change.
  rewrite (label_series_at label "price" 1 index_price).
  destruct (pct_change_last _ (label_prices_nonempty label Hin)
              (label_prices_floats label)) as (changes & c & -> & ->).
  now eexists.
Qed.

Lemma price_cards_ok (latest_prices : list (string * pyval)) :
  forall keys i,
    Forall2 (fun label entry =>
               fst entry = label /\ exists x, snd entry = PyFloat x)
      keys latest_prices ->
    (forall label, In label keys -> In (PyStr label) (label_column df)) ->
    exists cards,
      price_cards df key i latest_prices = Ok cards /\
      map card_title cards = keys.
Proof.
  induction latest_prices as [|[label price] rest IH]; intros keys i H Hin.
  - inversion H; subst. now exists [].
  - inversion H as [|k e ks es [Hk [x Hx]] Hrest]; subst keys e es.
    cbn [fst snd] in Hk, Hx. subst k price.
    destruct (last_step_change_ok label) as [c Hc];
      [apply Hin; now left|].
    destruct (IH ks (S i) Hrest) as (cards & Hcards & Htitles).
    { intros l Hl. apply Hin. now right. }
    cbn [price_cards]. rewrite Hc. cbn [as_float]. rewrite Hcards.
    eexists. split; [reflexivity|]. cbn. now rewrite Htitles.
Qed.

Lemma colored_traces_ok (kind title : string) :
  exists fig, colored_traces kind df instants "price" key title = Ok fig.
Proof.
  unfold colored_traces, traces_by. rewrite series_key.
  destruct (traverse_total
              (fun label =>
                 match label_series df key label instants,
                       label_series df key label "price" with
                 | Raise e, _ | Ok _, Raise e => Raise e
                 | Ok xs, Ok ys =>
                     Ok {| trace_kind := kind; trace_name := label;
                           trace_x := xs; trace_y := ys |}
                 end)
              (fun _ _ => True) (unique (labels_of (label_column df))))
    as (ts & -> & _).
  - intros label _.
    rewrite (label_series_at label instants 0 index_instants).
    rewrite (label_series_at label "price" 1 index_price).
    eexists. split; [reflexivity|exact I].
  - now eexists.
Qed.

Lemma groupby_last_rows :
  exists rs,
    groupby_last df key
    = Ok {| columns := [key; instants; "price"]; rows := rs |} /\
    Forall2 (fun label row => exists a b, row = [PyStr label; a; b])
      (group_keys (label_column df)) rs.
Proof.
  unfold groupby_last. rewrite series_key.
  assert (Hothers : filter (fun c => negb (String.eqb c key)) (columns df)
                    = [instants; "price"]).
  { destruct shaped as [-> _]. cbn [filter].
    now rewrite instants_not_key, price_not_key, String.eqb_refl. }
  rewrite Hothers.
  destruct (traverse_total
              (fun label =>
                 match traverse (fun c =>
                          match label_series df key label c with
                          | Raise e => Raise e
                          | Ok s => last_valid s
                          end) [instants; "price"] with
                 | Raise e => Raise e
                 | Ok cells => Ok (PyStr label :: cells)
                 end)
              (fun label row => exists a b, row = [PyStr label; a; b])
              (group_keys (label_column df)))
    as (rs & -> & Hrs).
  - intros label _. cbn [traverse].
    rewrite (label_series_at label instants 0 index_instants).
    rewrite (label_series_at label "price" 1 index_price).
    destruct (last_valid_ok
                (map (fun row => nth 0 row NaN_cell)
                   (filter (fun row => cell_is label (nth 2 row NaN_cell))
                      (rows df)))) as [v0 ->].
    destruct (last_valid_ok
                (map (fun row => nth 1 row NaN_cell)
                   (filter (fun row => cell_is label (nth 2 row NaN_cell))
                      (rows df)))) as [v1 ->].
    eexists. split; [reflexivity|]. now exists v0, v1.
  - now exists rs.
Qed.

Lemma change_column (keys : list string) (rs : list (list pyval)) :
  Forall2 (fun label row => exists a b, row = [PyStr label; a; b]) keys rs ->
  forall vs : list pyval,
    List.length vs = List.length keys ->
    map (fun row => nth 0 row NaN_cell)
      (map (fun '(row, v) => (row ++ [v])%list) (combine rs vs))
    = map PyStr keys /\
    map (fun row => nth 3 row NaN_cell)
      (map (fun '(row, v) => (row ++ [v])%list) (combine rs vs))
    = vs.
Proof.
  induction 1 as [|label row keys rs (a & b & ->) _ IH]; intros vs Hlen.
  - destruct vs; [now split|discriminate].
  - destruct vs as [|v vs]; [discriminate|]. injection Hlen as Hlen.
    destruct (IH vs Hlen) as [Hx Hy].
    cbn [combine map app nth]. now rewrite Hx, Hy.
Qed.

(** The chart of the total changes has one bar per key of the group-by. *)
Lemma total_change_chart_bars (title : string) :
  exists changes,
    groupby_apply df key "price" total_change = Ok changes /\
    List.length changes = List.length (group_keys (label_column df)) /\
    total_change_chart df key title
    = Ok {| fig_title := title; fig_traces := [change_bars df changes];
            fig_annotations := []; fig_layout := [] |}.
Proof.
  unfold total_change_chart.
  destruct groupby_last_rows as (rs & -> & Hrs).
  destruct (groupby_price_ok total_change total_change_floats)
    as (changes & -> & Hchanges).
  pose proof (Forall2_length_eq _ _ _ Hchanges) as Hlen.
  exists changes. split; [reflexivity|]. split; [now symmetry|].
  pose proof (Forall2_length_eq _ _ _ Hrs) as Hlen'.
  unfold setitem. cbn [columns rows].
  rewrite length_map, <- Hlen, Hlen', Nat.eqb_refl.
  unfold single_trace, series, with_column, set_cell.
  cbn [columns rows column_index].
  rewrite key_not_change, instants_not_change.
  cbn [String.eqb Ascii.eqb Bool.eqb option_map app column_index].
  rewrite String.eqb_refl, key_not_change, instants_not_change.
  cbn [String.eqb Ascii.eqb Bool.eqb option_map].
  destruct (change_column _ _ Hrs (map snd changes)) as [Hx Hy].
  { now rewrite length_map. }
  unfold change_bars. now rewrite Hx, Hy.
Qed.

(** Every bar stands at the label of its own entry of the group-by, and
    the labels are the keys of the group-by. *)
Lemma total_change_chart_labelled (title : string) :
  exists changes,
    groupby_apply df key "price" total_change = Ok changes /\
    map fst changes = group_keys (label_column df) /\
    total_change_chart df key title
    = Ok {| fig_title := title;
            fig_traces :=
              [{| trace_kind := "bar"; trace_name := "";
                  trace_x := map (fun entry => PyStr (fst entry)) changes;
                  trace_y := map snd changes |}];
            fig_annotations := []; fig_layout := [] |}.
Proof.
  destruct (total_change_chart_bars title) as (changes & Hgroup & _ & Hchart).
  destruct (groupby_price_ok total_change total_change_floats)
    as (changes' & Hgroup' & Hkeys).
  rewrite Hgroup in Hgroup'. injection Hgroup' as <-.
  assert (Hlabels : map fst changes = group_keys (label_column df)).
  { clear Hgroup Hchart.
    induction Hkeys as [|k e ks es [Hk _] _ IH]; [reflexivity|].
    cbn [map]. now rewrite IH, Hk. }
  exists changes. split; [exact Hgroup|]. split; [exact Hlabels|].
  rewrite Hchart. unfold change_bars.
  now rewrite <- Hlabels, map_map.
Qed.

Lemma cards_ok :
  exists latest_prices cards,
    groupby_apply df key "price" last_valid = Ok latest_prices /\
    price_cards df key 0 latest_prices = Ok cards /\
    map card_title cards = group_keys (label_column df).
Proof.
  destruct (groupby_price_ok last_valid (fun s _ => last_valid_floats_ok s))
    as (latest_prices & Hlatest & Hentries).
  destruct (price_cards_ok latest_prices _ 0%nat Hentries)
    as (cards & Hcards & Htitles).
  { intros label. apply group_keys_In. }
  now exists latest_prices, cards.
Qed.
End PriceTable.


(** C4: if the request of every coin fails, [fetch_crypto_data] returns the
    empty table, without raising, and [update_crypto_dashboard] returns what
    [create_empty_dashboard "No crypto data available"] returns: no card,
    and three figures that hold the message and no trace.  No statistic is
    computed on the way. *)
Theorem all_coins_failed_placeholder (env : Env) (s : State) (days : Z) :
  (forall coin, In coin default_coins ->
                request_failed (market_chart env coin days) = true) ->
  exists s1 s2 dashboard,
    fetch_crypto_data default_coins days env s = (Ok pd_DataFrame_empty, s1) /\
    rows pd_DataFrame_empty = [] /\
    update_crypto_dashboard days env s
    = create_empty_dashboard "No crypto data available" env s1 /\
    update_crypto_dashboard days env s = (Ok dashboard, s2) /\
    stats_cards dashboard = [] /\
    fig_traces (main_chart dashboard) = [] /\
    fig_annotations (main_chart dashboard) = ["No crypto data available"] /\
    secondary_chart_1 dashboard = main_chart dashboard /\
    secondary_chart_2 dashboard = main_chart dashboard.
Proof.
  intros Hall.
  destruct (fetch_crypto_data_all_failed env days s default_coins Hall)
    as (s1 & Hfetch & _).
  assert (Hupd : update_crypto_dashboard days env s
                 = create_empty_dashboard "No crypto data available" env s1).
  { unfold update_crypto_dashboard, bind at 1. rewrite Hfetch. reflexivity. }
  exists s1. eexists. eexists.
  split; [exact Hfetch|]. split; [reflexivity|]. split; [exact Hupd|].
  rewrite Hupd. unfold create_empty_dashboard, bind, datetime_now, ret.
  repeat split.
Qed.

(** C10: for every value of the selector other than "crypto" and "weather",
    [update_dashboard] is [update_stocks_dashboard]; "crypto" selects
    [update_crypto_dashboard] and "weather" selects
    [update_weather_dashboard]. *)
Theorem update_dashboard_dispatch (n_clicks n_intervals : Z)
  (data_type : string) (time_range : Z) (location : option string) :
  data_type <> "crypto" -> data_type <> "weather" ->
  update_dashboard n_clicks n_intervals data_type time_range location
  = update_stocks_dashboard time_range /\
  update_dashboard n_clicks n_intervals "crypto" time_range location
  = update_crypto_dashboard time_range /\
  update_dashboard n_clicks n_intervals "weather" time_range location
  = update_weather_dashboard time_range (or_default location "New York").
Proof.
  intros Hcrypto Hweather. unfold update_dashboard.
  destruct (String.eqb_spec data_type "crypto") as [E|_]; [contradiction|].
  destruct (String.eqb_spec data_type "weather") as [E|_]; [contradiction|].
  repeat split.
Qed.

(** * The properties on the sample day *)

Lemma fetch_crypto_data_rows_witness :
  exists df s',
    fetch_crypto_data default_coins 7 sample_env initial_state = (Ok df, s') /\
    rows df
    = (map (fun entry =>
              [PyTime (fst entry * MILLISECOND); PyFloat (Finite (snd entry));
               PyStr "Bitcoin"]) bitcoin_prices
       ++ map (fun entry =>
                 [PyTime (fst entry * MILLISECOND);
                  PyFloat (Finite (snd entry)); PyStr "Ethereum"])
            ethereum_prices)%list /\
    List.length (rows df)
    = (List.length bitcoin_prices + List.length ethereum_prices)%nat.
Proof.
  destruct (fetch_crypto_data_rows sample_env 7 initial_state default_coins)
    as (df & s' & Hrun & Hrows & _).
  exists df, s'. split; [exact Hrun|]. rewrite Hrows.
  split; vm_compute; reflexivity.
Defined.

(** Against C1 as stated: dogecoin is answered with status 200 and a list of
    one pair, whose epoch is beyond the last instant of pandas; the
    conversion raises, the error is printed and the table has no row. *)
Lemma far_epoch_no_row :
  market_chart sample_env "dogecoin" 7
  = Ok {| status_code := 200; json := Ok (MarketChart (Some far_prices)) |} /\
  List.length far_prices = 1%nat /\
  epochs_fit far_prices = false /\
  fetch_crypto_data ["dogecoin"] 7 sample_env initial_state
  = (Ok pd_DataFrame_empty,
     {| stdout := ["Error fetching dogecoin: "
                   ++ out_of_bounds_text sample_env [10000000000000000]];
        clock_reads := 0; random_draws := 0 |}) /\
  List.length (table (fetch_crypto_data ["dogecoin"] 7 sample_env
                        initial_state)) = 0%nat.
Proof. repeat split. Qed.

Lemma fetch_crypto_data_partial_failure_witness :
  request_failed (market_chart sample_env "cardano" 7) = true /\
  exists df s',
    fetch_crypto_data default_coins 7 sample_env initial_state = (Ok df, s') /\
    rows df
    = (map (price_row sample_env "bitcoin") bitcoin_prices
       ++ map (price_row sample_env "ethereum") ethereum_prices)%list /\
    In (price_row sample_env "ethereum" (1700003600000, 110%Q)) (rows df).
Proof.
  split; [reflexivity|].
  destruct (fetch_crypto_data_partial_failure sample_env 7 initial_state
              default_coins) as (df & s' & Hrun & Hrows & Hkept & _).
  exists df, s'. split; [exact Hrun|].
  split; [rewrite Hrows; vm_compute; reflexivity|].
  destruct (Hkept "ethereum"
              {| status_code := 200;
                 json := Ok (MarketChart (Some ethereum_prices)) |}
              ethereum_prices (1700003600000, 110%Q)) as [_ Hin];
    [right; left; reflexivity|reflexivity..|].
  apply Hin. right. left. reflexivity.
Defined.

Lemma get_coordinates_fallback_witness :
  fst (get_coordinates "Atlantis" sample_env initial_state)
  = Ok default_location.
Proof.
  destruct (get_coordinates_fallback sample_env initial_state "Atlantis")
    as (coordinates & s' & Hrun & _ & _ & _ & _ & Hempty & _).
  rewrite Hrun. cbn [fst]. f_equal.
  apply (Hempty _ _ eq_refl eq_refl). right. reflexivity.
Defined.

Lemma all_coins_failed_placeholder_witness :
  exists s1 s2 dashboard,
    fetch_crypto_data default_coins 7 offline_env initial_state
    = (Ok pd_DataFrame_empty, s1) /\
    rows pd_DataFrame_empty = [] /\
    update_crypto_dashboard 7 offline_env initial_state
    = create_empty_dashboard "No crypto data available" offline_env s1 /\
    update_crypto_dashboard 7 offline_env initial_state = (Ok dashboard, s2) /\
    stats_cards dashboard = [] /\
    fig_traces (main_chart dashboard) = [] /\
    fig_annotations (main_chart dashboard) = ["No crypto data available"] /\
    secondary_chart_1 dashboard = main_chart dashboard /\
    secondary_chart_2 dashboard = main_chart dashboard.
Proof.
  apply (all_coins_failed_placeholder offline_env initial_state 7).
  intros coin _. reflexivity.
Defined.



Lemma fetch_weather_data_zip_witness :
  exists df s',
    fetch_weather_data "London" 1 sample_env initial_state = (Ok df, s') /\
    columns df = weather_columns /\
    List.length (rows df) = 24%nat /\
    forall i, (i < 24)%nat ->
      nth i (rows df) []
      = [PyTime (nth i (map (fun h => (1704067200 + Z.of_nat h * 3600) * SECOND)
                          (seq 0 24)) 0);
         PyFloat (Finite (nth i (ramp 10 0.5 24) 0%Q));
         PyFloat (Finite (nth i (ramp 60 1 24) 0%Q));
         PyFloat (Finite (nth i (ramp 0 0.1 24) 0%Q));
         snd (resolved sample_env "London")].
Proof.
  apply (fetch_weather_data_zip sample_env "London" 1
           {| status_code := 200; json := Ok (Forecast (Some full_day)) |}
           full_day hours_of_day); reflexivity.
Defined.





Lemma generate_mock_stock_data_deterministic_witness :
  fst (generate_mock_stock_data default_symbols 30 sample_env initial_state)
  = fst (generate_mock_stock_data default_symbols 30 offline_env
           initial_state).
Proof.
  apply (generate_mock_stock_data_deterministic sample_env offline_env);
    reflexivity.
Defined.

(** Against C9 as stated: the draws are the same, the clocks are not, and
    neither are the tables. *)
Lemma same_seed_different_tables :
  (forall n, randn_stream sample_env n = randn_stream evening_env n) /\
  fst (generate_mock_stock_data ["AAPL"] 1 sample_env initial_state)
  = Ok {| columns := stock_columns;
          rows := [[PyTime (1700000000 * SECOND);
                    PyFloat (Finite (1245 # 7)); PyStr "AAPL"]] |} /\
  fst (generate_mock_stock_data ["AAPL"] 1 evening_env initial_state)
  = Ok {| columns := stock_columns;
          rows := [[PyTime (1700043200 * SECOND);
                    PyFloat (Finite (1245 # 7)); PyStr "AAPL"]] |} /\
  fst (generate_mock_stock_data ["AAPL"] 1 sample_env initial_state)
  <> fst (generate_mock_stock_data ["AAPL"] 1 evening_env initial_state).
Proof.
  split; [reflexivity|]. split; [reflexivity|]. split; [reflexivity|].
  intros H. discriminate H.
Qed.

Lemma update_dashboard_dispatch_witness :
  update_dashboard 0 0 "forex" 7 None = update_stocks_dashboard 7 /\
  update_dashboard 0 0 "crypto" 7 None = update_crypto_dashboard 7 /\
  update_dashboard 0 0 "weather" 7 None
  = update_weather_dashboard 7 (or_default None "New York").
Proof.
  apply (update_dashboard_dispatch 0 0 "forex" 7 None);
    intros H; discriminate H.
Defined.

(** * Further properties *)

Section WeatherFailure.
Variable env : Env.

(** X1: when the forecast request raises a transport error or answers with a
    status other than 200, [fetch_weather_data] returns the empty table
    without raising, and [update_weather_dashboard] returns what
    [create_empty_dashboard "No weather data available"] returns. *)
Theorem fetch_weather_data_failure (s : State) (location_name : string)
  (days : Z) :
  request_failed (forecast env location_name days) = true ->
  exists s1 s2 dashboard,
    fetch_weather_data location_name days env s = (Ok pd_DataFrame_empty, s1) /\
    update_weather_dashboard days location_name env s
    = create_empty_dashboard "No weather data available" env s1 /\
    update_weather_dashboard days location_name env s = (Ok dashboard, s2) /\
    stats_cards dashboard = [] /\
    fig_annotations (main_chart dashboard) = ["No weather data available"].
Proof.
  intros Hfailed.
  assert (Hfetch : exists s1,
             fetch_weather_data location_name days env s
             = (Ok pd_DataFrame_empty, s1)).
  { unfold forecast in Hfailed. rewrite resolved_located in Hfailed.
    unfold fetch_weather_data, bind at 1.
    destruct (get_coordinates_run env s location_name) as (s1 & -> & _).
    destruct (located (geocode env location_name))
      as [[latitude longitude] resolved_name].
    run_monad. unfold request_failed in Hfailed.
    destruct (requests_get env WEATHER_API _ 10) as [response|e].
    - destruct (status_code response =? 200); [discriminate|].
      eexists. reflexivity.
    - eexists. reflexivity. }
  destruct Hfetch as [s1 Hfetch].
  assert (Hupd : update_weather_dashboard days location_name env s
                 = create_empty_dashboard "No weather data available" env s1).
  { unfold update_weather_dashboard, bind at 1. rewrite Hfetch. reflexivity. }
  exists s1. eexists. eexists.
  split; [exact Hfetch|]. split; [exact Hupd|].
  rewrite Hupd. unfold create_empty_dashboard, bind, datetime_now, ret.
  repeat split.
Qed.
End WeatherFailure.

Lemma fetch_weather_data_failure_witness :
  exists s1 s2 dashboard,
    fetch_weather_data "London" 7 offline_env initial_state
    = (Ok pd_DataFrame_empty, s1) /\
    update_weather_dashboard 7 "London" offline_env initial_state
    = create_empty_dashboard "No weather data available" offline_env s1 /\
    update_weather_dashboard 7 "London" offline_env initial_state
    = (Ok dashboard, s2) /\
    stats_cards dashboard = [] /\
    fig_annotations (main_chart dashboard) = ["No weather data available"].
Proof.
  apply (fetch_weather_data_failure offline_env initial_state "London" 7).
  reflexivity.
Defined.

(** X2: in weather mode the callback passes the location text on, and
    "New York" when the text is empty or absent. *)
Theorem weather_location_default (n_clicks n_intervals : Z) (time_range : Z)
  (location : string) :
  location <> "" ->
  update_dashboard n_clicks n_intervals "weather" time_range (Some location)
  = update_weather_dashboard time_range location /\
  update_dashboard n_clicks n_intervals "weather" time_range (Some "")
  = update_weather_dashboard time_range "New York" /\
  update_dashboard n_clicks n_intervals "weather" time_range None
  = update_weather_dashboard time_range "New York".
Proof.
  intros Hne. unfold update_dashboard. cbn [String.eqb Ascii.eqb Bool.eqb].
  repeat split. destruct location; [contradiction|reflexivity].
Qed.

Lemma weather_location_default_witness :
  update_dashboard 0 0 "weather" 7 (Some "Tokyo")
  = update_weather_dashboard 7 "Tokyo" /\
  update_dashboard 0 0 "weather" 7 (Some "")
  = update_weather_dashboard 7 "New York" /\
  update_dashboard 0 0 "weather" 7 None
  = update_weather_dashboard 7 "New York".
Proof.
  apply (weather_location_default 0 0 7 "Tokyo"). intros H. discriminate H.
Defined.

Section SeedOnly.
Variables env1 env2 : Env.
Hypothesis same_draws : forall n, randn_stream env1 n = randn_stream env2 n.

Lemma mock_prices_same_draws (rd : nat) (symbol : string) (n : nat) :
  mock_prices env1 rd symbol n = mock_prices env2 rd symbol n.
Proof.
  unfold mock_prices, draws.
  now rewrite (map_ext _ _ (fun j => same_draws (rd + j))).
Qed.

(** Past the date, the columns of the frames do not depend on the clock. *)
Lemma mock_frames_past_date (days : Z) (symbols : list string) (j : nat) :
  (0 < j)%nat ->
  forall cr1 cr2 rd,
    map (fun row => nth j row NaN_cell)
      (flat_map rows (mock_frames env1 cr1 rd symbols days))
    = map (fun row => nth j row NaN_cell)
        (flat_map rows (mock_frames env2 cr2 rd symbols days)).
Proof.
  intros Hj.
  induction symbols as [|symbol symbols IH]; intros cr1 cr2 rd.
  - reflexivity.
  - cbn [mock_frames flat_map]. rewrite !map_app. f_equal; [|apply IH].
    cbn [mock_frame rows]. rewrite !map_map.
    apply map_ext. intros i. destruct j as [|j]; [lia|]. cbn [nth].
    now rewrite mock_prices_same_draws.
Qed.

(** X3: two runs of [generate_mock_stock_data] on the same symbols and
    day-count that take the same draws from the generator, at readings of
    the clock that leave room for the dates, return tables with the same
    price column and the same symbol column, whatever the clocks read. *)
Theorem generate_mock_stock_data_same_seed (symbols : list string) (days : Z)
  (s1 s2 : State) :
  1 <= days -> symbols <> [] ->
  ranges_fit env1 (clock_reads s1) symbols days = true ->
  ranges_fit env2 (clock_reads s2) symbols days = true ->
  random_draws s1 = random_draws s2 ->
  exists df1 df2,
    fst (generate_mock_stock_data symbols days env1 s1) = Ok df1 /\
    fst (generate_mock_stock_data symbols days env2 s2) = Ok df2 /\
    series df1 "price" = series df2 "price" /\
    series df1 "symbol" = series df2 "symbol".
Proof.
  intros Hdays Hne Hfits1 Hfits2 Hr.
  assert (Hnonneg : 0 <= days) by lia.
  assert (Hframes : symbols <> [] -> forall env cr rd,
             mock_frames env cr rd symbols days <> []).
  { destruct symbols; [contradiction|discriminate]. }
  unfold generate_mock_stock_data, bind, lift.
  rewrite !for_each_mock_symbol by assumption. cbn [app].
  rewrite !(pd_concat_aligned stock_columns);
    try apply stock_columns_NoDup; try apply mock_frames_aligned;
    try now apply Hframes.
  eexists. eexists. split; [reflexivity|]. split; [reflexivity|].
  unfold series. cbn [columns rows stock_columns column_index String.eqb
    Ascii.eqb Bool.eqb option_map].
  rewrite Hr. split; f_equal; apply mock_frames_past_date; lia.
Qed.
End SeedOnly.

Lemma generate_mock_stock_data_same_seed_witness :
  exists df1 df2,
    fst (generate_mock_stock_data default_symbols 30 sample_env initial_state)
    = Ok df1 /\
    fst (generate_mock_stock_data default_symbols 30 evening_env initial_state)
    = Ok df2 /\
    series df1 "price" = series df2 "price" /\
    series df1 "symbol" = series df2 "symbol".
Proof.
  apply (generate_mock_stock_data_same_seed sample_env evening_env).
  - reflexivity.
  - lia.
  - discriminate.
  - reflexivity.
  - reflexivity.
  - reflexivity.
Defined.




(** The location field is displayed exactly when the selector is
    "weather". *)
Lemma toggle_location_input_weather (data_type : string) :
  toggle_location_input data_type = [("display", "block")]
  <-> data_type = "weather".
Proof.
  unfold toggle_location_input.
  destruct (String.eqb_spec data_type "weather") as [->|Hne]; split; intros H.
  - reflexivity.
  - reflexivity.
  - discriminate H.
  - contradiction.
Qed.

(** ** The order of the cards *)

Lemma label_lt_trans (a b c : string) :
  label_lt a b -> label_lt b c -> label_lt a c.
Proof.
  unfold label_lt. intros Hab Hbc.
  apply String_as_OT.cmp_lt. apply String_as_OT.cmp_lt in Hab, Hbc.
  exact (String_as_OT.lt_trans _ _ _ Hab Hbc).
Qed.

Lemma insert_key_sorted (k : string) (l : list string) :
  StronglySorted label_lt l -> StronglySorted label_lt (insert_key k l).
Proof.
  induction 1 as [|h t Ht IH Hall]; cbn.
  - repeat constructor.
  - destruct (String.compare k h) eqn:E.
    + now constructor.
    + constructor; [now constructor|].
      constructor; [exact E|].
      apply Forall_forall. intros x Hx. rewrite Forall_forall in Hall.
      exact (label_lt_trans _ _ _ E (Hall x Hx)).
    + constructor; [exact IH|].
      apply Forall_forall. intros x Hx.
      apply insert_key_In in Hx as [->|Hx].
      * unfold label_lt. rewrite String.compare_antisym, E. reflexivity.
      * rewrite Forall_forall in Hall. now apply Hall.
Qed.

Lemma group_keys_sorted (column : list pyval) :
  StronglySorted label_lt (group_keys column).
Proof.
  unfold group_keys. induction (labels_of column) as [|k l IH]; cbn.
  - constructor.
  - now apply insert_key_sorted.
Qed.

Lemma insert_key_twice (k : string) (l : list string) :
  insert_key k (insert_key k l) = insert_key k l.
Proof.
  induction l as [|h t IH]; cbn.
  - assert (E : String.compare k k = Eq).
    { destruct (String.compare k k) eqn:E; [reflexivity| |];
        pose proof (String.compare_antisym k k) as H; rewrite E in H;
        discriminate. }
    now rewrite E.
  - destruct (String.compare k h) eqn:E; cbn.
    + now rewrite E.
    + assert (E' : String.compare k k = Eq).
      { destruct (String.compare k k) eqn:E'; [reflexivity| |];
          pose proof (String.compare_antisym k k) as H; rewrite E' in H;
          discriminate. }
      now rewrite E'.
    + now rewrite E, IH.
Qed.

(** ** Tables given group by group *)

Lemma map_nth_seq {A : Type} (l : list A) (d : A) :
  map (fun i => nth i l d) (seq 0 (List.length l)) = l.
Proof.
  apply (nth_ext _ _ d d).
  - now rewrite length_map, length_seq.
  - intros i Hi. rewrite length_map, length_seq in Hi.
    rewrite (nth_map_lt _ _ _ 0%nat) by now rewrite length_seq.
    now rewrite seq_nth.
Qed.

Lemma traverse_map_in {A B C : Type} (f : B -> result C) (g : A -> B)
  (h : A -> C) (l : list A) :
  (forall x, In x l -> f (g x) = Ok (h x)) ->
  traverse f (map g l) = Ok (map h l).
Proof.
  induction l as [|x l IH]; intros Hf; [reflexivity|].
  cbn [map traverse]. rewrite (Hf x (or_introl eq_refl)), IH; [reflexivity|].
  intros y Hy. apply Hf. now right.
Qed.

Lemma filter_other_label (label : string)
  (group : string * list (list pyval)) :
  labelled group -> fst group <> label ->
  filter (fun row => cell_is label (nth 2 row NaN_cell)) (snd group) = [].
Proof.
  unfold labelled. intros Hrows Hne.
  induction Hrows as [|row rs Hrow _ IH]; [reflexivity|].
  cbn [filter]. rewrite Hrow. cbn [cell_is].
  now destruct (String.eqb_spec (fst group) label).
Qed.

Lemma filter_own_label (group : string * list (list pyval)) :
  labelled group ->
  filter (fun row => cell_is (fst group) (nth 2 row NaN_cell)) (snd group)
  = snd group.
Proof.
  unfold labelled. intros Hrows.
  induction Hrows as [|row rs Hrow _ IH]; [reflexivity|].
  cbn [filter]. rewrite Hrow. cbn [cell_is].
  now rewrite String.eqb_refl, IH.
Qed.

Lemma filter_other_groups (label : string)
  (groups : list (string * list (list pyval))) :
  Forall labelled groups -> ~ In label (map fst groups) ->
  filter (fun row => cell_is label (nth 2 row NaN_cell))
    (flat_map snd groups) = [].
Proof.
  induction 1 as [|group groups Hgroup _ IH]; intros Hnotin; [reflexivity|].
  cbn [flat_map]. rewrite filter_app.
  rewrite filter_other_label, IH; [reflexivity| | |].
  - intros Hin. apply Hnotin. now right.
  - exact Hgroup.
  - intros E. apply Hnotin. now left.
Qed.

(** The rows selected by the label of a group are the rows of the group. *)
Lemma filter_group (groups : list (string * list (list pyval))) :
  Forall labelled groups -> NoDup (map fst groups) ->
  forall group, In group groups ->
    filter (fun row => cell_is (fst group) (nth 2 row NaN_cell))
      (flat_map snd groups) = snd group.
Proof.
  induction 1 as [|first groups Hfirst Hrest IH]; intros Hnd group Hin;
    [contradiction|].
  cbn [map] in Hnd. inversion Hnd as [|? ? Hnotin Hnd']; subst.
  cbn [flat_map]. rewrite filter_app. destruct Hin as [->|Hin].
  - rewrite filter_own_label by exact Hfirst.
    rewrite filter_other_groups by assumption. apply app_nil_r.
  - rewrite filter_other_label, (IH Hnd' group Hin); [reflexivity| |].
    + exact Hfirst.
    + intros E. apply Hnotin. rewrite E. now apply in_map.
Qed.

Lemma drop_absent (x : string) (l : list string) :
  ~ In x l -> filter (fun y => negb (String.eqb x y)) l = l.
Proof.
  induction l as [|y l IH]; intros Hnotin; [reflexivity|].
  cbn [filter]. destruct (String.eqb_spec x y) as [->|_].
  - exfalso. apply Hnotin. now left.
  - cbn [negb]. rewrite IH; [reflexivity|].
    intros Hin. apply Hnotin. now right.
Qed.

Lemma unique_group (group : string * list (list pyval))
  (tail : list string) :
  labelled group -> snd group <> [] ->
  unique (labels_of (map (fun row => nth 2 row NaN_cell) (snd group))
          ++ tail)
  = fst group
    :: filter (fun y => negb (String.eqb (fst group) y)) (unique tail).
Proof.
  unfold labelled, labels_of. intros Hrows Hne.
  induction Hrows as [|row rs Hrow Hrs IH]; [contradiction|].
  cbn [map flat_map]. rewrite Hrow. cbn [app unique].
  destruct rs as [|next rs]; [reflexivity|].
  rewrite IH by discriminate. cbn [filter].
  rewrite String.eqb_refl. cbn [negb]. f_equal.
  set (keep := fun y => negb (String.eqb (fst group) y)).
  generalize (unique tail). intros l.
  induction l as [|y l IHl]; [reflexivity|].
  cbn [filter]. destruct (keep y) eqn:E; cbn [filter]; rewrite ?E, IHl;
    reflexivity.
Qed.

(** The labels of a table given group by group, in order of first
    appearance: those of the groups that have rows. *)
Lemma unique_groups (groups : list (string * list (list pyval))) :
  Forall labelled groups -> NoDup (map fst groups) ->
  unique (labels_of (map (fun row => nth 2 row NaN_cell)
                       (flat_map snd groups)))
  = map fst (filter (fun group => match snd group with
                                  | [] => false
                                  | _ :: _ => true
                                  end) groups).
Proof.
  induction 1 as [|group groups Hgroup Hrest IH]; intros Hnd; [reflexivity|].
  cbn [map] in Hnd. inversion Hnd as [|? ? Hnotin Hnd']; subst.
  cbn [flat_map filter]. rewrite map_app. unfold labels_of.
  rewrite flat_map_app.
  fold (labels_of (map (fun row => nth 2 row NaN_cell) (snd group))).
  fold (labels_of (map (fun row => nth 2 row NaN_cell)
                     (flat_map snd groups))).
  destruct (snd group) as [|row rs] eqn:E.
  - cbn [map labels_of flat_map app]. exact (IH Hnd').
  - rewrite <- E. rewrite unique_group; [|exact Hgroup|rewrite E; discriminate].
    rewrite (IH Hnd'). cbn [map]. f_equal. apply drop_absent.
    intros Hin. apply Hnotin.
    apply in_map_iff in Hin as (g & <- & Hg).
    apply filter_In in Hg as [Hg _]. now apply in_map.
Qed.

Lemma group_traces_filter (kind : string)
  (groups : list (string * list (list pyval))) :
  group_traces kind groups
  = map (fun group => price_trace kind (fst group) (snd group))
      (filter (fun group => match snd group with
                            | [] => false
                            | _ :: _ => true
                            end) groups).
Proof.
  unfold group_traces.
  induction groups as [|[label rs] groups IH]; [reflexivity|].
  cbn [flat_map filter snd fst]. rewrite IH. now destruct rs.
Qed.

Lemma group_traces_nil (kind : string)
  (groups : list (string * list (list pyval))) :
  flat_map snd groups = [] -> group_traces kind groups = [].
Proof.
  unfold group_traces.
  induction groups as [|[label rs] groups IH]; [reflexivity|].
  cbn [flat_map snd fst]. intros E. apply app_eq_nil in E as [-> E].
  now apply IH.
Qed.

Section GroupedTable.
Variables instants key : string.
Hypothesis instants_not_price : String.eqb instants "price" = false.
Hypothesis instants_not_key : String.eqb instants key = false.
Hypothesis price_not_key : String.eqb "price" key = false.
Variable df : DataFrame.
Hypothesis shaped : price_table instants key df.
Variable groups : list (string * list (list pyval)).
Hypothesis grouped : rows df = flat_map snd groups.
Hypothesis labels : Forall labelled groups.
Hypothesis distinct : NoDup (map fst groups).

(** The figure of a table given group by group has one trace per group
    that has rows, in the order of the groups: the instants of the group
    against its prices. *)
Lemma colored_traces_groups (kind title : string) :
  colored_traces kind df instants "price" key title
  = Ok {| fig_title := title; fig_traces := group_traces kind groups;
          fig_annotations := []; fig_layout := [] |}.
Proof.
  unfold colored_traces, traces_by.
  rewrite (series_key instants key instants_not_key price_not_key df shaped).
  unfold label_column. rewrite grouped, unique_groups by assumption.
  rewrite group_traces_filter.
  rewrite (traverse_map_in _ fst
             (fun group => price_trace kind (fst group) (snd group)));
    [reflexivity|].
  intros group Hin. apply filter_In in Hin as [Hin _].
  rewrite (label_series_at instants key instants_not_key price_not_key df
             shaped (fst group) instants 0
             (index_instants instants key df shaped)).
  rewrite (label_series_at instants key instants_not_key price_not_key df
             shaped (fst group) "price" 1
             (index_price instants key instants_not_price df shaped)).
  rewrite grouped, (filter_group groups labels distinct group Hin).
  reflexivity.
Qed.
End GroupedTable.

(** ** What the fetchers print *)

Section CryptoLog.
Variable env : Env.
Variable days : Z.

Lemma fetch_coin_stdout (s : State) (data : list DataFrame) (coin : string) :
  stdout (snd (fetch_coin days data coin env s))
  = (stdout s ++ coin_log env days coin)%list.
Proof.
  unfold fetch_coin, coin_log, market_chart. run_monad.
  destruct (requests_get env _ _ 10) as [response|e]; [|reflexivity].
  destruct (status_code response =? 200);
    [|cbn; now rewrite app_nil_r].
  destruct (json_prices response) as [prices|e]; [|reflexivity].
  destruct (price_frame_rows env coin prices) as (ts & -> & _ & Hfit & Hfar).
  destruct (epochs_fit prices).
  - destruct (Hfit eq_refl) as (ts' & -> & df' & -> & _).
    cbn. now rewrite app_nil_r.
  - rewrite (Hfar eq_refl). reflexivity.
Qed.

Lemma for_each_fetch_coin_stdout (coins : list string) :
  forall (data : list DataFrame) (s : State),
    stdout (snd (for_each coins (fetch_coin days) data env s))
    = (stdout s ++ flat_map (coin_log env days) coins)%list.
Proof.
  induction coins as [|coin coins IH]; intros data s; cbn [for_each flat_map].
  - cbn. now rewrite app_nil_r.
  - unfold bind.
    pose proof (fetch_coin_stdout s data coin) as Hout.
    destruct (fetch_coin_run env days s data coin) as (s1 & E & _).
    rewrite E in Hout |- *. cbn [snd] in Hout.
    rewrite IH, Hout. now rewrite app_assoc.
Qed.

(** X5: [fetch_crypto_data] prints one line per coin whose request raises,
    whose answer of status 200 cannot be read or whose prices are dated
    out of the range of pandas, in the order of the coins, and nothing for
    a coin that succeeds or answers with another status; it never
    raises. *)
Theorem fetch_crypto_data_log (s : State) (coins : list string) :
  exists df s',
    fetch_crypto_data coins days env s = (Ok df, s') /\
    stdout s' = (stdout s ++ flat_map (coin_log env days) coins)%list /\
    (forall coin e,
        market_chart env coin days = Raise e ->
        coin_log env days coin
        = ["Error fetching " ++ coin ++ ": " ++ str_exn e]) /\
    (forall coin response,
        market_chart env coin days = Ok response ->
        status_code response <> 200 ->
        coin_log env days coin = []) /\
    (forall coin response prices,
        market_chart env coin days = Ok response ->
        json response = Ok (MarketChart (Some prices)) ->
        epochs_fit prices = true ->
        coin_log env days coin = []) /\
    (forall coin response prices,
        market_chart env coin days = Ok response ->
        status_code response = 200 ->
        json response = Ok (MarketChart (Some prices)) ->
        epochs_fit prices = false ->
        coin_log env days coin
        = ["Error fetching " ++ coin ++ ": "
           ++ out_of_bounds_text env (map fst prices)]) /\
    (forall coin response,
        market_chart env coin days = Ok response ->
        status_code response = 200 ->
        json response = Ok (MarketChart None) ->
        coin_log env days coin = ["Error fetching " ++ coin ++ ": 'prices'"]).
Proof.
  destruct (fetch_crypto_data_run env days s coins) as (df & s' & Hrun & _).
  exists df, s'. split; [exact Hrun|]. split.
  - pose proof (for_each_fetch_coin_stdout coins [] s) as Hout.
    unfold fetch_crypto_data, bind in Hrun.
    destruct (for_each coins (fetch_coin days) [] env s) as [[data|e] s1];
      [|discriminate].
    cbn [snd] in Hout. rewrite <- Hout.
    destruct data; unfold ret, lift in Hrun; now injection Hrun as _ <-.
  - unfold coin_log, json_prices. repeat split.
    + now intros coin e ->.
    + intros coin response -> Hstatus.
      now destruct (Z.eqb_spec (status_code response) 200).
    + intros coin response prices -> -> ->.
      now destruct (status_code response =? 200).
    + now intros coin response prices -> -> -> ->.
    + now intros coin response -> -> ->.
Qed.

(** X6: a coin contributes rows only when its request is answered with
    status 200 and a non-empty list of prices, and then one row per
    price. *)
Theorem coin_rows_need_prices (coin : string) :
  coin_rows env days coin <> [] ->
  exists response prices,
    market_chart env coin days = Ok response /\
    status_code response = 200 /\
    json response = Ok (MarketChart (Some prices)) /\
    prices <> [] /\
    List.length (coin_rows env days coin) = List.length prices.
Proof.
  rewrite coin_rows_frame. unfold coin_frame, json_prices.
  destruct (market_chart env coin days) as [response|e];
    [|intros H; now contradiction H].
  destruct (Z.eqb_spec (status_code response) 200) as [Hstatus|_];
    [|intros H; now contradiction H].
  destruct (json response) as [[[prices|]|results|hourly]|e] eqn:Hjson;
    try (intros H; now contradiction H).
  destruct (epochs_fit prices); [|intros H; now contradiction H].
  cbn [flat_map rows]. rewrite app_nil_r. intros Hrows.
  exists response, prices.
  split; [reflexivity|]. split; [exact Hstatus|]. split; [exact Hjson|].
  split; [|apply length_map].
  intros E. apply Hrows. now rewrite E.
Qed.
End CryptoLog.

Section GeocodeLog.
Variable env : Env.

(** X7: what [get_coordinates] prints.  An error of the request or of the
    decoding, and a first result that lacks a latitude, a longitude or a
    name, print one line and give New York; a status other than 200 and a
    missing or empty results array give New York and print nothing, as
    does a success. *)
Theorem get_coordinates_log (s : State) (location_name : string) :
  (forall e,
      geocode env location_name = Raise e ->
      get_coordinates location_name env s
      = (Ok default_location,
         printed s ("Error geocoding location: " ++ str_exn e))) /\
  (forall response e,
      geocode env location_name = Ok response ->
      status_code response = 200 ->
      json response = Raise e ->
      get_coordinates location_name env s
      = (Ok default_location,
         printed s ("Error geocoding location: " ++ str_exn e))) /\
  (forall response place others key,
      geocode env location_name = Ok response ->
      status_code response = 200 ->
      json response = Ok (Geocoding (Some (place :: others))) ->
      missing_member place = Some key ->
      get_coordinates location_name env s
      = (Ok default_location,
         printed s ("Error geocoding location: '" ++ key ++ "'"))) /\
  (forall response,
      geocode env location_name = Ok response ->
      status_code response <> 200 ->
      get_coordinates location_name env s = (Ok default_location, s)) /\
  (forall response data,
      geocode env location_name = Ok response ->
      json response = Ok data ->
      json_results data = None \/ json_results data = Some [] ->
      get_coordinates location_name env s = (Ok default_location, s)) /\
  (forall response place others latitude longitude name,
      geocode env location_name = Ok response ->
      status_code response = 200 ->
      json response = Ok (Geocoding (Some (place :: others))) ->
      dict_get "latitude" place = Some latitude ->
      dict_get "longitude" place = Some longitude ->
      dict_get "name" place = Some name ->
      get_coordinates location_name env s
      = (Ok (latitude, longitude, name), s)).
Proof.
  unfold get_coordinates, geocode, getitem, printed, missing_member.
  run_monad.
  split; [|split; [|split; [|split; [|split]]]].
  - now intros e ->.
  - now intros response e -> -> ->.
  - intros response place others key -> -> ->. cbn [json_results find].
    destruct (dict_get "latitude" place).
    2:{ intros H. injection H as <-. reflexivity. }
    destruct (dict_get "longitude" place).
    2:{ intros H. injection H as <-. reflexivity. }
    destruct (dict_get "name" place).
    2:{ intros H. injection H as <-. reflexivity. }
    discriminate.
  - intros response -> Hstatus.
    now destruct (Z.eqb_spec (status_code response) 200).
  - intros response data -> -> Hres.
    destruct (status_code response =? 200); [|reflexivity].
    destruct Hres as [-> | ->]; reflexivity.
  - intros response place others latitude longitude name
      -> -> -> Hlat Hlon Hname.
    cbn [json_results Z.eqb Pos.eqb]. now rewrite Hlat, Hlon, Hname.
Qed.
End GeocodeLog.

(** X8: the edges of [generate_mock_stock_data].  An empty list of symbols
    raises the error of [pd.concat]; a negative day-count raises the
    overflow error of the conversion of the day-count to an unsigned
    integer, inside [pd.date_range]; a day-count of zero gives a table of
    the three stock columns without rows. *)
Theorem generate_mock_stock_data_edges (env : Env) (s : State) :
  (forall days,
      fst (generate_mock_stock_data [] days env s)
      = Raise (ValueError "No objects to concatenate")) /\
  (forall symbols days,
      symbols <> [] -> days < 0 ->
      in_bounds (clock env (clock_reads s)) = true ->
      exists msg,
        fst (generate_mock_stock_data symbols days env s)
        = Raise (OverflowError msg)) /\
  (forall symbols,
      symbols <> [] ->
      ranges_fit env (clock_reads s) symbols 0 = true ->
      fst (generate_mock_stock_data symbols 0 env s)
      = Ok {| columns := stock_columns; rows := [] |}).
Proof.
  split; [reflexivity|]. split.
  - intros [|symbol symbols] days Hne Hdays Hclock; [contradiction|].
    unfold generate_mock_stock_data, bind. cbn [for_each].
    unfold bind, mock_symbol, bind, datetime_now, lift, pd_date_range.
    rewrite Hclock. cbn [negb].
    destruct (Z.ltb_spec days 0); [|lia].
    eexists. reflexivity.
  - intros symbols Hne Hfits.
    unfold generate_mock_stock_data, bind, lift.
    rewrite for_each_mock_symbol by (try lia; exact Hfits). cbn [app fst].
    rewrite (pd_concat_aligned stock_columns).
    + f_equal. f_equal. cbn [rows].
      generalize (clock_reads s) (random_draws s).
      clear Hfits.
      induction symbols as [|symbol rest IH]; intros cr rd; [reflexivity|].
      cbn [mock_frames flat_map]. cbn [mock_frame rows Z.to_nat seq map app].
      destruct rest as [|next rest]; [reflexivity|].
      apply IH. discriminate.
    + apply stock_columns_NoDup.
    + destruct symbols; [contradiction|discriminate].
    + apply mock_frames_aligned.
Qed.

(** ** The crypto dashboard *)

Section CryptoDashboard.
Variable env : Env.
Variable days : Z.

Lemma coin_frame_rows (coin : string) (row : list pyval) :
  In row (flat_map rows (coin_frame env days coin)) ->
  exists entry, row = price_row env coin entry.
Proof.
  unfold coin_frame.
  destruct (market_chart env coin days) as [response|]; [|contradiction].
  destruct (status_code response =? 200); [|contradiction].
  destruct (json_prices response) as [prices|]; [|contradiction].
  destruct (epochs_fit prices); [|contradiction].
  cbn [flat_map rows]. rewrite app_nil_r.
  intros Hin. apply in_map_iff in Hin as (entry & <- & _). now exists entry.
Qed.

(** The table of [fetch_crypto_data] is the empty frame or a table of
    prices by coin. *)
Lemma fetch_crypto_data_shape (s : State) (coins : list string) :
  exists df s',
    fetch_crypto_data coins days env s = (Ok df, s') /\
    (df = pd_DataFrame_empty \/ price_table "timestamp" "coin" df) /\
    rows df = flat_map (coin_rows env days) coins /\
    clock_reads s' = clock_reads s /\ random_draws s' = random_draws s.
Proof.
  assert (Hrows : flat_map rows (flat_map (coin_frame env days) coins)
                  = flat_map (coin_rows env days) coins).
  { rewrite flat_map_rows_flat_map. apply flat_map_ext. intros coin.
    symmetry. apply coin_rows_frame. }
  unfold fetch_crypto_data, bind.
  destruct (for_each_fetch_coin env days coins [] s) as (s' & -> & Hc & Hr).
  pose proof (coin_frame_aligned env days coins) as Hal.
  cbn [app].
  destruct (flat_map (coin_frame env days) coins) as [|df fs] eqn:E.
  - exists pd_DataFrame_empty, s'. unfold ret.
    split; [reflexivity|]. split; [now left|].
    split; [now rewrite <- Hrows|]. now split.
  - unfold lift.
    rewrite (pd_concat_aligned crypto_columns)
      by (try apply crypto_columns_NoDup; try assumption; discriminate).
    eexists _, s'. split; [reflexivity|].
    split; [|split; [exact Hrows|now split]].
    right. split; [reflexivity|]. cbn [rows]. rewrite Hrows.
    apply Forall_forall. intros row Hin.
    apply in_flat_map in Hin as (coin & _ & Hin).
    rewrite coin_rows_frame in Hin.
    apply coin_frame_rows in Hin as [entry ->].
    unfold price_row, price_row_shape. now eexists _, _, _.
Qed.

Lemma coin_label (coin label : string) :
  In (PyStr label)
    (map (fun row => nth 2 row NaN_cell) (coin_rows env days coin)) <->
  coin_rows env days coin <> [] /\ label = capitalize env coin.
Proof.
  rewrite coin_rows_frame. split.
  - intros Hin. apply in_map_iff in Hin as (row & Hcell & Hin).
    split; [intros E; now rewrite E in Hin|].
    apply coin_frame_rows in Hin as [entry ->].
    cbn in Hcell. congruence.
  - intros [Hne ->].
    destruct (flat_map rows (coin_frame env days coin)) as [|row rest] eqn:E;
      [contradiction|].
    assert (Hin : In row (flat_map rows (coin_frame env days coin)))
      by (rewrite E; now left).
    apply coin_frame_rows in Hin as [entry ->]. now left.
Qed.

Lemma coin_groups_rows :
  flat_map snd (coin_groups env days)
  = flat_map (coin_rows env days) default_coins.
Proof. reflexivity. Qed.

Lemma coin_groups_labelled : Forall labelled (coin_groups env days).
Proof.
  unfold coin_groups. apply Forall_map. apply Forall_forall.
  intros coin _. unfold labelled. cbn [fst snd].
  apply Forall_forall. intros row Hin.
  rewrite coin_rows_frame in Hin.
  now apply coin_frame_rows in Hin as [entry ->].
Qed.

Lemma coin_groups_distinct : NoDup (map fst (coin_groups env days)).
Proof.
  unfold coin_groups. rewrite map_map. cbn [fst].
  change (NoDup ["Bitcoin"; "Ethereum"; "Cardano"]).
  repeat constructor; cbn [In]; intuition discriminate.
Qed.

Lemma update_crypto_dashboard_run (s : State) :
  exists df s1 dashboard,
    fetch_crypto_data default_coins days env s = (Ok df, s1) /\
    update_crypto_dashboard days env s = (Ok dashboard, advanced s1 1 0) /\
    last_update dashboard = strftime (clock env (clock_reads s)) /\
    card_titles dashboard = group_keys (label_column df) /\
    clock_reads s1 = clock_reads s /\ random_draws s1 = random_draws s /\
    rows df = flat_map (coin_rows env days) default_coins /\
    fig_traces (main_chart dashboard)
    = group_traces "line" (coin_groups env days) /\
    fig_traces (secondary_chart_1 dashboard)
    = group_traces "scatter" (coin_groups env days) /\
    (rows df <> [] ->
     exists changes,
       groupby_apply df "coin" "price" total_change = Ok changes /\
       map fst changes = card_titles dashboard /\
       fig_traces (secondary_chart_2 dashboard)
       = [{| trace_kind := "bar"; trace_name := "";
             trace_x := map PyStr (card_titles dashboard);
             trace_y := map snd changes |}]).
Proof.
  destruct (fetch_crypto_data_shape s default_coins)
    as (df & s1 & Hrun & Hshape & Hrows & Hc & Hr).
  exists df, s1. unfold update_crypto_dashboard, bind at 1. rewrite Hrun.
  assert (Hadv : forall t : State,
             {| stdout := stdout t; clock_reads := S (clock_reads t);
                random_draws := random_draws t |} = advanced t 1 0).
  { intros t. unfold advanced. now rewrite Nat.add_1_r, Nat.add_0_r. }
  destruct (empty df) eqn:Hempty.
  - unfold create_empty_dashboard, bind, datetime_now, ret.
    eexists. split; [reflexivity|]. split; [now rewrite Hadv|].
    cbn [last_update]. rewrite Hc. split; [reflexivity|].
    assert (Hnone : rows df = []).
    { destruct Hshape as [->|[Hcols _]]; [reflexivity|].
      unfold empty in Hempty. rewrite Hcols in Hempty.
      destruct (rows df); [reflexivity|discriminate]. }
    split.
    { unfold card_titles, label_column. cbn [stats_cards map].
      now rewrite Hnone. }
    split; [reflexivity|]. split; [exact Hr|]. split; [exact Hrows|].
    cbn [main_chart secondary_chart_1 style_figure fig_traces].
    rewrite !group_traces_nil; [now repeat split| |];
      now rewrite coin_groups_rows, <- Hrows.
  - destruct Hshape as [->|Hshape]; [discriminate|].
    destruct (cards_ok "timestamp" "coin" eq_refl eq_refl eq_refl df Hshape)
      as (latest_prices & cards & Hlatest & Hcards & Htitles).
    pose proof (colored_traces_groups "timestamp" "coin" eq_refl eq_refl
                  eq_refl df Hshape (coin_groups env days) Hrows
                  coin_groups_labelled coin_groups_distinct) as Htraces.
    destruct (total_change_chart_labelled "timestamp" "coin" eq_refl eq_refl
                eq_refl eq_refl eq_refl df Hshape "Total Change (%)")
      as (changes & Hgroup & Hkeys & Hsec2).
    unfold bind, lift. rewrite Hlatest, Hcards, !Htraces, Hsec2.
    unfold datetime_now, ret.
    eexists. split; [reflexivity|]. split; [now rewrite Hadv|].
    cbn [last_update]. rewrite Hc. split; [reflexivity|].
    split; [exact Htitles|]. split; [reflexivity|]. split; [exact Hr|].
    split; [exact Hrows|]. split; [reflexivity|]. split; [reflexivity|].
    intros _. exists changes. split; [exact Hgroup|].
    unfold card_titles. cbn [stats_cards]. rewrite Htitles.
    split; [exact Hkeys|].
    cbn [secondary_chart_2 style_figure fig_traces].
    now rewrite <- Hkeys, map_map.
Qed.

(** X9: when no coin is answered with an empty list of prices, the crypto
    dashboard does not raise, whatever else the services answer.  It reads
    the clock once, after the fetch, for the time of the refresh, and shows
    one card per coin that contributed a row, titled with the capitalized
    name of the coin, the cards in the strict order of their titles. *)
Theorem update_crypto_dashboard_total (s : State) :
  no_empty_answer env days default_coins = true ->
  exists dashboard s',
    update_crypto_dashboard days env s = (Ok dashboard, s') /\
    last_update dashboard = strftime (clock env (clock_reads s)) /\
    clock_reads s' = S (clock_reads s) /\
    random_draws s' = random_draws s /\
    StronglySorted label_lt (card_titles dashboard) /\
    forall label,
      In label (card_titles dashboard) <->
      exists coin, In coin default_coins /\ coin_rows env days coin <> [] /\
                   label = capitalize env coin.
Proof.
  intros _.
  destruct (update_crypto_dashboard_run s)
    as (df & s1 & dashboard & _ & Hrun & Hstamp & Htitles & Hc & Hr & Hrows
        & _).
  exists dashboard, (advanced s1 1 0). split; [exact Hrun|].
  split; [exact Hstamp|]. cbn [advanced clock_reads random_draws].
  split; [lia|]. split; [lia|]. rewrite Htitles.
  split; [apply group_keys_sorted|].
  intros label. rewrite group_keys_In. unfold label_column.
  rewrite Hrows, in_map_iff. split.
  - intros (row & Hcell & Hin).
    apply in_flat_map in Hin as (coin & Hcoin & Hin).
    exists coin. split; [exact Hcoin|]. apply coin_label.
    apply in_map_iff. now exists row.
  - intros (coin & Hcoin & Hne & Hlabel).
    pose proof (proj2 (coin_label coin label) (conj Hne Hlabel)) as Hin.
    apply in_map_iff in Hin as (row & Hcell & Hin).
    exists row. split; [exact Hcell|].
    apply in_flat_map. now exists coin.
Qed.

(** X17: when no coin is answered with an empty list of prices, the line
    chart and the scatter chart of the crypto dashboard have one trace per
    coin that contributed a row, in the order of the coins and named with
    the capitalized coin: the instants of the coin against its prices.
    When no coin contributed a row they have no trace.  Otherwise the third
    chart has one bar per card, labelled as the cards and in their order,
    and the bar of a label is the whole-range change of the prices of that
    label. *)
Theorem update_crypto_dashboard_charts (s : State) :
  no_empty_answer env days default_coins = true ->
  exists dashboard s',
    update_crypto_dashboard days env s = (Ok dashboard, s') /\
    fig_traces (main_chart dashboard)
    = group_traces "line" (coin_groups env days) /\
    fig_traces (secondary_chart_1 dashboard)
    = group_traces "scatter" (coin_groups env days) /\
    (flat_map snd (coin_groups env days) <> [] ->
     exists df s1 changes,
       fetch_crypto_data default_coins days env s = (Ok df, s1) /\
       groupby_apply df "coin" "price" total_change = Ok changes /\
       map fst changes = card_titles dashboard /\
       fig_traces (secondary_chart_2 dashboard)
       = [{| trace_kind := "bar"; trace_name := "";
             trace_x := map PyStr (card_titles dashboard);
             trace_y := map snd changes |}]).
Proof.
  intros _.
  destruct (update_crypto_dashboard_run s)
    as (df & s1 & dashboard & Hfetch & Hrun & _ & Htitles & _ & _ & Hrows
        & Hmain & Hsec1 & Hsec2).
  exists dashboard, (advanced s1 1 0). split; [exact Hrun|].
  split; [exact Hmain|]. split; [exact Hsec1|].
  rewrite coin_groups_rows, <- Hrows. intros Hne.
  destruct (Hsec2 Hne) as (changes & Hgroup & Hkeys & Hbars).
  now exists df, s1, changes.
Qed.
End CryptoDashboard.

(** ** The stock dashboard *)

Lemma repeated_label_keys {A : Type} (label : string) (l : list A)
  (keys : list string) :
  l <> [] ->
  fold_right insert_key keys (labels_of (map (fun _ => PyStr label) l))
  = insert_key label keys.
Proof.
  induction l as [|i [|j l] IH]; [contradiction|reflexivity|].
  intros _. change (insert_key label
                      (fold_right insert_key keys
                         (labels_of (map (fun _ => PyStr label) (j :: l))))
                    = insert_key label keys).
  rewrite IH by discriminate. apply insert_key_twice.
Qed.

Section StocksDashboard.
Variable env : Env.
Variable days : Z.
Hypothesis days_positive : 1 <= days.

Lemma generate_mock_stock_data_run (s : State) (symbols : list string) :
  symbols <> [] ->
  ranges_fit env (clock_reads s) symbols days = true ->
  generate_mock_stock_data symbols days env s
  = (Ok {| columns := stock_columns;
           rows := flat_map rows
                     (mock_frames env (clock_reads s) (random_draws s)
                        symbols days) |},
     advanced s (List.length symbols)
       (List.length symbols * Z.to_nat days)).
Proof.
  intros Hne Hfits. unfold generate_mock_stock_data, bind, lift.
  rewrite for_each_mock_symbol by (try lia; exact Hfits). cbn [app].
  rewrite (pd_concat_aligned stock_columns).
  - reflexivity.
  - apply stock_columns_NoDup.
  - destruct symbols; [contradiction|discriminate].
  - apply mock_frames_aligned.
Qed.

Lemma mock_frames_shape (symbols : list string) :
  forall cr rd,
    Forall price_row_shape
      (flat_map rows (mock_frames env cr rd symbols days)).
Proof.
  induction symbols as [|symbol symbols IH]; intros cr rd;
    cbn [mock_frames flat_map]; [constructor|].
  apply Forall_app. split; [|apply IH].
  cbn [mock_frame rows]. apply Forall_forall. intros row Hin.
  apply in_map_iff in Hin as (i & <- & _).
  unfold NaN_cell at 2.
  rewrite (map_nth PyFloat). now eexists _, _, _.
Qed.

Lemma mock_frames_keys (symbols : list string) :
  forall cr rd,
    group_keys (map (fun row => nth 2 row NaN_cell)
                  (flat_map rows (mock_frames env cr rd symbols days)))
    = fold_right insert_key [] symbols.
Proof.
  induction symbols as [|symbol symbols IH]; intros cr rd;
    cbn [mock_frames flat_map fold_right]; [reflexivity|].
  rewrite map_app. unfold group_keys, labels_of. rewrite flat_map_app.
  rewrite fold_right_app.
  fold (labels_of (map (fun row => nth 2 row NaN_cell)
                     (flat_map rows
                        (mock_frames env (S cr) (rd + Z.to_nat days)%nat
                           symbols days)))).
  fold (group_keys (map (fun row => nth 2 row NaN_cell)
                      (flat_map rows
                         (mock_frames env (S cr) (rd + Z.to_nat days)%nat
                            symbols days)))).
  rewrite IH. cbn [mock_frame rows]. rewrite map_map. cbn [nth].
  fold (labels_of (map (fun _ : nat => PyStr symbol)
                     (seq 0 (Z.to_nat days)))).
  apply repeated_label_keys.
  destruct (Z.to_nat days) eqn:E; [lia|discriminate].
Qed.
(** The trace of the frame of a symbol: its prices against its days. *)
Lemma mock_frame_trace (kind : string) (cr rd : nat) (symbol : string) :
  price_trace kind symbol (rows (mock_frame env cr rd symbol days))
  = symbol_trace kind env cr rd symbol days.
Proof.
  assert (Hnth : forall l : list pyval,
             List.length l = Z.to_nat days ->
             map (fun i => nth i l NaN_cell) (seq 0 (Z.to_nat days)) = l).
  { intros l <-. apply map_nth_seq. }
  unfold price_trace, symbol_trace. cbn [mock_frame rows].
  rewrite !map_map. cbn [nth]. f_equal.
  - rewrite Hnth by now rewrite !length_map, length_seq.
    reflexivity.
  - apply Hnth. rewrite length_map. apply mock_prices_length.
Qed.

Lemma symbol_groups_labelled (cr rd : nat) :
  Forall labelled (symbol_groups env cr rd days).
Proof.
  unfold symbol_groups. cbn [default_symbols mock_frames map combine].
  repeat constructor; unfold labelled; cbn [fst snd mock_frame rows];
    apply Forall_forall; intros row Hin;
    now apply in_map_iff in Hin as (i & <- & _).
Qed.

Lemma symbol_groups_distinct (cr rd : nat) :
  NoDup (map fst (symbol_groups env cr rd days)).
Proof.
  unfold symbol_groups. cbn [default_symbols mock_frames map combine fst].
  repeat constructor; cbn [In]; intuition discriminate.
Qed.

Lemma symbol_groups_traces (kind : string) (cr rd : nat) :
  group_traces kind (symbol_groups env cr rd days)
  = [symbol_trace kind env cr rd "AAPL" days;
     symbol_trace kind env (S cr) (rd + Z.to_nat days) "GOOGL" days;
     symbol_trace kind env (S (S cr)) (rd + Z.to_nat days + Z.to_nat days)
       "MSFT" days].
Proof.
  rewrite group_traces_filter. unfold symbol_groups.
  cbn [default_symbols mock_frames map combine filter fst snd].
  assert (Hrows : forall cr rd symbol,
             match rows (mock_frame env cr rd symbol days) with
             | [] => false
             | _ :: _ => true
             end = true).
  { intros cr0 rd0 symbol. cbn [mock_frame rows].
    destruct (Z.to_nat days) eqn:E; [lia|reflexivity]. }
  rewrite !Hrows. cbn [map fst snd]. now rewrite !mock_frame_trace.
Qed.

Lemma update_stocks_dashboard_run (s : State) :
  ranges_fit env (clock_reads s) default_symbols days = true ->
  exists df dashboard,
    generate_mock_stock_data default_symbols days env s
    = (Ok df, advanced s 3 (3 * Z.to_nat days)) /\
    update_stocks_dashboard days env s
    = (Ok dashboard, advanced s 4 (3 * Z.to_nat days)) /\
    last_update dashboard = strftime (clock env (clock_reads s + 3)) /\
    card_titles dashboard = ["AAPL"; "GOOGL"; "MSFT"] /\
    fig_traces (main_chart dashboard)
    = group_traces "line"
        (symbol_groups env (clock_reads s) (random_draws s) days) /\
    fig_traces (secondary_chart_1 dashboard)
    = group_traces "area"
        (symbol_groups env (clock_reads s) (random_draws s) days) /\
    exists changes,
      groupby_apply df "symbol" "price" total_change = Ok changes /\
      map fst changes = ["AAPL"; "GOOGL"; "MSFT"] /\
      fig_traces (secondary_chart_2 dashboard)
      = [{| trace_kind := "bar"; trace_name := "";
            trace_x := [PyStr "AAPL"; PyStr "GOOGL"; PyStr "MSFT"];
            trace_y := map snd changes |}].
Proof.
  intros Hfits.
  unfold update_stocks_dashboard, bind at 1.
  rewrite generate_mock_stock_data_run by (try discriminate; exact Hfits).
  set (df := {| columns := stock_columns;
                rows := flat_map rows
                          (mock_frames env (clock_reads s) (random_draws s)
                             default_symbols days) |}).
  assert (Hshape : price_table "date" "symbol" df).
  { split; [reflexivity|apply mock_frames_shape]. }
  destruct (cards_ok "date" "symbol" eq_refl eq_refl eq_refl df Hshape)
    as (latest_prices & cards & Hlatest & Hcards & Htitles).
  pose proof (colored_traces_groups "date" "symbol" eq_refl eq_refl eq_refl
                df Hshape
                (symbol_groups env (clock_reads s) (random_draws s) days)
                ltac:(cbn; now rewrite !app_nil_r)
                (symbol_groups_labelled _ _) (symbol_groups_distinct _ _))
    as Htraces.
  destruct (total_change_chart_labelled "date" "symbol" eq_refl eq_refl
              eq_refl eq_refl eq_refl df Hshape "Total Change (%)")
    as (changes & Hgroup & Hlabels & Hsec2).
  assert (Hkeys : group_keys (label_column df) = ["AAPL"; "GOOGL"; "MSFT"]).
  { unfold label_column, df. cbn [rows]. now rewrite mock_frames_keys. }
  rewrite Hkeys in Hlabels.
  unfold bind, lift. rewrite Hlatest, Hcards, !Htraces, Hsec2.
  unfold datetime_now, ret. exists df. eexists.
  split; [reflexivity|].
  split; [|split; [|split; [|split; [|split]]]].
  - f_equal. unfold advanced.
    cbn [stdout clock_reads random_draws default_symbols List.length].
    f_equal; lia.
  - reflexivity.
  - unfold card_titles. cbn [stats_cards]. now rewrite Htitles.
  - reflexivity.
  - reflexivity.
  - exists changes. split; [exact Hgroup|]. split; [exact Hlabels|].
    cbn [secondary_chart_2 style_figure fig_traces].
    now rewrite <- map_map, Hlabels.
Qed.
End StocksDashboard.

(** X10: the stock dashboard returns for every range of one day or more
    whose dates are instants pandas represents: it reads the clock four
    times, once per symbol and once for the time of the refresh, takes
    [days] draws per symbol, and shows the cards of AAPL, GOOGL and MSFT in
    this order.  A negative range raises the overflow error of the
    conversion of the day-count to an unsigned integer, inside
    [pd.date_range]. *)
Theorem update_stocks_dashboard_total (env : Env) (s : State) (days : Z) :
  (1 <= days ->
   ranges_fit env (clock_reads s) default_symbols days = true ->
   exists dashboard s',
     update_stocks_dashboard days env s = (Ok dashboard, s') /\
     clock_reads s' = (clock_reads s + 4)%nat /\
     random_draws s' = (random_draws s + 3 * Z.to_nat days)%nat /\
     stdout s' = stdout s /\
     last_update dashboard = strftime (clock env (clock_reads s + 3)) /\
     card_titles dashboard = ["AAPL"; "GOOGL"; "MSFT"]) /\
  (days < 0 ->
   in_bounds (clock env (clock_reads s)) = true ->
   exists msg,
     fst (update_stocks_dashboard days env s) = Raise (OverflowError msg)).
Proof.
  split.
  - intros Hdays Hfits.
    destruct (update_stocks_dashboard_run env days Hdays s Hfits)
      as (df & dashboard & _ & Hrun & Hstamp & Htitles & _).
    exists dashboard, (advanced s 4 (3 * Z.to_nat days)).
    now repeat split.
  - intros Hdays Hclock.
    unfold update_stocks_dashboard, bind at 1.
    unfold generate_mock_stock_data, bind, default_symbols.
    cbn [for_each].
    unfold bind, mock_symbol, bind, datetime_now, lift, pd_date_range.
    rewrite Hclock. cbn [negb].
    destruct (Z.ltb_spec days 0); [|lia].
    eexists. reflexivity.
Qed.

(** X18: for every range of one day or more whose dates are instants pandas
    represents, the line chart and the area chart of the stock dashboard
    have one trace per symbol, in the order AAPL, GOOGL, MSFT: the random
    walk of the symbol, from its own draws, against the [days] days that
    end at the reading of the clock taken for the symbol.  The third chart
    has one bar per symbol, in the same order: the whole-range change of
    the prices of the symbol. *)
Theorem update_stocks_dashboard_charts (env : Env) (s : State) (days : Z) :
  1 <= days ->
  ranges_fit env (clock_reads s) default_symbols days = true ->
  exists dashboard s',
    update_stocks_dashboard days env s = (Ok dashboard, s') /\
    let cr := clock_reads s in
    let rd := random_draws s in
    let n := Z.to_nat days in
    fig_traces (main_chart dashboard)
    = [symbol_trace "line" env cr rd "AAPL" days;
       symbol_trace "line" env (S cr) (rd + n) "GOOGL" days;
       symbol_trace "line" env (S (S cr)) (rd + n + n) "MSFT" days] /\
    fig_traces (secondary_chart_1 dashboard)
    = [symbol_trace "area" env cr rd "AAPL" days;
       symbol_trace "area" env (S cr) (rd + n) "GOOGL" days;
       symbol_trace "area" env (S (S cr)) (rd + n + n) "MSFT" days] /\
    exists df s1 changes,
      generate_mock_stock_data default_symbols days env s = (Ok df, s1) /\
      groupby_apply df "symbol" "price" total_change = Ok changes /\
      map fst changes = ["AAPL"; "GOOGL"; "MSFT"] /\
      fig_traces (secondary_chart_2 dashboard)
      = [{| trace_kind := "bar"; trace_name := "";
            trace_x := [PyStr "AAPL"; PyStr "GOOGL"; PyStr "MSFT"];
            trace_y := map snd changes |}].
Proof.
  intros Hdays Hfits.
  destruct (update_stocks_dashboard_run env days Hdays s Hfits)
    as (df & dashboard & Hgen & Hrun & _ & _ & Hmain & Hsec1 & changes
        & Hsec2).
  exists dashboard, (advanced s 4 (3 * Z.to_nat days)).
  split; [exact Hrun|]. cbv zeta.
  rewrite Hmain, Hsec1, !symbol_groups_traces by exact Hdays.
  split; [reflexivity|]. split; [reflexivity|].
  now exists df, (advanced s 3 (3 * Z.to_nat days)), changes.
Qed.

(** ** The weather table and dashboard *)

Lemma nth_floats (l : list Q) (i : nat) :
  (i < List.length l)%nat ->
  nth i (floats l) NaN_cell = PyFloat (Finite (nth i l 0%Q)).
Proof.
  intros Hi. unfold floats.
  now rewrite (nth_map_lt (fun q => PyFloat (Finite q)) _ _ 0%Q).
Qed.

Section WeatherShape.
Variable env : Env.

(** The frame [fetch_weather_data] builds from the arrays of a forecast. *)
Lemma weather_frame_shape (ts : list Timestamp)
  (temperature humidity precip : list Q) (name : pyval) (df : DataFrame) :
  pd_DataFrame [("time", Array (map PyTime ts));
                ("temperature", Array (floats temperature));
                ("humidity", Array (floats humidity));
                ("precipitation", Array (floats precip))] = Ok df ->
  weather_table name (setitem_scalar df "location" name).
Proof.
  unfold pd_DataFrame, floats. cbn [index_length forallb].
  rewrite !length_map, Nat.eqb_refl. cbn [andb].
  destruct (Nat.eqb_spec (List.length temperature) (List.length ts))
    as [Ht|]; [|discriminate].
  destruct (Nat.eqb_spec (List.length humidity) (List.length ts))
    as [Hh|]; [|discriminate].
  destruct (Nat.eqb_spec (List.length precip) (List.length ts))
    as [Hp|]; [|discriminate].
  cbn [andb]. intros H. injection H as <-.
  split; [reflexivity|].
  cbn [setitem_scalar rows columns map fst]. rewrite map_map.
  apply Forall_forall. intros row Hin.
  apply in_map_iff in Hin as (i & <- & Hi). apply in_seq in Hi.
  cbn [map cell_of]. unfold set_cell. cbn [column_index String.eqb
    Ascii.eqb Bool.eqb option_map app].
  rewrite (nth_map_lt PyTime _ _ 0) by lia.
  rewrite !(nth_map_lt (fun q => PyFloat (Finite q)) _ _ 0%Q) by lia.
  now eexists _, _, _, _.
Qed.

Lemma fetch_weather_data_shape (s : State) (location_name : string)
  (days : Z) :
  exists df s',
    fetch_weather_data location_name days env s = (Ok df, s') /\
    (df = pd_DataFrame_empty \/
     weather_table (snd (resolved env location_name)) df) /\
    clock_reads s' = clock_reads s /\ random_draws s' = random_draws s.
Proof.
  rewrite resolved_located.
  unfold fetch_weather_data, bind at 1.
  destruct (get_coordinates_run env s location_name) as (s1 & -> & Hc & Hr).
  destruct (located (geocode env location_name))
    as [[latitude longitude] resolved_name].
  unfold json_hourly, member. run_monad. cbn [snd].
  destruct (requests_get env _ _ 10) as [response|e].
  2:{ eexists _, _. split; [reflexivity|]. split; [now left|now split]. }
  destruct (status_code response =? 200).
  2:{ eexists _, _. split; [reflexivity|]. split; [now left|now split]. }
  destruct (json response) as [[prices|results|[h|]]|e];
    try (eexists _, _; split; [reflexivity|]; split; [now left|now split]).
  destruct (time h) as [times|];
    try (eexists _, _; split; [reflexivity|]; split; [now left|now split]).
  destruct (pd_to_datetime env times) as [ts|e];
    try (eexists _, _; split; [reflexivity|]; split; [now left|now split]).
  destruct (temperature_2m h) as [temperature|];
    try (eexists _, _; split; [reflexivity|]; split; [now left|now split]).
  destruct (relative_humidity_2m h) as [humidity|];
    try (eexists _, _; split; [reflexivity|]; split; [now left|now split]).
  destruct (precipitation h) as [precip|];
    try (eexists _, _; split; [reflexivity|]; split; [now left|now split]).
  destruct (pd_DataFrame _) as [df|e] eqn:Hdf;
    try (eexists _, _; split; [reflexivity|]; split; [now left|now split]).
  eexists _, _. split; [reflexivity|]. split; [|now split].
  right. now apply (weather_frame_shape ts temperature humidity precip).
Qed.

(** X11: [fetch_weather_data] never raises, whatever the two services answer,
    reads no clock and takes no draw.  Its table is empty, or has the five
    weather columns; every row holds an instant, a finite temperature,
    humidity and precipitation, and the name [get_coordinates] resolved. *)
Theorem fetch_weather_data_total (s : State) (location_name : string)
  (days : Z) :
  exists df s',
    fetch_weather_data location_name days env s = (Ok df, s') /\
    clock_reads s' = clock_reads s /\ random_draws s' = random_draws s /\
    (rows df <> [] -> columns df = weather_columns) /\
    Forall (weather_row_shape (snd (resolved env location_name))) (rows df).
Proof.
  destruct (fetch_weather_data_shape s location_name days)
    as (df & s' & Hrun & Hshape & Hc & Hr).
  exists df, s'. split; [exact Hrun|]. split; [exact Hc|].
  split; [exact Hr|].
  destruct Hshape as [->|[Hcols Hrows]].
  - split; [intros H; now contradiction H|constructor].
  - split; [intros _; exact Hcols|exact Hrows].
Qed.
End WeatherShape.

Lemma series_mean_floats (sum : list float -> float) (s : list pyval) :
  all_floats s -> exists m, series_mean sum s = Ok m.
Proof.
  intros Hall. unfold series_mean.
  destruct (traverse_as_float_floats s Hall) as (xs & -> & _).
  destruct (count_valid xs); now eexists.
Qed.

Lemma series_sum_floats (sum : list float -> float) (s : list pyval) :
  all_floats s -> exists total, series_sum sum s = Ok total.
Proof.
  intros Hall. unfold series_sum.
  destruct (traverse_as_float_floats s Hall) as (xs & -> & _).
  now eexists.
Qed.

Section WeatherTable.
Variable name : pyval.
Variable df : DataFrame.
Hypothesis shaped : weather_table name df.

Lemma weather_series (column : string) (j : nat) :
  column_index column weather_columns = Some j ->
  series df column = Ok (cells j df).
Proof.
  intros Hj. unfold series. destruct shaped as [-> _]. now rewrite Hj.
Qed.

Lemma weather_readings (j : nat) :
  (1 <= j <= 3)%nat -> all_floats (cells j df).
Proof.
  intros Hj. destruct shaped as [_ Hrows]. unfold all_floats, cells.
  apply Forall_map. apply Forall_forall. intros row Hin.
  rewrite Forall_forall in Hrows.
  destruct (Hrows row Hin) as (t & a & b & c & ->).
  destruct j as [|[|[|[|j]]]]; try lia; cbn; now eexists.
Qed.

Lemma weather_location :
  rows df <> [] -> iloc_first (cells 4 df) = Ok name.
Proof.
  destruct shaped as [_ Hrows]. unfold cells.
  destruct (rows df) as [|row rest]; [contradiction|]. intros _.
  inversion Hrows as [|? ? (t & a & b & c & ->) _]. reflexivity.
Qed.
End WeatherTable.

Section WeatherDashboard.
Variable env : Env.
Variable days : Z.
Variable location : string.

Lemma update_weather_dashboard_run (s : State) :
  exists df s1 dashboard,
    fetch_weather_data location days env s = (Ok df, s1) /\
    update_weather_dashboard days location env s
    = (Ok dashboard, advanced s1 1 0) /\
    last_update dashboard = strftime (clock env (clock_reads s)) /\
    clock_reads s1 = clock_reads s /\ random_draws s1 = random_draws s /\
    (rows df = [] -> stats_cards dashboard = []) /\
    (rows df <> [] ->
     exists avg_temp avg_humidity total_precip,
       series_mean (np_sum env) (cells 1 df) = Ok avg_temp /\
       series_mean (np_sum env) (cells 2 df) = Ok avg_humidity /\
       series_sum (np_sum env) (cells 3 df) = Ok total_precip /\
       stats_cards dashboard
       = weather_cards avg_temp avg_humidity total_precip
           (str_cell (snd (resolved env location))) days /\
       fig_traces (main_chart dashboard) = [weather_trace "line" 1 df] /\
       fig_traces (secondary_chart_1 dashboard)
       = [weather_trace "area" 2 df] /\
       fig_traces (secondary_chart_2 dashboard)
       = [weather_trace "bar" 3 df]).
Proof.
  destruct (fetch_weather_data_shape env s location days)
    as (df & s1 & Hrun & Hshape & Hc & Hr).
  exists df, s1. unfold update_weather_dashboard, bind at 1. rewrite Hrun.
  assert (Hadv : forall t : State,
             {| stdout := stdout t; clock_reads := S (clock_reads t);
                random_draws := random_draws t |} = advanced t 1 0).
  { intros t. unfold advanced. now rewrite Nat.add_1_r, Nat.add_0_r. }
  destruct (empty df) eqn:Hempty.
  - unfold create_empty_dashboard, bind, datetime_now, ret.
    eexists. split; [reflexivity|]. split; [now rewrite Hadv|].
    cbn [last_update stats_cards]. rewrite Hc. split; [reflexivity|].
    split; [reflexivity|]. split; [exact Hr|]. split; [reflexivity|].
    intros Hne. exfalso. apply Hne.
    destruct Hshape as [->|[Hcols _]]; [reflexivity|].
    unfold empty in Hempty. rewrite Hcols in Hempty.
    destruct (rows df); [reflexivity|discriminate].
  - destruct Hshape as [->|Hshape]; [discriminate|].
    assert (Hne : rows df <> []).
    { intros E. unfold empty in Hempty. now rewrite E in Hempty. }
    set (name := snd (resolved env location)) in *.
    destruct (series_mean_floats (np_sum env) _
                (weather_readings name df Hshape 1 ltac:(lia)))
      as [avg_temp Htemp].
    destruct (series_mean_floats (np_sum env) _
                (weather_readings name df Hshape 2 ltac:(lia)))
      as [avg_humidity Hhum].
    destruct (series_sum_floats (np_sum env) _
                (weather_readings name df Hshape 3 ltac:(lia)))
      as [total_precip Hprecip].
    unfold bind, lift, ask, single_trace.
    rewrite (weather_series name df Hshape "location" 4 eq_refl).
    rewrite (weather_series name df Hshape "temperature" 1 eq_refl).
    rewrite (weather_series name df Hshape "humidity" 2 eq_refl).
    rewrite (weather_series name df Hshape "precipitation" 3 eq_refl).
    rewrite (weather_series name df Hshape "time" 0 eq_refl).
    rewrite (weather_location name df Hshape Hne).
    rewrite Htemp, Hhum, Hprecip.
    destruct Hshape as [Hcols Hrows]. rewrite Hcols.
    cbn [column_index weather_columns String.eqb Ascii.eqb Bool.eqb
           option_map].
    unfold datetime_now, ret.
    eexists. split; [reflexivity|]. split; [now rewrite Hadv|].
    cbn [last_update stats_cards]. rewrite Hc. split; [reflexivity|].
    split; [reflexivity|]. split; [exact Hr|].
    split; [intros E; contradiction|]. intros _.
    exists avg_temp, avg_humidity, total_precip.
    now repeat split.
Qed.

(** X13: the weather dashboard never raises, whatever the services answer.  It
    reads the clock once, after the fetch, for the time of the refresh;
    it shows no card when the table is empty, and otherwise the three cards
    of the averages and the total, the first one subtitled with the name of
    the resolved place. *)
Theorem update_weather_dashboard_total (s : State) :
  exists dashboard s',
    update_weather_dashboard days location env s = (Ok dashboard, s') /\
    last_update dashboard = strftime (clock env (clock_reads s)) /\
    clock_reads s' = S (clock_reads s) /\
    random_draws s' = random_draws s /\
    (table (fetch_weather_data location days env s) = [] ->
     stats_cards dashboard = []) /\
    (table (fetch_weather_data location days env s) <> [] ->
     card_titles dashboard
     = ["Avg Temperature"; "Avg Humidity"; "Total Precipitation"] /\
     map card_text (stats_cards dashboard)
     = [str_cell (snd (resolved env location));
        "Next " ++ str_int days ++ " days";
        "Next " ++ str_int days ++ " days"]).
Proof.
  destruct (update_weather_dashboard_run s)
    as (df & s1 & dashboard & Hfetch & Hrun & Hstamp & Hc & Hr & Hnone
        & Hsome).
  exists dashboard, (advanced s1 1 0). split; [exact Hrun|].
  split; [exact Hstamp|]. cbn [advanced clock_reads random_draws].
  split; [lia|]. split; [lia|].
  unfold table. rewrite Hfetch. cbn [fst]. split; [exact Hnone|].
  intros Hne.
  destruct (Hsome Hne) as (avg_temp & avg_humidity & total_precip & _ & _
                           & _ & Hcards & _).
  unfold card_titles. now rewrite Hcards.
Qed.
End WeatherDashboard.

Lemma fill_missing_finite (qs : list Q) :
  fill_missing (map Finite qs) = map Finite qs.
Proof.
  unfold fill_missing. rewrite map_map. apply map_ext. intros q.
  pose proof (Finite_not_nan q) as H.
  destruct (Finite q); try reflexivity. contradiction.
Qed.

Lemma count_valid_finite (qs : list Q) :
  count_valid (map Finite qs) = List.length qs.
Proof.
  unfold count_valid.
  induction qs as [|q qs IH]; [reflexivity|].
  cbn [map filter]. rewrite is_missing_Finite. cbn [negb List.length].
  now rewrite IH.
Qed.

(** The sum and the mean of a column of readings without missing values. *)
Lemma series_sum_finite (sum : list float -> float) (qs : list Q) :
  series_sum sum (floats qs) = Ok (sum (map Finite qs)).
Proof.
  unfold series_sum. now rewrite traverse_as_float, fill_missing_finite.
Qed.

Lemma series_mean_finite (sum : list float -> float) (qs : list Q) :
  qs <> [] ->
  series_mean sum (floats qs)
  = Ok (fdiv (sum (map Finite qs)) (of_int (Z.of_nat (List.length qs)))).
Proof.
  intros Hne. unfold series_mean.
  rewrite traverse_as_float, count_valid_finite, fill_missing_finite.
  destruct qs; [contradiction|reflexivity].
Qed.

Section ForecastStatistics.
Variable env : Env.
Variables (location_name : string) (days : Z).
Variables (response : Response) (h : Hourly).
Variables (times : list string) (ts : list Timestamp).
Variables (temperature humidity precip : list Q).
Hypothesis answered : forecast env location_name days = Ok response.
Hypothesis success : status_code response = 200.
Hypothesis decoded : json response = Ok (Forecast (Some h)).
Hypothesis has_time : time h = Some times.
Hypothesis has_temperature : temperature_2m h = Some temperature.
Hypothesis has_humidity : relative_humidity_2m h = Some humidity.
Hypothesis has_precipitation : precipitation h = Some precip.
Hypothesis parsed : pd_to_datetime env times = Ok ts.
Variable n : nat.
Hypothesis hours : List.length ts = S n.
Hypothesis temperatures : List.length temperature = S n.
Hypothesis humidities : List.length humidity = S n.
Hypothesis precipitations : List.length precip = S n.

(** The columns of the table of a forecast of [S n] hours. *)
Lemma forecast_cells (s : State) :
  exists df s1,
    fetch_weather_data location_name days env s = (Ok df, s1) /\
    rows df <> [] /\
    cells 0 df = map PyTime ts /\
    cells 1 df = floats temperature /\
    cells 2 df = floats humidity /\
    cells 3 df = floats precip.
Proof.
  destruct (fetch_weather_data_frame env location_name days response h
              times ts temperature humidity precip answered success decoded
              has_time has_temperature has_humidity has_precipitation parsed
              s) as [s1 ->].
  unfold pd_DataFrame. cbn [index_length forallb].
  unfold floats at 1 2 3.
  rewrite !length_map, hours, temperatures, humidities, precipitations,
    Nat.eqb_refl.
  cbn [andb]. eexists _, s1. split; [reflexivity|].
  unfold cells. cbn [setitem_scalar rows columns map fst].
  rewrite !map_map.
  unfold set_cell. cbn [column_index String.eqb Ascii.eqb Bool.eqb
    option_map app nth cell_of].
  split; [discriminate|].
  rewrite <- hours at 1.
  rewrite <- (length_map PyTime ts) at 1.
  rewrite <- temperatures at 1. rewrite <- humidities at 1.
  rewrite <- precipitations.
  rewrite <- (length_map (fun q => PyFloat (Finite q)) temperature) at 1.
  rewrite <- (length_map (fun q => PyFloat (Finite q)) humidity) at 1.
  rewrite <- (length_map (fun q => PyFloat (Finite q)) precip) at 1.
  fold (floats temperature). fold (floats humidity). fold (floats precip).
  now rewrite !map_nth_seq.
Qed.

(** X14: for a well-formed forecast of [S n] hours the cards of the weather
    dashboard show the mean of the hourly temperatures, the mean of the
    hourly humidities and the sum of the hourly precipitations, each
    formatted with one decimal: the sums are numpy's, a mean is the sum
    divided by the number of hours, in binary64.  The three charts plot the
    temperatures, the humidities and the precipitations against the
    instants of the forecast. *)
Theorem update_weather_dashboard_statistics (s : State) :
  exists dashboard s',
    update_weather_dashboard days location_name env s = (Ok dashboard, s') /\
    stats_cards dashboard
    = weather_cards
        (fdiv (np_sum env (map Finite temperature))
           (of_int (Z.of_nat (S n))))
        (fdiv (np_sum env (map Finite humidity)) (of_int (Z.of_nat (S n))))
        (np_sum env (map Finite precip))
        (str_cell (snd (resolved env location_name))) days /\
    fig_traces (main_chart dashboard)
    = [{| trace_kind := "line"; trace_name := "";
          trace_x := map PyTime ts; trace_y := floats temperature |}] /\
    fig_traces (secondary_chart_1 dashboard)
    = [{| trace_kind := "area"; trace_name := "";
          trace_x := map PyTime ts; trace_y := floats humidity |}] /\
    fig_traces (secondary_chart_2 dashboard)
    = [{| trace_kind := "bar"; trace_name := "";
          trace_x := map PyTime ts; trace_y := floats precip |}].
Proof.
  destruct (update_weather_dashboard_run env days location_name s)
    as (df & s1 & dashboard & Hfetch & Hrun & _ & _ & _ & _ & Hsome).
  destruct (forecast_cells s)
    as (df' & s1' & Hfetch' & Hne & Hi & Ht & Hh & Hp).
  rewrite Hfetch in Hfetch'. injection Hfetch' as <- <-.
  destruct (Hsome Hne) as (avg_temp & avg_humidity & total_precip & Htemp
                           & Hhum & Hprecip & Hcards & Hmain & Hsec1 & Hsec2).
  rewrite Ht, series_mean_finite, temperatures in Htemp
    by (destruct temperature; discriminate).
  rewrite Hh, series_mean_finite, humidities in Hhum
    by (destruct humidity; discriminate).
  rewrite Hp, series_sum_finite in Hprecip.
  injection Htemp as <-. injection Hhum as <-. injection Hprecip as <-.
  exists dashboard, (advanced s1 1 0).
  split; [exact Hrun|]. split; [exact Hcards|].
  rewrite Hmain, Hsec1, Hsec2. unfold weather_trace.
  now rewrite Hi, Ht, Hh, Hp.
Qed.
End ForecastStatistics.

(** ** The main callback and the cards *)

(** X15: the main callback returns a dashboard for every location text and
    click count: in the weather mode for every range; in the crypto mode
    when no coin is answered with an empty list of prices; in the stock
    mode, which every other selector chooses, when the range is a day or
    more and its dates are instants pandas represents.  The time of the
    refresh is the last reading of the clock. *)
Theorem update_dashboard_returns (env : Env) (s : State)
  (n_clicks n_intervals : Z) (data_type : string) (time_range : Z)
  (location : option string) :
  (data_type = "crypto" ->
   no_empty_answer env time_range default_coins = true) ->
  (data_type <> "crypto" -> data_type <> "weather" ->
   1 <= time_range /\
   ranges_fit env (clock_reads s) default_symbols time_range = true) ->
  exists dashboard s',
    update_dashboard n_clicks n_intervals data_type time_range location env s
    = (Ok dashboard, s') /\
    (clock_reads s < clock_reads s')%nat /\
    last_update dashboard = strftime (clock env (Nat.pred (clock_reads s'))).
Proof.
  intros _ Hstocks. unfold update_dashboard.
  destruct (String.eqb_spec data_type "crypto") as [_|Hcrypto].
  { destruct (update_crypto_dashboard_run env time_range s)
      as (df & s1 & dashboard & _ & Hrun & Hstamp & _ & Hc & _).
    exists dashboard, (advanced s1 1 0). split; [exact Hrun|].
    cbn [advanced clock_reads]. rewrite Hc, Nat.add_1_r.
    split; [lia|exact Hstamp]. }
  destruct (String.eqb_spec data_type "weather") as [_|Hweather].
  { destruct (update_weather_dashboard_run env time_range
                (or_default location "New York") s)
      as (df & s1 & dashboard & _ & Hrun & Hstamp & Hc & _).
    exists dashboard, (advanced s1 1 0). split; [exact Hrun|].
    cbn [advanced clock_reads]. rewrite Hc, Nat.add_1_r.
    split; [lia|exact Hstamp]. }
  destruct (Hstocks Hcrypto Hweather) as [Hdays Hfits].
  destruct (update_stocks_dashboard_run env time_range Hdays s Hfits)
    as (df & dashboard & _ & Hrun & Hstamp & _).
  exists dashboard, (advanced s 4 (3 * Z.to_nat time_range)).
  split; [exact Hrun|]. cbn [advanced clock_reads].
  replace (clock_reads s + 4)%nat with (S (clock_reads s + 3)) by lia.
  split; [lia|exact Hstamp].
Qed.

(** X16: the border of a price card is chosen by the position of the card, the
    three colours taken in turn. *)
Theorem price_cards_borders (df : DataFrame) (key : string)
  (latest_prices : list (string * pyval)) :
  forall (i : nat) (cards : list Card) (k : nat) (card : Card),
    price_cards df key i latest_prices = Ok cards ->
    nth_error cards k = Some card ->
    card_border card = nth ((i + k) mod 3) colors_list "" /\
    option_map fst (nth_error latest_prices k) = Some (card_title card).
Proof.
  induction latest_prices as [|[label price] rest IH];
    intros i cards k card Hcards Hk.
  - injection Hcards as <-. destruct k; discriminate.
  - cbn [price_cards] in Hcards.
    destruct (last_step_change df key label) as [change|]; [|discriminate].
    destruct (as_float price) as [x|]; [|discriminate].
    destruct (price_cards df key (S i) rest) as [others|] eqn:E;
      [|discriminate].
    injection Hcards as <-. destruct k as [|k].
    + injection Hk as <-. cbn [card_border card_title nth_error option_map fst].
      now rewrite Nat.add_0_r.
    + cbn [nth_error] in Hk |- *.
      destruct (IH (S i) others k card E Hk) as [Hborder Htitle].
      split; [|exact Htitle].
      rewrite Hborder. f_equal. f_equal. lia.
Qed.

Section ForecastMalformed.
Variable env : Env.
Variables (location_name : string) (days : Z).
Variable response : Response.
Hypothesis answered : forecast env location_name days = Ok response.
Hypothesis success : status_code response = 200.

(** X12: a forecast answered with status 200 that cannot be read, because the
    body does not decode, ['hourly'] or one of its four arrays is missing,
    or the instants do not parse, gives the empty table; the error is
    printed and not raised. *)
Theorem fetch_weather_data_malformed (s : State) (e : exn) :
  forecast_arrays env response = Raise e ->
  fetch_weather_data location_name days env s
  = (Ok pd_DataFrame_empty,
     printed (snd (get_coordinates location_name env s))
       ("Error fetching weather: " ++ str_exn e)) /\
  (json response = Ok (Forecast None) -> e = KeyError "hourly").
Proof.
  intros Harrays. split.
  - pose proof answered as Hget.
    unfold forecast in Hget. rewrite resolved_located in Hget.
    unfold fetch_weather_data, bind at 1.
    destruct (get_coordinates_run env s location_name) as (s1 & -> & _).
    cbn [snd].
    destruct (located (geocode env location_name))
      as [[latitude longitude] resolved_name].
    unfold forecast_arrays in Harrays. unfold printed. run_monad.
    rewrite Hget, success. cbn [Z.eqb Pos.eqb].
    destruct (json_hourly response) as [data|e0];
      [|now injection Harrays as ->].
    destruct (member "time" (time data)) as [times|e0];
      [|now injection Harrays as ->].
    destruct (pd_to_datetime env times) as [ts|e0];
      [|now injection Harrays as ->].
    destruct (member "temperature_2m" (temperature_2m data))
      as [temperature|e0]; [|now injection Harrays as ->].
    destruct (member "relative_humidity_2m" (relative_humidity_2m data))
      as [humidity|e0]; [|now injection Harrays as ->].
    destruct (member "precipitation" (precipitation data))
      as [precip|e0]; [|now injection Harrays as ->].
    discriminate.
  - intros Hjson. unfold forecast_arrays, json_hourly in Harrays.
    rewrite Hjson in Harrays. now injection Harrays as <-.
Qed.
End ForecastMalformed.

(** ** The further properties on the sample days *)

Lemma fetch_crypto_data_log_witness :
  exists df s',
    fetch_crypto_data ["bitcoin"; "cardano"; "dogecoin"] 7 sample_env
      initial_state
    = (Ok df, s') /\
    stdout s'
    = ["Error fetching cardano: Read timed out.";
       "Error fetching dogecoin: "
       ++ out_of_bounds_text sample_env [10000000000000000]].
Proof.
  destruct (fetch_crypto_data_log sample_env 7 initial_state
              ["bitcoin"; "cardano"; "dogecoin"])
    as (df & s' & Hrun & Hout & _).
  exists df, s'. split; [exact Hrun|]. rewrite Hout. reflexivity.
Defined.

Lemma coin_rows_need_prices_witness :
  exists response prices,
    market_chart sample_env "bitcoin" 7 = Ok response /\
    status_code response = 200 /\
    json response = Ok (MarketChart (Some prices)) /\ prices <> [] /\
    List.length (coin_rows sample_env 7 "bitcoin") = List.length prices.
Proof.
  apply (coin_rows_need_prices sample_env 7 "bitcoin").
  intros H. discriminate H.
Defined.

Lemma get_coordinates_log_witness :
  get_coordinates "Paris" patchy_env initial_state
  = (Ok default_location,
     printed initial_state "Error geocoding location: 'name'").
Proof.
  destruct (get_coordinates_log patchy_env initial_state "Paris")
    as (_ & _ & Hmissing & _).
  exact (Hmissing _ nameless [] "name" eq_refl eq_refl eq_refl eq_refl).
Defined.

Lemma generate_mock_stock_data_edges_witness :
  (exists msg,
      fst (generate_mock_stock_data default_symbols (-1) sample_env
             initial_state)
      = Raise (OverflowError msg)) /\
  fst (generate_mock_stock_data default_symbols 0 sample_env initial_state)
  = Ok {| columns := stock_columns; rows := [] |}.
Proof.
  destruct (generate_mock_stock_data_edges sample_env initial_state)
    as (_ & Hnegative & Hzero).
  split.
  - apply Hnegative; [discriminate|lia|reflexivity].
  - apply Hzero; [discriminate|reflexivity].
Defined.

Lemma update_crypto_dashboard_total_witness :
  exists dashboard s',
    update_crypto_dashboard 7 sample_env initial_state = (Ok dashboard, s') /\
    In "Bitcoin" (card_titles dashboard) /\
    In "Ethereum" (card_titles dashboard) /\
    ~ In "Cardano" (card_titles dashboard).
Proof.
  destruct (update_crypto_dashboard_total sample_env 7 initial_state eq_refl)
    as (dashboard & s' & Hrun & _ & _ & _ & _ & Hcards).
  exists dashboard, s'. split; [exact Hrun|]. split; [|split].
  - apply Hcards. exists "bitcoin".
    split; [now left|]. split; [discriminate|reflexivity].
  - apply Hcards. exists "ethereum".
    split; [right; now left|]. split; [discriminate|reflexivity].
  - intros Hin. apply Hcards in Hin as (coin & Hcoin & Hrows & Hlabel).
    destruct Hcoin as [<-|[<-|[<-|[]]]]; try discriminate Hlabel.
    now apply Hrows.
Defined.

Lemma update_stocks_dashboard_total_witness :
  exists dashboard s',
    update_stocks_dashboard 7 sample_env initial_state = (Ok dashboard, s') /\
    clock_reads s' = 4%nat /\ random_draws s' = 21%nat /\
    stdout s' = [] /\
    last_update dashboard = strftime (clock sample_env 3) /\
    card_titles dashboard = ["AAPL"; "GOOGL"; "MSFT"].
Proof.
  destruct (update_stocks_dashboard_total sample_env initial_state 7)
    as [Hpositive _].
  apply Hpositive; [lia|reflexivity].
Defined.

Lemma fetch_weather_data_malformed_witness :
  fetch_weather_data "Paris" 1 patchy_env initial_state
  = (Ok pd_DataFrame_empty,
     {| stdout := ["Error geocoding location: 'name'";
                   "Error fetching weather: 'precipitation'"];
        clock_reads := 0; random_draws := 0 |}).
Proof.
  destruct (fetch_weather_data_malformed patchy_env "Paris" 1
              {| status_code := 200; json := Ok (Forecast (Some no_rain)) |}
              eq_refl eq_refl initial_state (KeyError "precipitation")
              eq_refl) as [Hrun _].
  exact Hrun.
Defined.

Lemma update_weather_dashboard_statistics_witness :
  exists dashboard s',
    update_weather_dashboard 1 "London" sample_env initial_state
    = (Ok dashboard, s') /\
    map card_value (stats_cards dashboard) = ["15.8°C"; "71.5%"; "27.6mm"] /\
    map card_text (stats_cards dashboard)
    = ["London"; "Next 1 days"; "Next 1 days"] /\
    map trace_y (fig_traces (main_chart dashboard))
    = [floats (ramp 10 0.5 24)].
Proof.
  destruct (update_weather_dashboard_statistics sample_env "London" 1
              {| status_code := 200; json := Ok (Forecast (Some full_day)) |}
              full_day hours_of_day
              (map (fun h => (1704067200 + Z.of_nat h * 3600) * SECOND)
                 (seq 0 24))
              (ramp 10 0.5 24) (ramp 60 1 24) (ramp 0 0.1 24)
              eq_refl eq_refl eq_refl eq_refl eq_refl eq_refl eq_refl eq_refl
              23 eq_refl eq_refl eq_refl eq_refl initial_state)
    as (dashboard & s' & Hrun & Hcards & Hmain & _).
  exists dashboard, s'. split; [exact Hrun|]. rewrite Hcards, Hmain.
  repeat split.
Defined.

Lemma update_dashboard_returns_witness :
  exists dashboard s',
    update_dashboard 0 0 "forex" 7 None sample_env initial_state
    = (Ok dashboard, s') /\
    (clock_reads initial_state < clock_reads s')%nat /\
    last_update dashboard
    = strftime (clock sample_env (Nat.pred (clock_reads s'))).
Proof.
  apply (update_dashboard_returns sample_env initial_state 0 0 "forex" 7 None).
  - intros H. discriminate H.
  - intros _ _. split; [lia|reflexivity].
Defined.

Lemma price_cards_borders_witness :
  exists cards card,
    price_cards bitcoin_table "coin" 0 [("Bitcoin", PyFloat (Finite 110))]
    = Ok cards /\
    nth_error cards 0 = Some card /\
    card_border card = "#3b82f6" /\ card_title card = "Bitcoin".
Proof.
  destruct (price_cards bitcoin_table "coin" 0
              [("Bitcoin", PyFloat (Finite 110))]) as [cards|] eqn:Hcards;
    [|discriminate Hcards].
  destruct (nth_error cards 0) as [card|] eqn:Hcard.
  - destruct (price_cards_borders bitcoin_table "coin"
                [("Bitcoin", PyFloat (Finite 110))] 0 cards 0 card Hcards Hcard)
      as [Hborder Htitle].
    exists cards, card. split; [reflexivity|]. split; [exact Hcard|].
    split; [exact Hborder|]. now injection Htitle.
  - exfalso. vm_compute in Hcards. injection Hcards as <-. discriminate Hcard.
Defined.

Lemma update_crypto_dashboard_charts_witness :
  exists dashboard s',
    update_crypto_dashboard 7 sample_env initial_state = (Ok dashboard, s') /\
    map trace_name (fig_traces (main_chart dashboard))
    = ["Bitcoin"; "Ethereum"] /\
    map trace_y (fig_traces (main_chart dashboard))
    = [floats [100; 95; 110]%Q; floats [100; 110]%Q] /\
    map trace_kind (fig_traces (secondary_chart_1 dashboard))
    = ["scatter"; "scatter"].
Proof.
  destruct (update_crypto_dashboard_charts sample_env 7 initial_state
              eq_refl)
    as (dashboard & s' & Hrun & Hmain & Hsec1 & _).
  exists dashboard, s'. split; [exact Hrun|]. rewrite Hmain, Hsec1.
  repeat split.
Defined.

Lemma update_stocks_dashboard_charts_witness :
  exists dashboard s',
    update_stocks_dashboard 7 sample_env initial_state = (Ok dashboard, s') /\
    fig_traces (main_chart dashboard)
    = [symbol_trace "line" sample_env 0 0 "AAPL" 7;
       symbol_trace "line" sample_env 1 7 "GOOGL" 7;
       symbol_trace "line" sample_env 2 14 "MSFT" 7] /\
    fig_traces (secondary_chart_1 dashboard)
    = [symbol_trace "area" sample_env 0 0 "AAPL" 7;
       symbol_trace "area" sample_env 1 7 "GOOGL" 7;
       symbol_trace "area" sample_env 2 14 "MSFT" 7] /\
    exists df s1 changes,
      generate_mock_stock_data default_symbols 7 sample_env initial_state
      = (Ok df, s1) /\
      groupby_apply df "symbol" "price" total_change = Ok changes /\
      map fst changes = ["AAPL"; "GOOGL"; "MSFT"] /\
      fig_traces (secondary_chart_2 dashboard)
      = [{| trace_kind := "bar"; trace_name := "";
            trace_x := [PyStr "AAPL"; PyStr "GOOGL"; PyStr "MSFT"];
            trace_y := map snd changes |}].
Proof.
  apply (update_stocks_dashboard_charts sample_env initial_state 7);
    [lia|reflexivity].
Defined.
